(** * Betv4: paired sports bets, their metrics, resolution and storage

    A shallow embedding of the TypeScript sources of the bet tracker:
    [shared/schema.ts] (pair metrics, pair validation), the dashboard's
    [pairStats], the tracker's [sanitizeNumber], [convertClaudeToOCRFormat]
    and [formatGameDate], the verification form's [validateForm] and the
    in-memory store [MemStorage]; further, the grouping of the bets by pair
    id over a plain object, the filters and the summary of the reports,
    the bet routes with [formatToText] and [detectImageMediaType], the two
    bets saved by [handleOCRConfirm], the bet card, the pair status of the
    bet management and the editing of the verification form.

    JavaScript numbers are IEEE 754 binary64 values, embedded as Rocq's
    primitive floats; JavaScript strings are sequences of UTF-16 code
    units, embedded as lists of [N]. *)

From stdpp Require Import gmap.
From Stdlib Require Import Floats NArith ZArith List Bool Ascii String Lia.
Import ListNotations.

Local Open Scope N_scope.

(** ** JavaScript values *)

Module JS.

(** A string is its sequence of UTF-16 code units. *)
Definition codeunit := N.
Definition jsstring := list codeunit.

(** ASCII literals of the sources. *)
Definition lit (s : string) : jsstring :=
  List.map N_of_ascii (list_ascii_of_string s).

Definition unit_eqb (c d : codeunit) : bool := N.eqb c d.

Fixpoint str_eqb (s t : jsstring) : bool :=
  match s, t with
  | [], [] => true
  | c :: s', d :: t' => unit_eqb c d && str_eqb s' t'
  | _, _ => false
  end.

(** The class [\s] of regular expressions, which is also what
    [String.prototype.trim] strips: WhiteSpace and LineTerminator. *)
Definition isWhiteSpace (c : codeunit) : bool :=
  ((9 <=? c) && (c <=? 13))          (* \t \n \v \f \r *)
  || (c =? 32)                       (* space *)
  || (c =? 160)                      (* U+00A0 no-break space *)
  || (c =? 5760)                     (* U+1680 *)
  || ((8192 <=? c) && (c <=? 8202))  (* U+2000 .. U+200A *)
  || (c =? 8232) || (c =? 8233)      (* U+2028, U+2029 *)
  || (c =? 8239)                     (* U+202F narrow no-break space *)
  || (c =? 8287)                     (* U+205F *)
  || (c =? 12288)                    (* U+3000 *)
  || (c =? 65279).                   (* U+FEFF *)

Fixpoint dropWhile (p : codeunit -> bool) (s : jsstring) : jsstring :=
  match s with
  | [] => []
  | c :: s' => if p c then dropWhile p s' else s
  end.

Definition trimStart (s : jsstring) : jsstring := dropWhile isWhiteSpace s.
Definition trimEnd (s : jsstring) : jsstring :=
  List.rev (dropWhile isWhiteSpace (List.rev s)).
Definition trim (s : jsstring) : jsstring := trimEnd (trimStart s).

(** [String.prototype.toLowerCase] lowers a string by the case tables of
    Unicode, which the engine holds and the sources do not: the
    definitions that call it take the conversion as a parameter
    [toLowerCase]. On a string of Basic Latin and Latin-1 Supplement units
    (below U+0100, the ranges of the team-name pattern [[A-Za-zÀ-ÿ0-9]] of
    the OCR parser) the conversion works unit by unit: the upper-case
    letters there are A-Z and U+00C0 .. U+00DE without the multiplication
    sign U+00D7, their lower-case partner is 32 units above, and every
    other unit stays. [toLowerCaseLatin1] is the conversion on such
    strings, used to run the definitions on concrete names, and
    [LowersLatin1] says of a conversion that it agrees with it there. *)
Definition isUpperUnit (c : codeunit) : bool :=
  ((65 <=? c) && (c <=? 90))
  || ((192 <=? c) && (c <=? 222) && negb (c =? 215)).

Definition toLowerUnit (c : codeunit) : codeunit :=
  if isUpperUnit c then c + 32 else c.

Definition isLatin1 (c : codeunit) : bool := c <? 256.

Definition toLowerCaseLatin1 (s : jsstring) : jsstring := List.map toLowerUnit s.

Definition LowersLatin1 (toLowerCase : jsstring -> jsstring) : Prop :=
  forall s : jsstring,
    List.forallb isLatin1 s = true -> toLowerCase s = toLowerCaseLatin1 s.

(** Two code units that are the same letter: equal, or an upper-case
    letter and its lower-case partner. Two strings differ only in letter
    case when their units are pairwise the same letter. *)
Definition sameLetter (c d : codeunit) : bool :=
  unit_eqb c d
  || (isUpperUnit c && unit_eqb d (c + 32))
  || (isUpperUnit d && unit_eqb c (d + 32)).

Definition differOnlyInCase (s t : jsstring) : Prop :=
  List.Forall2 (fun c d => sameLetter c d = true) s t.

(** [s.includes(c)] for a one-unit needle. *)
Definition includes (c : codeunit) (s : jsstring) : bool :=
  List.existsb (unit_eqb c) s.

(** [s.replace(/c/g, d)] for one-unit [c] and [d]. *)
Definition replaceAll (c d : codeunit) (s : jsstring) : jsstring :=
  List.map (fun u => if unit_eqb u c then d else u) s.

(** [s.replace(/[class]/g, '')]. *)
Definition removeAll (p : codeunit -> bool) (s : jsstring) : jsstring :=
  List.filter (fun u => negb (p u)) s.

(** [s.replace(c, '')] with a string pattern: the first occurrence only. *)
Fixpoint removeFirst (c : codeunit) (s : jsstring) : jsstring :=
  match s with
  | [] => []
  | u :: s' => if unit_eqb u c then s' else u :: removeFirst c s'
  end.

(** [s.split(c)] for a one-unit separator: never empty. *)
Fixpoint split (c : codeunit) (s : jsstring) : list jsstring :=
  match s with
  | [] => [[]]
  | u :: s' =>
      if unit_eqb u c then [] :: split c s'
      else match split c s' with
           | [] => [[u]]
           | p :: ps => (u :: p) :: ps
           end
  end.

Definition isDigit (c : codeunit) : bool := (48 <=? c) && (c <=? 57).

Definition slash : codeunit := 47.
Definition dash : codeunit := 45.
Definition comma : codeunit := 44.
Definition dot : codeunit := 46.
Definition percent : codeunit := 37.
Definition zeroDigit : codeunit := 48.

(** Decimal digits of a natural number, as [Number.prototype.toString]
    prints a non-negative integer. *)
Fixpoint digitsFuel (fuel : nat) (n : N) (acc : jsstring) : jsstring :=
  match fuel with
  | O => acc
  | S fuel' =>
      let acc' := (48 + n mod 10) :: acc in
      if n <? 10 then acc' else digitsFuel fuel' (n / 10) acc'
  end.

Definition natToString (n : N) : jsstring :=
  digitsFuel (S (N.to_nat (N.log2 n))) n [].

(** [s.padStart(len, '0')]. *)
Definition padStart (len : nat) (fill : codeunit) (s : jsstring) : jsstring :=
  List.repeat fill (len - List.length s) ++ s.

(** Numbers: IEEE 754 binary64. *)
Definition number := float.

Definition isNaN (x : number) : bool := PrimFloat.is_nan x.
Definition isInfinite (x : number) : bool := PrimFloat.is_infinity x.

(** [x > y] is [y < x]; false as soon as one side is NaN. *)
Definition gt (x y : number) : bool := PrimFloat.ltb y x.
(** [x <= y]. *)
Definition le (x y : number) : bool := PrimFloat.leb x y.
(** [x === y] on numbers: the two zeros are equal, NaN differs from itself. *)
Definition strictEq (x y : number) : bool := PrimFloat.eqb x y.

(** The same number value up to the sign of a zero: what a reader of a
    number sees, with NaN taken as one value. *)
Definition sameNumber (x y : number) : Prop :=
  x = y \/ strictEq x y = true.

(** A reader of the plain decimal literals that decimal columns and the
    verification form hold: optional sign, digits, optional fraction.
    The value is the quotient of two exactly represented integers, hence
    correctly rounded, for literals of at most 15 digits; on any other
    string this reader answers NaN. It is one instance of the [Number]
    conversion, used to run the definitions on concrete records; the
    definitions and theorems below take the conversion as a variable. *)
Fixpoint readDigits (s : jsstring) (acc : N) (cnt : nat)
  : N * nat * jsstring :=
  match s with
  | c :: s' =>
      if isDigit c then readDigits s' (10 * acc + (c - 48)) (S cnt)
      else (acc, cnt, s)
  | [] => (acc, cnt, [])
  end.

Definition ofN (n : N) : number :=
  PrimFloat.of_uint63 (Uint63.of_Z (Z.of_N n)).

Definition readUnsigned (s : jsstring) : number :=
  let '(ip, ni, rest) := readDigits s 0 0%nat in
  match rest with
  | [] =>
      if ((0 <? ni)%nat && (ni <=? 15)%nat)%bool then ofN ip else PrimFloat.nan
  | c :: rest' =>
      if unit_eqb c dot then
        let '(m, n, rest'') := readDigits rest' ip ni in
        match rest'' with
        | [] =>
            if ((0 <? n)%nat && (n <=? 15)%nat)%bool
            then PrimFloat.div (ofN m) (ofN (10 ^ N.of_nat (n - ni)))
            else PrimFloat.nan
        | _ :: _ => PrimFloat.nan
        end
      else PrimFloat.nan
  end.

Definition NumberDecimal (s : jsstring) : number :=
  match trim s with
  | [] => PrimFloat.zero
  | c :: s' =>
      if unit_eqb c 45 then PrimFloat.opp (readUnsigned s')
      else if unit_eqb c 43 then readUnsigned s'
      else readUnsigned (c :: s')
  end.

End JS.

Import JS.

(** ** shared/schema.ts *)

Module Schema.

Inductive BetStatus := pending | won | lost | returned.
Inductive BetPosition := PosA | PosB.

Definition status_eqb (s t : BetStatus) : bool :=
  match s, t with
  | pending, pending | won, won | lost, lost | returned, returned => true
  | _, _ => false
  end.

Definition position_eqb (p q : BetPosition) : bool :=
  match p, q with
  | PosA, PosA | PosB, PosB => true
  | _, _ => false
  end.

(** A row of the [bets] table ([Bet = typeof bets.$inferSelect]): decimal
    columns are strings, [createdAt] is a time value in milliseconds. *)
Record Bet := mkBet {
  id : jsstring;
  teamA : jsstring;
  teamB : jsstring;
  betType : jsstring;
  selectedSide : jsstring;
  bettingHouse : jsstring;
  odds : jsstring;
  stake : jsstring;
  payout : jsstring;
  gameDate : jsstring;
  gameTime : jsstring;
  sport : jsstring;
  league : jsstring;
  status : BetStatus;
  isVerified : bool;
  pairId : jsstring;
  betPosition : BetPosition;
  totalPairStake : option jsstring;
  profitPercentage : option jsstring;
  createdAt : Z
}.

Record PairMetrics := mkPairMetrics {
  totalStake : number;
  profitPercentageA : number;
  profitPercentageB : number
}.

Definition calculatePairMetrics (stakeA stakeB payoutA payoutB : number)
  : PairMetrics :=
  let totalStake := (stakeA + stakeB)%float in
  let profitPercentageA :=
    if gt totalStake 0%float
    then (((payoutA - totalStake) / totalStake) * 100)%float else 0%float in
  let profitPercentageB :=
    if gt totalStake 0%float
    then (((payoutB - totalStake) / totalStake) * 100)%float else 0%float in
  {| totalStake := totalStake;
     profitPercentageA := profitPercentageA;
     profitPercentageB := profitPercentageB |}.

End Schema.

Import Schema.

(** ** The dashboard: pair statistics *)

Module Dashboard.

(** One entry of [pairStats]. *)
Record PairStat := mkPairStat {
  ps_pairId : jsstring;
  ps_status : BetStatus;
  ps_totalStake : number;
  ps_netResult : number;
  ps_gameDate : jsstring;
  ps_incomplete : bool
}.

(** [bet => bet.betPosition === 'A'] and [bet => bet.betPosition === 'B']. *)
Definition isA (bet : Bet) : bool := position_eqb (betPosition bet) PosA.
Definition isB (bet : Bet) : bool := position_eqb (betPosition bet) PosB.

(** [pairBets.sort((a, b) => a.betPosition.localeCompare(b.betPosition))]:
    the sort is stable and the key has two values, 'A' before 'B'. *)
Definition sortByPosition (pairBets : list Bet) : list Bet :=
  List.filter isA pairBets ++ List.filter isB pairBets.

Section WithNumber.

(** The conversion [Number(...)] of a decimal column to a number. *)
Variable Number : jsstring -> number.

(** The callback of [Object.values(pairs).map(pairBets => ...)];
    [None] is the callback's [null]. *)
Definition pairStat (pairBets : list Bet) : option PairStat :=
  let sortedBets := sortByPosition pairBets in
  let betA := List.find isA sortedBets in
  let betB := List.find isB sortedBets in
  match betA, betB with
  | None, None => None
  | Some existingBet, None | None, Some existingBet =>
      Some {| ps_pairId := pairId existingBet;
              ps_status := pending;
              ps_totalStake := Number (stake existingBet);
              ps_netResult := 0%float;
              ps_gameDate := gameDate existingBet;
              ps_incomplete := true |}
  | Some betA, Some betB =>
      let stakeA := Number (stake betA) in
      let stakeB := Number (stake betB) in
      let totalStake := (stakeA + stakeB)%float in
      let statusA := status betA in
      let statusB := status betB in
      let returnedA := status_eqb statusA returned in
      let returnedB := status_eqb statusB returned in
      let wonLeg :=
        if status_eqb statusA won then Some betA
        else if status_eqb statusB won then Some betB else None in
      let '(pairStatus, netResult) :=
        if status_eqb statusA pending || status_eqb statusB pending then
          (pending, 0%float)
        else if returnedA && returnedB then
          (returned, 0%float)
        else
          let returnedAmount :=
            ((if returnedA then stakeA else 0) + (if returnedB then stakeB else 0))%float in
          match wonLeg with
          | Some wonLeg =>
              (won, (Number (payout wonLeg) + returnedAmount - totalStake)%float)
          | None =>
              (lost, (returnedAmount - totalStake)%float)
          end in
      Some {| ps_pairId := pairId betA;
              ps_status := pairStatus;
              ps_totalStake := totalStake;
              ps_netResult := netResult;
              ps_gameDate := gameDate betA;
              ps_incomplete := false |}
  end.

(** The quantities of the resolution table of the specification: the
    total stake of a pair and the sum of the stakes of its returned legs. *)
Definition stakesTotal (betA betB : Bet) : number :=
  (Number (stake betA) + Number (stake betB))%float.

Definition returnedStakes (betA betB : Bet) : number :=
  ((if status_eqb (status betA) returned then Number (stake betA) else 0)
   + (if status_eqb (status betB) returned then Number (stake betB) else 0))%float.

(** [Object.values(pairs).map(...).filter(Boolean)], over the groups
    [Object.values(pairs)] in the order the object enumerates them. *)
Fixpoint pairStats (groups : list (list Bet)) : list PairStat :=
  match groups with
  | [] => []
  | pairBets :: rest =>
      match pairStat pairBets with
      | Some p => p :: pairStats rest
      | None => pairStats rest
      end
  end.

Definition countIf (f : PairStat -> bool) (l : list PairStat) : nat :=
  List.length (List.filter f l).

Definition sumNet (l : list PairStat) : number :=
  List.fold_left (fun acc pair => (acc + ps_netResult pair)%float) l 0%float.

Record Stats := mkStats {
  totalPairs : nat;
  completePairs : nat;
  incompletePairs : nat;
  pendingPairs : nat;
  wonPairs : nat;
  lostPairs : nat;
  returnedPairs : nat;
  totalStaked : number;
  totalProfit : number;
  totalLoss : number
}.

Definition stats (groups : list (list Bet)) : Stats :=
  let ps := pairStats groups in
  {| totalPairs := List.length ps;
     completePairs := countIf (fun pair => negb (ps_incomplete pair)) ps;
     incompletePairs := countIf ps_incomplete ps;
     pendingPairs := countIf (fun pair => status_eqb (ps_status pair) pending) ps;
     wonPairs := countIf (fun pair => status_eqb (ps_status pair) won) ps;
     lostPairs := countIf (fun pair => status_eqb (ps_status pair) lost) ps;
     returnedPairs := countIf (fun pair => status_eqb (ps_status pair) returned) ps;
     totalStaked :=
       List.fold_left (fun acc pair => (acc + ps_totalStake pair)%float) ps 0%float;
     totalProfit :=
       sumNet (List.filter (fun pair => status_eqb (ps_status pair) won) ps);
     totalLoss :=
       PrimFloat.abs
         (sumNet (List.filter (fun pair => status_eqb (ps_status pair) lost) ps)) |}.

End WithNumber.

End Dashboard.

Import Dashboard.

(** ** The tracker: number sanitising and the structured OCR response *)

Module Tracker.

(** [str.replace(/[\u00A0\u2009\u202F\s]/g, '').replace(/,/g, '.')]. *)
Definition isSanitizedSpace (c : codeunit) : bool :=
  (c =? 160) || (c =? 8201) || (c =? 8239) || isWhiteSpace c.

Definition sanitizeNumber (str : jsstring) : jsstring :=
  replaceAll comma dot (removeAll isSanitizedSpace str).

(** A canonical decimal string holds no space of the class above and no
    comma. *)
Definition isCanonical (str : jsstring) : bool :=
  List.forallb (fun c => negb (isSanitizedSpace c) && negb (unit_eqb c comma)) str.

(** Values of type [any] as [response.json()] delivers them, with
    [undefined] for what a property read finds missing. An object is the
    list of its own properties, each key once. *)
#[warnings="-register-all"]
Inductive jsval :=
| VUndefined
| VNull
| VBool (b : bool)
| VNum (x : number)
| VStr (s : jsstring)
| VArr (items : list jsval)
| VObj (fields : list (jsstring * jsval)).

Inductive JSError := TypeError.

(** The completion of an evaluation: a value, or a thrown error. *)
Inductive Completion (A : Type) :=
| Normal (a : A)
| Throw (e : JSError).
Arguments Normal {A} a.
Arguments Throw {A} e.

#[global] Instance Completion_bind : MBind Completion :=
  fun A B (k : A -> Completion B) (c : Completion A) =>
    match c with
    | Normal a => k a
    | Throw e => Throw e
    end.

Fixpoint lookupField (k : jsstring) (fields : list (jsstring * jsval)) : jsval :=
  match fields with
  | [] => VUndefined
  | (k', v) :: rest => if str_eqb k' k then v else lookupField k rest
  end.

(** [v.k], for the property names the tracker reads (none of them is a
    member of a built-in prototype): reading a property of [undefined] or
    [null] throws a TypeError, any other value answers its own property
    or [undefined]. *)
Definition getProp (v : jsval) (k : string) : Completion jsval :=
  match v with
  | VUndefined | VNull => Throw TypeError
  | VObj fields => Normal (lookupField (lit k) fields)
  | VBool _ | VNum _ | VStr _ | VArr _ => Normal VUndefined
  end.

Definition truthy (v : jsval) : bool :=
  match v with
  | VUndefined | VNull => false
  | VBool b => b
  | VNum x => negb (strictEq x 0%float || isNaN x)
  | VStr s => match s with [] => false | _ :: _ => true end
  | VArr _ | VObj _ => true
  end.

(** [a || b]. *)
Definition orElse (a b : jsval) : jsval := if truthy a then a else b.

(** [undefined] or [null]: what a missing or empty property reads as. *)
Definition nullish (v : jsval) : bool :=
  match v with
  | VUndefined | VNull => true
  | _ => false
  end.

(** [v.replace(...)] on a truthy [v]: strings have the method; on a
    number, a boolean, an array or a parsed object, [replace] is not a
    function and the call throws a TypeError. *)
Definition callReplace (f : jsstring -> jsstring) (v : jsval) : Completion jsval :=
  match v with
  | VStr s => Normal (VStr (f s))
  | _ => Throw TypeError
  end.

Record SingleBetFields := mkSingleBetFields {
  f_bettingHouse : jsval;
  f_teamA : jsval;
  f_teamB : jsval;
  f_betType : jsval;
  f_odds : jsval;
  f_stake : jsval;
  f_profit : jsval
}.

Record OCRFields := mkOCRFields {
  f_betA : SingleBetFields;
  f_betB : SingleBetFields;
  f_gameDate : jsval;
  f_gameTime : jsval;
  f_sport : jsval;
  f_league : jsval;
  f_totalProfitPercentage : jsval
}.

Definition str (s : string) : jsval := VStr (lit s).

(** [claudeData.bet.field || dflt]. *)
Definition betField (claudeData : jsval) (bet field dflt : string) : Completion jsval :=
  b ← getProp claudeData bet;
  v ← getProp b field;
  Normal (orElse v (str dflt)).

(** [claudeData.field || dflt]. *)
Definition topField (claudeData : jsval) (field dflt : string) : Completion jsval :=
  v ← getProp claudeData field;
  Normal (orElse v (str dflt)).

Definition convertBet (claudeData : jsval) (bet : string) : Completion SingleBetFields :=
  bettingHouse ← betField claudeData bet "bettingHouse" "";
  teamA ← topField claudeData "teamA" "";
  teamB ← topField claudeData "teamB" "";
  betType ← betField claudeData bet "betType" "";
  odds ← betField claudeData bet "odds" "0";
  stake ← betField claudeData bet "stake" "0";
  profit ← betField claudeData bet "profit" "0";
  Normal {| f_bettingHouse := bettingHouse;
            f_teamA := teamA;
            f_teamB := teamB;
            f_betType := betType;
            f_odds := odds;
            f_stake := stake;
            f_profit := profit |}.

Definition convertClaudeToOCRFormat (claudeData : jsval) : Completion OCRFields :=
  tpp ← getProp claudeData "totalProfitPercentage";
  cleanPercentage ← callReplace (removeFirst percent) (orElse tpp (str "0"));
  gd ← getProp claudeData "gameDate";
  gameDate ← (if truthy gd then callReplace (replaceAll slash dash) gd
               else Normal (str ""));
  betA ← convertBet claudeData "betA";
  betB ← convertBet claudeData "betB";
  gameTime ← topField claudeData "gameTime" "00:00";
  sport ← topField claudeData "sport" "";
  league ← topField claudeData "league" "";
  Normal {| f_betA := betA;
            f_betB := betB;
            f_gameDate := gameDate;
            f_gameTime := gameTime;
            f_sport := sport;
            f_league := league;
            f_totalProfitPercentage := cleanPercentage |}.

(** A valid [Date] through its UTC calendar fields ([getUTCMonth] counts
    from 0). *)
Record JSDate := mkJSDate {
  getUTCFullYear : N;
  getUTCMonth : N;
  getUTCDate : N
}.

(** The type [string | Date] of [OCRData.gameDate]. *)
Inductive DateOrString :=
| IsDate (d : JSDate)
| IsString (s : jsstring).

(** [formatGameDate] of [handleOCRConfirm]. *)
Definition formatGameDate (gameDate : DateOrString) : jsstring :=
  match gameDate with
  | IsDate d =>
      let day := padStart 2 zeroDigit (natToString (getUTCDate d)) in
      let month := padStart 2 zeroDigit (natToString (getUTCMonth d + 1)) in
      let year := natToString (getUTCFullYear d) in
      day ++ [dash] ++ month ++ [dash] ++ year
  | IsString s =>
      if includes slash s then replaceAll slash dash s else s
  end.

End Tracker.

Import Tracker.

(** ** The verification form *)

Module Verification.

(** [SingleBetOCR] and [OCRData] of shared/schema.ts. *)
Record SingleBetOCR := mkSingleBetOCR {
  o_bettingHouse : jsstring;
  o_teamA : jsstring;
  o_teamB : jsstring;
  o_betType : jsstring;
  o_odds : jsstring;
  o_stake : jsstring;
  o_profit : jsstring
}.

Record OCRData := mkOCRData {
  o_betA : SingleBetOCR;
  o_betB : SingleBetOCR;
  o_gameDate : DateOrString;
  o_gameTime : option jsstring;
  o_gameDateFormatted : option jsstring;
  o_gameDateTime : option jsstring;
  o_sport : jsstring;
  o_league : jsstring;
  o_totalProfitPercentage : jsstring
}.

(** [!s] on a string. *)
Definition isEmpty (s : jsstring) : bool :=
  match s with [] => true | _ :: _ => false end.

Section WithToLowerCase.

(** The conversion [String.prototype.toLowerCase]. *)
Variable toLowerCase : jsstring -> jsstring.

(** [const normalizeTeam = (team: string) => team.trim().toLowerCase()]. *)
Definition normalizeTeam (team : jsstring) : jsstring := toLowerCase (trim team).

(** The cross validation of the two legs' teams: true when an error is
    to be recorded. *)
Definition teamsDiffer (formData : OCRData) : bool :=
  negb (str_eqb (normalizeTeam (o_teamA (o_betA formData)))
                (normalizeTeam (o_teamA (o_betB formData))))
  || negb (str_eqb (normalizeTeam (o_teamB (o_betA formData)))
                   (normalizeTeam (o_teamB (o_betB formData)))).

End WithToLowerCase.

(** [newErrors]: the keys in the order they are assigned; each key is
    assigned at most once. *)
Definition Errors := list (string * string).

Definition when (cond : bool) (key msg : string) : Errors :=
  if cond then [(key, msg)] else [].

Section WithNumber.

Variable Number : jsstring -> number.
Variable toLowerCase : jsstring -> jsstring.

Definition validateBetFields (prefix : string) (bet : SingleBetOCR) : Errors :=
  when (isEmpty (trim (o_bettingHouse bet)))
       (prefix ++ ".bettingHouse") "Casa de aposta é obrigatória"
  ++ when (isEmpty (trim (o_teamA bet)))
       (prefix ++ ".teamA") "Time A é obrigatório"
  ++ when (isEmpty (trim (o_teamB bet)))
       (prefix ++ ".teamB") "Time B é obrigatório"
  ++ when (isEmpty (trim (o_betType bet)))
       (prefix ++ ".betType") "Tipo de aposta é obrigatório"
  ++ when (isEmpty (o_odds bet) || isNaN (Number (o_odds bet))
           || le (Number (o_odds bet)) 0%float)
       (prefix ++ ".odds") "Odd deve ser um número válido maior que 0"
  ++ when (isEmpty (o_stake bet) || isNaN (Number (o_stake bet))
           || le (Number (o_stake bet)) 0%float)
       (prefix ++ ".stake") "Valor da aposta deve ser um número válido maior que 0"
  ++ when (isEmpty (o_profit bet) || isNaN (Number (o_profit bet)))
       (prefix ++ ".profit") "Lucro deve ser um número válido".

(** [validateForm]: the errors handed to [setErrors] and the returned
    flag [Object.keys(newErrors).length === 0]. *)
Definition validateForm (formData : OCRData) : Errors * bool :=
  let newErrors :=
    validateBetFields "betA" (o_betA formData)
    ++ validateBetFields "betB" (o_betB formData)
    ++ when (match o_gameDate formData with
             | IsString s => isEmpty s
             | IsDate _ => false
             end)
         "gameDate" "Data do jogo é obrigatória"
    ++ when (isEmpty (o_sport formData) || isEmpty (trim (o_sport formData)))
         "sport" "Esporte é obrigatório"
    ++ when (isEmpty (o_league formData) || isEmpty (trim (o_league formData)))
         "league" "Liga é obrigatória"
    ++ when (isEmpty (o_totalProfitPercentage formData)
             || isNaN (Number (o_totalProfitPercentage formData)))
         "totalProfitPercentage"
         "Porcentagem de lucro total deve ser um número válido"
    ++ when (teamsDiffer toLowerCase formData)
         "teams" "Os times devem ser iguais em ambas as apostas" in
  (newErrors, match newErrors with [] => true | _ :: _ => false end).

(** [handleSubmit]: the data passed to [onConfirm], if any. *)
Definition handleSubmit (formData : OCRData) : option OCRData :=
  if snd (validateForm formData) then Some formData else None.

End WithNumber.

Definition hasKey (key : string) (errors : Errors) : bool :=
  List.existsb (fun e => String.eqb (fst e) key) errors.

Section WithDateFns.

(** The [try ... catch] block at the end of [getDisplayDate]: it formats
    the date through date-fns, in the local time zone, and answers the
    entered string or [null] when that throws. *)
Variable formatFallback : DateOrString -> option jsstring.

(** [getDisplayDate]: the date shown by the form; [None] is [null]. *)
Definition getDisplayDate (formData : OCRData) : option jsstring :=
  match o_gameDateFormatted formData with
  | Some (c :: s) => Some (c :: s)
  | Some [] | None =>
      match o_gameDate formData with
      | IsString [] => None
      | IsString (c :: s) =>
          if includes slash (c :: s) then Some (replaceAll slash dash (c :: s))
          else formatFallback (IsString (c :: s))
      | IsDate d => formatFallback (IsDate d)
      end
  end.

End WithDateFns.

End Verification.

Import Verification.

(** [validateBetPair] of shared/schema.ts, over the fields it reads; a
    field of a [Partial<Bet>] may be missing. *)
Module PairValidation.

Record PartialBet := mkPartialBet {
  p_pairId : option jsstring;
  p_teamA : option jsstring;
  p_teamB : option jsstring;
  p_betPosition : option BetPosition
}.

Definition opt_eqb {A} (eqb : A -> A -> bool) (x y : option A) : bool :=
  match x, y with
  | None, None => true
  | Some a, Some b => eqb a b
  | _, _ => false
  end.

Definition validateBetPair (betA betB : PartialBet) : list string :=
  (if negb (opt_eqb str_eqb (p_pairId betA) (p_pairId betB))
   then ["Apostas devem ter o mesmo pairId"%string] else [])
  ++ (if negb (opt_eqb str_eqb (p_teamA betA) (p_teamA betB))
         || negb (opt_eqb str_eqb (p_teamB betA) (p_teamB betB))
      then ["Times devem ser iguais em ambas as apostas"%string] else [])
  ++ (if opt_eqb position_eqb (p_betPosition betA) (p_betPosition betB)
      then ["Apostas devem ser em lados opostos"%string] else [])
  ++ (if opt_eqb position_eqb (p_betPosition betA) (p_betPosition betB)
      then ["Posições das apostas devem ser diferentes (A e B)"%string] else []).

End PairValidation.

(** ** server/storage.ts: the in-memory store *)

Module Storage.

(** [InsertBet]: a row without [id] and [createdAt]; the columns with a
    default or without NOT NULL may be left out. [gameDate] is a string
    by its type; the store tests [typeof gameDate === 'string']. *)
Inductive DateInput :=
| DateString (s : jsstring)
| NotAString.

Record InsertBet := mkInsertBet {
  i_teamA : jsstring;
  i_teamB : jsstring;
  i_betType : jsstring;
  i_selectedSide : jsstring;
  i_bettingHouse : jsstring;
  i_odds : jsstring;
  i_stake : jsstring;
  i_payout : jsstring;
  i_gameDate : DateInput;
  i_gameTime : jsstring;
  i_sport : jsstring;
  i_league : jsstring;
  i_status : option BetStatus;
  i_isVerified : option bool;
  i_pairId : jsstring;
  i_betPosition : BetPosition;
  i_totalPairStake : option jsstring;
  i_profitPercentage : option jsstring
}.

(** [dateStr.match(/^\d{2}-\d{2}-\d{4}$/)]. *)
Definition matchesDayMonthYear (dateStr : jsstring) : bool :=
  match dateStr with
  | [d1; d2; h1; m1; m2; h2; y1; y2; y3; y4] =>
      isDigit d1 && isDigit d2 && unit_eqb h1 dash
      && isDigit m1 && isDigit m2 && unit_eqb h2 dash
      && isDigit y1 && isDigit y2 && isDigit y3 && isDigit y4
  | _ => false
  end.

(** An element bound by array destructuring, as a template literal
    prints it: a missing element prints as "undefined". *)
Definition element (parts : list jsstring) (i : nat) : jsstring :=
  List.nth i parts (lit "undefined").

(** The date conversion at the head of [createBet]; [now] is the
    [new Date()] of the fallback branch. *)
Definition formattedGameDate (now : JSDate) (gameDate : DateInput) : jsstring :=
  match gameDate with
  | DateString gameDate =>
      let dateStr :=
        if includes slash gameDate then replaceAll slash dash gameDate
        else gameDate in
      if matchesDayMonthYear dateStr then
        let parts := split dash dateStr in
        let day := element parts 0 in
        let month := element parts 1 in
        let year := element parts 2 in
        year ++ [dash] ++ month ++ [dash] ++ day
      else dateStr
  | NotAString =>
      let year := natToString (getUTCFullYear now) in
      let month := padStart 2 zeroDigit (natToString (getUTCMonth now + 1)) in
      let day := padStart 2 zeroDigit (natToString (getUTCDate now)) in
      year ++ [dash] ++ month ++ [dash] ++ day
  end.

(** [s || null] on a nullable string. *)
Definition orNull (s : option jsstring) : option jsstring :=
  match s with
  | Some (c :: s') => Some (c :: s')
  | Some [] | None => None
  end.

(** The private field [bets: Map<string, Bet>] of [MemStorage]. *)
Abbreviation Store := (gmap jsstring Bet).

(** The environment of one [createBet] call: the [randomUUID()], the
    [new Date()] of the date fallback and the [new Date()] of the
    creation stamp. *)
Record Env := mkEnv {
  randomUUID : jsstring;
  now : JSDate;
  stamp : Z
}.

Definition createBet (env : Env) (insertBet : InsertBet) (bets : Store)
  : Bet * Store :=
  let id := randomUUID env in
  let bet :=
    {| id := id;
       teamA := i_teamA insertBet;
       teamB := i_teamB insertBet;
       betType := i_betType insertBet;
       selectedSide := i_selectedSide insertBet;
       bettingHouse := i_bettingHouse insertBet;
       odds := i_odds insertBet;
       stake := i_stake insertBet;
       payout := i_payout insertBet;
       gameDate := formattedGameDate (now env) (i_gameDate insertBet);
       gameTime := i_gameTime insertBet;
       sport := i_sport insertBet;
       league := i_league insertBet;
       status := default pending (i_status insertBet);
       isVerified := default false (i_isVerified insertBet);
       pairId := i_pairId insertBet;
       betPosition := i_betPosition insertBet;
       totalPairStake := orNull (i_totalPairStake insertBet);
       profitPercentage := orNull (i_profitPercentage insertBet);
       createdAt := stamp env |} in
  (bet, <[id := bet]> bets).

Definition getBetById (id : jsstring) (bets : Store) : option Bet :=
  bets !! id.

(** [{ ...bet, status }]. *)
Definition withStatus (bet : Bet) (status : BetStatus) : Bet :=
  {| id := id bet;
     teamA := teamA bet;
     teamB := teamB bet;
     betType := betType bet;
     selectedSide := selectedSide bet;
     bettingHouse := bettingHouse bet;
     odds := odds bet;
     stake := stake bet;
     payout := payout bet;
     gameDate := gameDate bet;
     gameTime := gameTime bet;
     sport := sport bet;
     league := league bet;
     status := status;
     isVerified := isVerified bet;
     pairId := pairId bet;
     betPosition := betPosition bet;
     totalPairStake := totalPairStake bet;
     profitPercentage := profitPercentage bet;
     createdAt := createdAt bet |}.

(** [updateBetStatus]: the returned bet ([None] is [undefined]) and the
    store after the call. *)
Definition updateBetStatus (id : jsstring) (status : BetStatus) (bets : Store)
  : option Bet * Store :=
  match bets !! id with
  | Some bet =>
      let updatedBet := withStatus bet status in
      (Some updatedBet, <[id := updatedBet]> bets)
  | None => (None, bets)
  end.

Definition deleteBet (id : jsstring) (bets : Store) : bool * Store :=
  match bets !! id with
  | Some _ => (true, delete id bets)
  | None => (false, bets)
  end.

End Storage.

Import Storage.

(** ** Plain objects used as dictionaries *)

Module Objects.

(** The property names that every plain object inherits from
    [Object.prototype]; each of them reads as a truthy value (a function,
    or the prototype itself for [__proto__]) that has no [push]. *)
Definition objectPrototypeNames : list jsstring :=
  List.map lit
    ["constructor"; "__defineGetter__"; "__defineSetter__"; "hasOwnProperty";
     "__lookupGetter__"; "__lookupSetter__"; "isPrototypeOf";
     "propertyIsEnumerable"; "toString"; "valueOf"; "__proto__";
     "toLocaleString"]%string.

Definition inherited (k : jsstring) : bool :=
  List.existsb (str_eqb k) objectPrototypeNames.

(** The value of the decimal numeral [k]. *)
Definition digitsValue (k : jsstring) : N :=
  List.fold_left (fun acc c => 10 * acc + (c - 48)) k 0.

(** An array index: the canonical numeral of an integer below 2^32 - 1.
    An object enumerates its array-index keys first, in ascending order. *)
Definition arrayIndex (k : jsstring) : option N :=
  match k with
  | [] => None
  | c :: rest =>
      if List.forallb isDigit k
         && (negb (unit_eqb c zeroDigit) || isEmpty rest)
         && (digitsValue k <? 4294967295)
      then Some (digitsValue k) else None
  end.

Section Properties.

Context {A : Type}.

(** The own properties of an object created as [{}], in creation order;
    each key occurs once. *)
Fixpoint ownLookup (k : jsstring) (o : list (jsstring * A)) : option A :=
  match o with
  | [] => None
  | (k', v) :: rest => if str_eqb k' k then Some v else ownLookup k rest
  end.

(** An update of the value held by the own property [k]. *)
Fixpoint updateOwn (k : jsstring) (f : A -> A) (o : list (jsstring * A))
  : list (jsstring * A) :=
  match o with
  | [] => []
  | (k', v) :: rest =>
      if str_eqb k' k then (k', f v) :: rest else (k', v) :: updateOwn k f rest
  end.

Fixpoint insertByIndex (e : N * A) (l : list (N * A)) : list (N * A) :=
  match l with
  | [] => [e]
  | x :: l' => if fst e <? fst x then e :: l else x :: insertByIndex e l'
  end.

Definition sortByIndex (l : list (N * A)) : list (N * A) :=
  List.fold_right insertByIndex [] l.

Fixpoint indexEntries (o : list (jsstring * A)) : list (N * A) :=
  match o with
  | [] => []
  | (k, v) :: rest =>
      match arrayIndex k with
      | Some n => (n, v) :: indexEntries rest
      | None => indexEntries rest
      end
  end.

Fixpoint namedEntries (o : list (jsstring * A)) : list A :=
  match o with
  | [] => []
  | (k, v) :: rest =>
      match arrayIndex k with
      | Some _ => namedEntries rest
      | None => v :: namedEntries rest
      end
  end.

(** [Object.values(o)]: the array-index keys in ascending order, then the
    other keys in creation order. *)
Definition objectValues (o : list (jsstring * A)) : list A :=
  List.map snd (sortByIndex (indexEntries o)) ++ namedEntries o.

End Properties.

(** One round of the grouping loops of the dashboard, the reports and the
    bet management:
    [if (!pairs[bet.pairId]) pairs[bet.pairId] = []; pairs[bet.pairId].push(bet)].
    An own property holds an array; an inherited name reads as a truthy
    value without [push], and the call throws a TypeError. *)
Definition pushBet (pairs : list (jsstring * list Bet)) (bet : Bet)
  : Completion (list (jsstring * list Bet)) :=
  let k := pairId bet in
  match ownLookup k pairs with
  | Some _ => Normal (updateOwn k (fun group => group ++ [bet]) pairs)
  | None =>
      if inherited k then Throw TypeError
      else Normal (pairs ++ [(k, [bet])])
  end.

Fixpoint groupFrom (pairs : list (jsstring * list Bet)) (bets : list Bet)
  : Completion (list (jsstring * list Bet)) :=
  match bets with
  | [] => Normal pairs
  | bet :: rest => pairs' ← pushBet pairs bet; groupFrom pairs' rest
  end.

(** The object [pairs] built from [{}] by the loop over [bets]. *)
Definition groupByPairId (bets : list Bet) : Completion (list (jsstring * list Bet)) :=
  groupFrom [] bets.

(** [groupBetsByPair] of the reports and of the bet management:
    [Object.values(pairs).filter(pair => pair.length === 2)]. *)
Definition groupBetsByPair (bets : list Bet) : Completion (list (list Bet)) :=
  pairs ← groupByPairId bets;
  Normal (List.filter (fun pairBets => Nat.eqb (List.length pairBets) 2) (objectValues pairs)).

(** A pair id as [handleOCRConfirm] mints it,
    [Math.random().toString(36).substr(2, 9)]: at most nine digits of
    base 36, in lower case. *)
Definition isBase36Unit (c : codeunit) : bool :=
  isDigit c || ((97 <=? c) && (c <=? 122)).

Definition isMintedPairId (k : jsstring) : bool :=
  List.forallb isBase36Unit k && (List.length k <=? 9)%nat.

End Objects.

Import Objects.

(** ** The dashboard over the list of bets *)

Module DashboardView.

Section WithNumber.

Variable Number : jsstring -> number.

(** [pairStats] of the dashboard, from the bets it is given: the grouping
    by pair id, then one entry per group. *)
Definition dashboardPairStats (bets : list Bet) : Completion (list PairStat) :=
  pairs ← groupByPairId bets;
  Normal (pairStats Number (objectValues pairs)).

(** [stats] of the dashboard. *)
Definition dashboardStats (bets : list Bet) : Completion Stats :=
  pairs ← groupByPairId bets;
  Normal (stats Number (objectValues pairs)).

End WithNumber.

(** [bets.find(b => b.pairId === bet.pairId && b.id !== bet.id)]: the
    paired bet handed to a card. *)
Definition pairedBet (bets : list Bet) (bet : Bet) : option Bet :=
  List.find (fun b => str_eqb (pairId b) (pairId bet)
                      && negb (str_eqb (id b) (id bet))) bets.

End DashboardView.

Import DashboardView.

(** ** The reports *)

Module Reports.

(** The running totals of [calculateSummary]; the counters are small
    integers, kept as natural numbers. *)
Record Totals := mkTotals {
  t_totalStake : number;
  t_totalPayout : number;
  t_resolvedPairs : nat;
  t_pendingPairs : nat;
  t_wonPairs : nat;
  t_lostPairs : nat
}.

Record Summary := mkSummary {
  s_totalPairs : nat;
  s_pendingPairs : nat;
  s_resolvedPairs : nat;
  s_wonPairs : nat;
  s_lostPairs : nat;
  s_totalStake : number;
  s_totalPayout : number;
  s_totalProfit : number;
  s_profitPercentage : number
}.

(** The filters of the report; [None] is 'all' for the status and
    [undefined] for the bounds. A date bound is the time value of its
    [Date]. *)
Record ReportFilters := mkReportFilters {
  rf_status : option BetStatus;
  rf_dateFrom : option number;
  rf_dateTo : option number;
  rf_minStake : option number;
  rf_maxStake : option number;
  rf_minProfit : option number;
  rf_maxProfit : option number
}.

(** [x >= y] on numbers. *)
Definition ge (x y : number) : bool := PrimFloat.leb y x.

Section WithNumber.

Variable Number : jsstring -> number.

(** The time value of [new Date(bet.gameDate)], NaN for an invalid date. *)
Variable dateValue : jsstring -> number.

(** The callback of [grouped.forEach(pair => ...)]; the destructuring
    [const [betA, betB] = pair] binds [undefined] past the end of the
    array, and reading a property of it throws. *)
Definition addPair (t : Totals) (pairBets : list Bet) : Completion Totals :=
  match pairBets with
  | betA :: betB :: _ =>
      let pairStake := (Number (stake betA) + Number (stake betB))%float in
      let totalStake := (t_totalStake t + pairStake)%float in
      if status_eqb (status betA) pending || status_eqb (status betB) pending then
        Normal {| t_totalStake := totalStake;
                  t_totalPayout := t_totalPayout t;
                  t_resolvedPairs := t_resolvedPairs t;
                  t_pendingPairs := S (t_pendingPairs t);
                  t_wonPairs := t_wonPairs t;
                  t_lostPairs := t_lostPairs t |}
      else if status_eqb (status betA) won || status_eqb (status betB) won then
        let winningBet := if status_eqb (status betA) won then betA else betB in
        Normal {| t_totalStake := totalStake;
                  t_totalPayout := (t_totalPayout t + Number (payout winningBet))%float;
                  t_resolvedPairs := S (t_resolvedPairs t);
                  t_pendingPairs := t_pendingPairs t;
                  t_wonPairs := S (t_wonPairs t);
                  t_lostPairs := t_lostPairs t |}
      else
        Normal {| t_totalStake := totalStake;
                  t_totalPayout := t_totalPayout t;
                  t_resolvedPairs := S (t_resolvedPairs t);
                  t_pendingPairs := t_pendingPairs t;
                  t_wonPairs := t_wonPairs t;
                  t_lostPairs := S (t_lostPairs t) |}
  | _ => Throw TypeError
  end.

Fixpoint addPairs (t : Totals) (grouped : list (list Bet)) : Completion Totals :=
  match grouped with
  | [] => Normal t
  | pairBets :: rest => t' ← addPair t pairBets; addPairs t' rest
  end.

Definition noTotals : Totals :=
  {| t_totalStake := 0%float;
     t_totalPayout := 0%float;
     t_resolvedPairs := 0;
     t_pendingPairs := 0;
     t_wonPairs := 0;
     t_lostPairs := 0 |}.

(** [calculateSummary], over the filtered bets. *)
Definition calculateSummary (filteredBets : list Bet) : Completion Summary :=
  grouped ← groupBetsByPair filteredBets;
  t ← addPairs noTotals grouped;
  let totalProfit := (t_totalPayout t - t_totalStake t)%float in
  Normal {| s_totalPairs := List.length grouped;
            s_pendingPairs := t_pendingPairs t;
            s_resolvedPairs := t_resolvedPairs t;
            s_wonPairs := t_wonPairs t;
            s_lostPairs := t_lostPairs t;
            s_totalStake := t_totalStake t;
            s_totalPayout := t_totalPayout t;
            s_totalProfit := totalProfit;
            s_profitPercentage :=
              if gt (t_totalStake t) 0%float
              then ((totalProfit / t_totalStake t) * 100)%float else 0%float |}.

Definition profitOf (bet : Bet) : number :=
  (Number (payout bet) - Number (stake bet))%float.

(** One step of [applyFilters]: [bound] absent keeps the list. *)
Definition filterWhen {B : Type} (bound : option B) (keep : B -> Bet -> bool)
    (bets : list Bet) : list Bet :=
  match bound with
  | Some b => List.filter (keep b) bets
  | None => bets
  end.

(** [applyFilters]: the list handed to [setFilteredBets]. *)
Definition applyFilters (filters : ReportFilters) (bets : list Bet) : list Bet :=
  let filtered := bets in
  let filtered :=
    filterWhen (rf_status filters) (fun s bet => status_eqb (status bet) s) filtered in
  let filtered :=
    filterWhen (rf_dateFrom filters) (fun d bet => ge (dateValue (gameDate bet)) d) filtered in
  let filtered :=
    filterWhen (rf_dateTo filters) (fun d bet => le (dateValue (gameDate bet)) d) filtered in
  let filtered :=
    filterWhen (rf_minStake filters) (fun m bet => ge (Number (stake bet)) m) filtered in
  let filtered :=
    filterWhen (rf_maxStake filters) (fun m bet => le (Number (stake bet)) m) filtered in
  let filtered :=
    filterWhen (rf_minProfit filters) (fun m bet => ge (profitOf bet) m) filtered in
  let filtered :=
    filterWhen (rf_maxProfit filters) (fun m bet => le (profitOf bet) m) filtered in
  filtered.

End WithNumber.

(** [clearFilters]: the filters it sets. *)
Definition clearedFilters : ReportFilters :=
  {| rf_status := None;
     rf_dateFrom := None;
     rf_dateTo := None;
     rf_minStake := None;
     rf_maxStake := None;
     rf_minProfit := None;
     rf_maxProfit := None |}.

End Reports.

(** ** The HTTP routes over a storage *)

Module Routes.

(** The promise returned by a storage method: resolved with a value, or
    rejected. *)
Inductive Outcome (A : Type) :=
| Resolved (a : A)
| Rejected.
Arguments Resolved {A} a.
Arguments Rejected {A}.

(** The interface [IStorage], for the bet operations the routes below
    call; a method answers its outcome and the storage after the call. *)
Class IStorage (S : Type) := {
  storage_getBetById : jsstring -> S -> Outcome (option Bet) * S;
  storage_updateBetStatus : jsstring -> BetStatus -> S -> Outcome (option Bet) * S;
  storage_deleteBet : jsstring -> S -> Outcome bool * S
}.

(** [MemStorage implements IStorage]; its promises never reject. *)
#[global] Instance MemStorage : IStorage (gmap jsstring Bet) := {
  storage_getBetById id bets := (Resolved (getBetById id bets), bets);
  storage_updateBetStatus id status bets :=
    (Resolved (fst (updateBetStatus id status bets)),
     snd (updateBetStatus id status bets));
  storage_deleteBet id bets :=
    (Resolved (fst (deleteBet id bets)), snd (deleteBet id bets))
}.

Inductive Payload :=
| BetJson (bet : Bet)
| ErrorJson (error : string)
| NoContent.

Record Response := mkResponse {
  statusCode : N;
  payload : Payload
}.

(** [['pending', 'won', 'lost', 'returned'].includes(status)], with the
    status it names. *)
Definition statusOfValue (v : jsval) : option BetStatus :=
  match v with
  | VStr s =>
      if str_eqb s (lit "pending") then Some pending
      else if str_eqb s (lit "won") then Some won
      else if str_eqb s (lit "lost") then Some lost
      else if str_eqb s (lit "returned") then Some returned
      else None
  | _ => None
  end.

Section WithStorage.

Context {S : Type} `{IStorage S}.

(** [app.get("/api/bets/:id")]. *)
Definition getBetRoute (id : jsstring) (storage : S) : Response * S :=
  match storage_getBetById id storage with
  | (Resolved (Some bet), storage') => ({| statusCode := 200; payload := BetJson bet |}, storage')
  | (Resolved None, storage') =>
      ({| statusCode := 404; payload := ErrorJson "Bet not found" |}, storage')
  | (Rejected, storage') =>
      ({| statusCode := 500; payload := ErrorJson "Failed to fetch bet" |}, storage')
  end.

(** [app.put("/api/bets/:id/status")]: [body] is [req.body]. *)
Definition putBetStatusRoute (id : jsstring) (body : jsval) (storage : S)
  : Response * S :=
  match getProp body "status" with
  | Throw _ =>
      ({| statusCode := 500; payload := ErrorJson "Failed to update bet status" |}, storage)
  | Normal status =>
      match statusOfValue status with
      | None => ({| statusCode := 400; payload := ErrorJson "Invalid status" |}, storage)
      | Some status =>
          match storage_updateBetStatus id status storage with
          | (Resolved (Some bet), storage') =>
              ({| statusCode := 200; payload := BetJson bet |}, storage')
          | (Resolved None, storage') =>
              ({| statusCode := 404; payload := ErrorJson "Bet not found" |}, storage')
          | (Rejected, storage') =>
              ({| statusCode := 500; payload := ErrorJson "Failed to update bet status" |},
               storage')
          end
      end
  end.

(** [app.delete("/api/bets/:id")]. *)
Definition deleteBetRoute (id : jsstring) (storage : S) : Response * S :=
  match storage_deleteBet id storage with
  | (Resolved true, storage') => ({| statusCode := 204; payload := NoContent |}, storage')
  | (Resolved false, storage') =>
      ({| statusCode := 404; payload := ErrorJson "Bet not found" |}, storage')
  | (Rejected, storage') =>
      ({| statusCode := 500; payload := ErrorJson "Failed to delete bet" |}, storage')
  end.

End WithStorage.

(** The bet data that [app.post("/api/bets")] hands to [createBet], for a
    body of the type [InsertBet]:
    [selectedSide: req.body.selectedSide || req.body.betType || 'Unknown']. *)
Definition postBetData (body : InsertBet) : InsertBet :=
  {| i_teamA := i_teamA body;
     i_teamB := i_teamB body;
     i_betType := i_betType body;
     i_selectedSide :=
       if negb (isEmpty (i_selectedSide body)) then i_selectedSide body
       else if negb (isEmpty (i_betType body)) then i_betType body
       else lit "Unknown";
     i_bettingHouse := i_bettingHouse body;
     i_odds := i_odds body;
     i_stake := i_stake body;
     i_payout := i_payout body;
     i_gameDate := i_gameDate body;
     i_gameTime := i_gameTime body;
     i_sport := i_sport body;
     i_league := i_league body;
     i_status := i_status body;
     i_isVerified := i_isVerified body;
     i_pairId := i_pairId body;
     i_betPosition := i_betPosition body;
     i_totalPairStake := i_totalPairStake body;
     i_profitPercentage := i_profitPercentage body |}.

(** [lines.join('\n')]. *)
Fixpoint joinLines (lines : list jsstring) : jsstring :=
  match lines with
  | [] => []
  | [line] => line
  | line :: rest => line ++ [10] ++ joinLines rest
  end.

(** [data.leg?.field]: the optional chain stops at a leg that is
    [undefined] or [null]. *)
Definition optionalField (data : jsval) (leg field : string) : Completion jsval :=
  l ← getProp data leg;
  if nullish l then Normal VUndefined else getProp l field.

(** Has the object an own property [k]? *)
Definition hasOwn (k : jsstring) (fields : list (jsstring * jsval)) : bool :=
  List.existsb (fun kv => str_eqb (fst kv) k) fields.

Section WithToString.

(** [Number.prototype.toString] on numbers. *)
Variable numberToString : number -> jsstring.

(** The string that a template literal prints for a value that
    [JSON.parse] delivered, or the TypeError of the conversion. An array
    prints its elements joined by commas, [undefined] and [null] elements
    as the empty string. An object prints as "[object Object]" through the
    [toString] it inherits; an own property [toString] hides that method,
    and since no value of [JSON.parse] is a function and the inherited
    [valueOf] answers the object itself, the conversion then throws. *)
Fixpoint toText (v : jsval) : Completion jsstring :=
  match v with
  | VUndefined => Normal (lit "undefined")
  | VNull => Normal (lit "null")
  | VBool b => Normal (if b then lit "true" else lit "false")
  | VNum x => Normal (numberToString x)
  | VStr s => Normal s
  | VArr items =>
      (fix join (items : list jsval) : Completion jsstring :=
         match items with
         | [] => Normal []
         | item :: rest =>
             match (if nullish item then Normal [] else toText item) with
             | Throw e => Throw e
             | Normal text =>
                 match rest with
                 | [] => Normal text
                 | _ :: _ =>
                     match join rest with
                     | Throw e => Throw e
                     | Normal more => Normal (text ++ [comma] ++ more)
                     end
                 end
             end
         end) items
  | VObj fields =>
      if hasOwn (lit "toString") fields then Throw TypeError
      else Normal (lit "[object Object]")
  end.

(** [`label${value || ''}`]. *)
Definition labelled (label : string) (value : jsval) : Completion jsstring :=
  text ← toText (orElse value (str "")); Normal (lit label ++ text).

Definition topLine (data : jsval) (label field : string) : Completion jsstring :=
  v ← getProp data field; labelled label v.

Definition legLine (data : jsval) (label leg field : string) : Completion jsstring :=
  v ← optionalField data leg field; labelled label v.

Definition legLines (data : jsval) (leg : string) : Completion (list jsstring) :=
  l1 ← legLine data "Casa: " leg "bettingHouse";
  l2 ← legLine data "Tipo: " leg "betType";
  l3 ← legLine data "Odd: " leg "odds";
  l4 ← legLine data "Valor da Aposta: " leg "stake";
  l5 ← legLine data "Lucro: " leg "profit";
  Normal [l1; l2; l3; l4; l5].

(** [formatToText] of the route /api/ocr/raw. *)
Definition formatToText (data : jsval) : Completion jsstring :=
  date ← topLine data "Data do evento: " "gameDate";
  hour ← topLine data "Hora: " "gameTime";
  sport ← topLine data "Esporte: " "sport";
  league ← topLine data "Liga: " "league";
  teamA ← topLine data "Time A: " "teamA";
  teamB ← topLine data "Time B: " "teamB";
  legA ← legLines data "betA";
  legB ← legLines data "betB";
  total ← topLine data "Lucro%: " "totalProfitPercentage";
  Normal (joinLines
            ([date; hour; []; sport; league; []; teamA; teamB; []; lit "Aposta 1"]
             ++ legA ++ [[]; lit "Aposta 2"] ++ legB ++ [[]; total])).

End WithToString.

(** [s.startsWith(p)]. *)
Fixpoint startsWith (p s : jsstring) : bool :=
  match p, s with
  | [], _ => true
  | c :: p', d :: s' => unit_eqb c d && startsWith p' s'
  | _ :: _, [] => false
  end.

(** [s.includes(needle)]. *)
Fixpoint includesText (needle s : jsstring) : bool :=
  startsWith needle s
  || match s with
     | [] => false
     | _ :: s' => includesText needle s'
     end.

(** The text before the first occurrence of [sep], the whole of [s] when
    there is none: [s.split(sep)[0]] for a non-empty [sep]. *)
Fixpoint beforeFirst (sep s : jsstring) : jsstring :=
  if startsWith sep s then []
  else match s with
       | [] => []
       | c :: s' => c :: beforeFirst sep s'
       end.

(** The text after the first occurrence of [sep], if there is one. *)
Fixpoint afterFirst (sep s : jsstring) : option jsstring :=
  if startsWith sep s then Some (List.skipn (List.length sep) s)
  else match s with
       | [] => None
       | _ :: s' => afterFirst sep s'
       end.

Inductive MediaType := ImageJpeg | ImagePng | ImageWebp | ImageGif.

(** [imageBase64.includes('base64,') ? imageBase64.split('base64,')[1]
    : imageBase64]. *)
Definition cleanBase64 (imageBase64 : jsstring) : jsstring :=
  match afterFirst (lit "base64,") imageBase64 with
  | Some rest => beforeFirst (lit "base64,") rest
  | None => imageBase64
  end.

(** [detectImageMediaType]. *)
Definition detectImageMediaType (imageBase64 : jsstring) : MediaType :=
  if includesText (lit "data:image/png") imageBase64 then ImagePng
  else if includesText (lit "data:image/webp") imageBase64 then ImageWebp
  else if includesText (lit "data:image/gif") imageBase64 then ImageGif
  else if includesText (lit "data:image/jpeg") imageBase64
          || includesText (lit "data:image/jpg") imageBase64 then ImageJpeg
  else
    let clean := cleanBase64 imageBase64 in
    if startsWith (lit "iVBOR") clean then ImagePng
    else if startsWith (lit "R0lGOD") clean then ImageGif
    else if startsWith (lit "UklGR") clean then ImageWebp
    else if startsWith (lit "/9j/") clean || startsWith (lit "FFD8") clean then ImageJpeg
    else ImageJpeg.

(** The alphabet of base64 text. *)
Definition isBase64Unit (c : codeunit) : bool :=
  isDigit c
  || ((65 <=? c) && (c <=? 90))
  || ((97 <=? c) && (c <=? 122))
  || (c =? 43) || (c =? 47) || (c =? 61).

End Routes.

(** ** Confirming a verified form *)

Module Confirm.

(** [data.gameTime || '00:00']. *)
Definition gameTimeOrMidnight (gameTime : option jsstring) : jsstring :=
  match gameTime with
  | Some (c :: s) => c :: s
  | Some [] | None => lit "00:00"
  end.

Section WithNumber.

Variable Number : jsstring -> number.

(** [x.toFixed(2)] and [x.toString()] on numbers. *)
Variable toFixed2 : number -> jsstring.
Variable numberToString : number -> jsstring.

(** The pair metrics computed in line by [handleOCRConfirm]. *)
Definition confirmTotalStake (data : OCRData) : number :=
  (Number (o_stake (o_betA data)) + Number (o_stake (o_betB data)))%float.

Definition confirmPayout (bet : SingleBetOCR) : number :=
  (Number (o_stake bet) * Number (o_odds bet))%float.

Definition confirmPercentage (data : OCRData) (bet : SingleBetOCR) : number :=
  let totalStake := confirmTotalStake data in
  if gt totalStake 0%float
  then (((confirmPayout bet - totalStake) / totalStake) * 100)%float else 0%float.

(** [betAData] and [betBData] of [handleOCRConfirm]: the body of the POST
    of one leg; [pairId] is the id minted for the two legs. *)
Definition legData (pairId : jsstring) (data : OCRData) (bet : SingleBetOCR)
    (position : BetPosition) : InsertBet :=
  {| i_teamA := o_teamA bet;
     i_teamB := o_teamB bet;
     i_betType := o_betType bet;
     i_selectedSide := o_betType bet;
     i_bettingHouse := o_bettingHouse bet;
     i_odds := o_odds bet;
     i_stake := o_stake bet;
     i_payout := toFixed2 (confirmPayout bet);
     i_gameDate := DateString (formatGameDate (o_gameDate data));
     i_gameTime := gameTimeOrMidnight (o_gameTime data);
     i_sport := o_sport data;
     i_league := o_league data;
     i_status := Some pending;
     i_isVerified := Some true;
     i_pairId := pairId;
     i_betPosition := position;
     i_totalPairStake := Some (numberToString (confirmTotalStake data));
     i_profitPercentage := Some (numberToString (confirmPercentage data bet)) |}.

Definition betAData (pairId : jsstring) (data : OCRData) : InsertBet :=
  legData pairId data (o_betA data) PosA.

Definition betBData (pairId : jsstring) (data : OCRData) : InsertBet :=
  legData pairId data (o_betB data) PosB.

(** The two POSTs of [handleOCRConfirm] against the in-memory store: leg
    A, then leg B, each through the route and [createBet]. *)
Definition saveLegA (envA : Env) (pairId : jsstring) (data : OCRData)
    (bets : gmap jsstring Bet) : Bet * gmap jsstring Bet :=
  createBet envA (Routes.postBetData (betAData pairId data)) bets.

Definition savePair (envA envB : Env) (pairId : jsstring) (data : OCRData)
    (bets : gmap jsstring Bet) : Bet * Bet * gmap jsstring Bet :=
  let '(betA, bets') := saveLegA envA pairId data bets in
  let '(betB, bets'') :=
    createBet envB (Routes.postBetData (betBData pairId data)) bets' in
  (betA, betB, bets'').

End WithNumber.

(** The fields of a stored bet that [validateBetPair] reads. *)
Definition asPartial (bet : Bet) : PairValidation.PartialBet :=
  {| PairValidation.p_pairId := Some (pairId bet);
     PairValidation.p_teamA := Some (teamA bet);
     PairValidation.p_teamB := Some (teamB bet);
     PairValidation.p_betPosition := Some (betPosition bet) |}.

End Confirm.

(** ** The bet card *)

Module BetCard.

Record PairProfitInfo := mkPairProfitInfo {
  info_totalStake : number;
  info_profitPercentage : number;
  info_netProfit : number;
  info_isPositive : bool
}.

(** [!s] on a nullable string. *)
Definition missing (s : option jsstring) : bool :=
  match s with
  | Some (_ :: _) => false
  | Some [] | None => true
  end.

Section WithNumber.

Variable Number : jsstring -> number.

(** [Number(s)] on a nullable string that is not missing. *)
Definition numberOf (s : option jsstring) : number :=
  match s with
  | Some s => Number s
  | None => 0%float
  end.

(** [calculateNetProfit]. *)
Definition calculateNetProfit (bet : Bet) : number :=
  (Number (payout bet) - Number (stake bet))%float.

(** [getPairProfitInfo]; [None] is [null]. *)
Definition getPairProfitInfo (bet : Bet) : option PairProfitInfo :=
  if missing (totalPairStake bet) || missing (profitPercentage bet) then None
  else
    let totalStake := numberOf (totalPairStake bet) in
    let profitPercentage := numberOf (profitPercentage bet) in
    let netProfit := (Number (payout bet) - totalStake)%float in
    Some {| info_totalStake := totalStake;
            info_profitPercentage := profitPercentage;
            info_netProfit := netProfit;
            info_isPositive := gt netProfit 0%float |}.

End WithNumber.

(** [getSelectedTeam]. *)
Definition getSelectedTeam (bet : Bet) : jsstring :=
  if str_eqb (selectedSide bet) (lit "A") then teamA bet else teamB bet.

End BetCard.

(** ** Editing the verification form *)

Module FormState.

(** The state of the form: [formData] and [errors]. *)
Record State := mkState {
  formData : OCRData;
  errors : Errors
}.

Inductive GameUpdate :=
| SetGameDate (value : JSDate)
| SetGameTime (value : jsstring)
| SetSport (value : jsstring)
| SetLeague (value : jsstring)
| SetTotalProfitPercentage (value : jsstring).

Definition gameFieldKey (u : GameUpdate) : string :=
  match u with
  | SetGameDate _ => "gameDate"
  | SetGameTime _ => "gameTime"
  | SetSport _ => "sport"
  | SetLeague _ => "league"
  | SetTotalProfitPercentage _ => "totalProfitPercentage"
  end.

(** [if (errors[key]) setErrors(prev => ({ ...prev, [key]: '' }))]: a
    recorded message is emptied, its key stays. *)
Fixpoint clearError (key : string) (errs : Errors) : Errors :=
  match errs with
  | [] => []
  | (k, msg) :: rest =>
      if String.eqb k key then
        (k, match msg with EmptyString => msg | String _ _ => EmptyString end) :: rest
      else (k, msg) :: clearError key rest
  end.

(** [`${day}-${month}-${year}`] from the UTC fields of a date. *)
Definition utcDayMonthYear (value : JSDate) : jsstring :=
  let day := padStart 2 zeroDigit (natToString (getUTCDate value)) in
  let month := padStart 2 zeroDigit (natToString (getUTCMonth value + 1)) in
  let year := natToString (getUTCFullYear value) in
  day ++ [dash] ++ month ++ [dash] ++ year.

(** The [formData] set by [updateGameField]; the calendar hands a [Date]
    to the field gameDate, the inputs hand a string to the other fields. *)
Definition updatedGameData (u : GameUpdate) (prev : OCRData) : OCRData :=
  match u with
  | SetGameDate value =>
      let formatted := utcDayMonthYear value in
      {| o_betA := o_betA prev;
         o_betB := o_betB prev;
         o_gameDate := IsDate value;
         o_gameTime := o_gameTime prev;
         o_gameDateFormatted := Some formatted;
         o_gameDateTime :=
           match o_gameTime prev with
           | Some (c :: s) => Some (formatted ++ [32] ++ c :: s)
           | Some [] | None => Some formatted
           end;
         o_sport := o_sport prev;
         o_league := o_league prev;
         o_totalProfitPercentage := o_totalProfitPercentage prev |}
  | SetGameTime value =>
      {| o_betA := o_betA prev;
         o_betB := o_betB prev;
         o_gameDate := o_gameDate prev;
         o_gameTime := Some value;
         o_gameDateFormatted := o_gameDateFormatted prev;
         o_gameDateTime :=
           match o_gameDateFormatted prev with
           | Some (c :: s) => Some ((c :: s) ++ [32] ++ value)
           | Some [] | None => o_gameDateTime prev
           end;
         o_sport := o_sport prev;
         o_league := o_league prev;
         o_totalProfitPercentage := o_totalProfitPercentage prev |}
  | SetSport value =>
      {| o_betA := o_betA prev;
         o_betB := o_betB prev;
         o_gameDate := o_gameDate prev;
         o_gameTime := o_gameTime prev;
         o_gameDateFormatted := o_gameDateFormatted prev;
         o_gameDateTime := o_gameDateTime prev;
         o_sport := value;
         o_league := o_league prev;
         o_totalProfitPercentage := o_totalProfitPercentage prev |}
  | SetLeague value =>
      {| o_betA := o_betA prev;
         o_betB := o_betB prev;
         o_gameDate := o_gameDate prev;
         o_gameTime := o_gameTime prev;
         o_gameDateFormatted := o_gameDateFormatted prev;
         o_gameDateTime := o_gameDateTime prev;
         o_sport := o_sport prev;
         o_league := value;
         o_totalProfitPercentage := o_totalProfitPercentage prev |}
  | SetTotalProfitPercentage value =>
      {| o_betA := o_betA prev;
         o_betB := o_betB prev;
         o_gameDate := o_gameDate prev;
         o_gameTime := o_gameTime prev;
         o_gameDateFormatted := o_gameDateFormatted prev;
         o_gameDateTime := o_gameDateTime prev;
         o_sport := o_sport prev;
         o_league := o_league prev;
         o_totalProfitPercentage := value |}
  end.

(** [updateGameField]. *)
Definition updateGameField (u : GameUpdate) (st : State) : State :=
  {| formData := updatedGameData u (formData st);
     errors := clearError (gameFieldKey u) (errors st) |}.

End FormState.

(** ** The bet management *)

Module BetManagement.

Inductive PairStatus := PairPending | PairResolved.

(** [calculatePairStatus]. *)
Definition calculatePairStatus (betA betB : Bet) : PairStatus :=
  if status_eqb (status betA) pending || status_eqb (status betB) pending
  then PairPending
  else if status_eqb (status betA) won || status_eqb (status betB) won
  then PairResolved
  else PairResolved.

End BetManagement.

(** ** Terms of the statements *)

(** The text that [createBet] examines once the slashes are replaced. *)
Definition dashed (gameDate : jsstring) : jsstring :=
  if includes slash gameDate then replaceAll slash dash gameDate else gameDate.

(** The bets of the pair [k], in the order of the list. *)
Definition betsOfPair (k : jsstring) (bets : list Bet) : list Bet :=
  List.filter (fun bet => str_eqb (pairId bet) k) bets.

(** The group that the grouping loop holds for [k] after [bets], from the
    object [pairs] it started with. *)
Definition groupAfter (pairs : list (jsstring * list Bet)) (bets : list Bet)
    (k : jsstring) : option (list Bet) :=
  match ownLookup k pairs with
  | Some g => Some (g ++ betsOfPair k bets)
  | None =>
      match betsOfPair k bets with
      | [] => None
      | b :: l => Some (b :: l)
      end
  end.

Definition anyInherited (bets : list Bet) : bool :=
  List.existsb (fun bet => inherited (pairId bet)) bets.

(** The name of a status, as a request and a row write it. *)
Definition statusName (s : BetStatus) : jsstring :=
  match s with
  | pending => lit "pending"
  | won => lit "won"
  | lost => lit "lost"
  | returned => lit "returned"
  end.

(** The media type that the first characters of base64 text stand for;
    JPEG when they are none of the three other types'. *)
Definition mediaTypeOfMagic (payload : jsstring) : Routes.MediaType :=
  if Routes.startsWith (lit "iVBOR") payload then Routes.ImagePng
  else if Routes.startsWith (lit "R0lGOD") payload then Routes.ImageGif
  else if Routes.startsWith (lit "UklGR") payload then Routes.ImageWebp
  else Routes.ImageJpeg.

(** The data URL of a payload: [data:<type>;base64,<payload>]. *)
Definition dataUrl (mediaType payload : jsstring) : jsstring :=
  lit "data:" ++ mediaType ++ lit ";base64," ++ payload.

(** A leg that the verification form lets pass: no field is blank, the
    odds and the stake read as numbers above 0, the profit as a number. *)
Definition legAccepted (Number : jsstring -> number) (bet : SingleBetOCR) : Prop :=
  trim (o_bettingHouse bet) <> [] /\
  trim (o_teamA bet) <> [] /\
  trim (o_teamB bet) <> [] /\
  trim (o_betType bet) <> [] /\
  o_odds bet <> [] /\ gt (Number (o_odds bet)) 0%float = true /\
  o_stake bet <> [] /\ gt (Number (o_stake bet)) 0%float = true /\
  o_profit bet <> [] /\ isNaN (Number (o_profit bet)) = false.

(** A value whose conversion to a string goes through: it holds no object
    with an own property [toString], at any depth of its arrays. *)
Fixpoint printable (v : jsval) : bool :=
  match v with
  | VArr items =>
      (fix all (items : list jsval) : bool :=
         match items with
         | [] => true
         | item :: rest => printable item && all rest
         end) items
  | VObj fields => negb (Routes.hasOwn (lit "toString") fields)
  | _ => true
  end.

(** A value on which [`${value || ''}`] throws. *)
Definition unprintable (v : jsval) : bool := truthy v && negb (printable v).

(** The value of a read that went through, [undefined] otherwise. *)
Definition valueOr (c : Completion jsval) : jsval :=
  match c with
  | Normal v => v
  | Throw _ => VUndefined
  end.

Definition topValue (data : jsval) (field : string) : jsval :=
  valueOr (getProp data field).

Definition legValue (data : jsval) (leg field : string) : jsval :=
  valueOr (Routes.optionalField data leg field).

(** The values that [formatToText] prints, in the order of its lines. *)
Definition legFields : list string :=
  ["bettingHouse"; "betType"; "odds"; "stake"; "profit"]%string.

Definition printedValues (data : jsval) : list jsval :=
  List.map (topValue data)
    ["gameDate"; "gameTime"; "sport"; "league"; "teamA"; "teamB"]%string
  ++ List.map (legValue data "betA") legFields
  ++ List.map (legValue data "betB") legFields
  ++ [topValue data "totalProfitPercentage"].

(** A value on which [(v || dflt).replace(...)] and
    [v ? v.replace(...) : dflt] go through: a falsy one, or a string. *)
Definition falsyOrText (v : jsval) : bool :=
  negb (truthy v) || match v with VStr _ => true | _ => false end.

Definition isText (v : jsval) : bool :=
  match v with VStr _ => true | _ => false end.

(** The natural numbers below [k]. *)
Definition below (k : N) : list N := List.map N.of_nat (List.seq 0 (N.to_nat k)).

(** Two decimal digits, and four. *)
Definition twoDigits (s : jsstring) : bool :=
  match s with
  | [a; b] => isDigit a && isDigit b
  | _ => false
  end.

Definition fourDigits (s : jsstring) : bool :=
  match s with
  | [a; b; c; d] => isDigit a && isDigit b && isDigit c && isDigit d
  | _ => false
  end.

(** ** Sample records *)

Module Samples.

(** A leg of the pair "p1" with the given position, status, stake and
    payout. *)
Definition leg (position : BetPosition) (st : BetStatus) (stk pay : string) : Bet :=
  {| id := lit "1";
     teamA := lit "Flamengo";
     teamB := lit "Vasco";
     betType := lit "Over";
     selectedSide := lit "Over";
     bettingHouse := lit "KTO";
     odds := lit "2.50";
     stake := lit stk;
     payout := lit pay;
     gameDate := lit "2025-09-26";
     gameTime := lit "12:00";
     sport := lit "Futebol";
     league := lit "Serie A";
     status := st;
     isVerified := true;
     pairId := lit "p1";
     betPosition := position;
     totalPairStake := Some (lit "200");
     profitPercentage := Some (lit "25");
     createdAt := 0%Z |}.

(** The body of a POST /api/bets request with the given game date. *)
Definition insertLeg (date : jsstring) : InsertBet :=
  {| i_teamA := lit "Flamengo";
     i_teamB := lit "Vasco";
     i_betType := lit "Over";
     i_selectedSide := lit "Over";
     i_bettingHouse := lit "KTO";
     i_odds := lit "2.50";
     i_stake := lit "100";
     i_payout := lit "250.00";
     i_gameDate := DateString date;
     i_gameTime := lit "12:00";
     i_sport := lit "Futebol";
     i_league := lit "Serie A";
     i_status := Some pending;
     i_isVerified := Some true;
     i_pairId := lit "p1";
     i_betPosition := PosA;
     i_totalPairStake := Some (lit "200");
     i_profitPercentage := Some (lit "25") |}.

Definition env0 : Env :=
  {| randomUUID := lit "b7e1";
     now := {| getUTCFullYear := 2025; getUTCMonth := 8; getUTCDate := 20 |};
     stamp := 1758326400000%Z |}.

(** The two legs of a verification form with the given team names. *)
Definition formLeg (a b : jsstring) : SingleBetOCR :=
  {| o_bettingHouse := lit "KTO";
     o_teamA := a;
     o_teamB := b;
     o_betType := lit "Over";
     o_odds := lit "2.5";
     o_stake := lit "100";
     o_profit := lit "5" |}.

Definition form (a b c d : jsstring) : OCRData :=
  {| o_betA := formLeg a b;
     o_betB := formLeg c d;
     o_gameDate := IsString (lit "26/09/2025");
     o_gameTime := Some (lit "12:00");
     o_gameDateFormatted := None;
     o_gameDateTime := None;
     o_sport := lit "Futebol";
     o_league := lit "Serie A";
     o_totalProfitPercentage := lit "1.45" |}.

End Samples.

(** * Properties *)

(** ** Sample runs *)

Example calculatePairMetrics_run :
  calculatePairMetrics 100%float 100%float 250%float 0%float
  = {| totalStake := 200%float;
       profitPercentageA := 25%float;
       profitPercentageB := (-100)%float |}.
Proof. reflexivity. Qed.

Example NumberDecimal_run :
  NumberDecimal (lit "100") = 100%float /\
  NumberDecimal (lit "2.75") = 2.75%float /\
  NumberDecimal (lit " 412.50 ") = 412.5%float /\
  NumberDecimal (lit "-0") = (-0)%float /\
  NumberDecimal [] = 0%float /\
  isNaN (NumberDecimal (lit "abc")) = true.
Proof. repeat split; reflexivity. Qed.

Example natToString_run :
  natToString 2025 = lit "2025" /\ natToString 0 = lit "0" /\
  padStart 2 zeroDigit (natToString 9) = lit "09".
Proof. repeat split; reflexivity. Qed.

Example sanitizeNumber_run :
  sanitizeNumber (lit "1 234,56") = lit "1234.56" /\
  sanitizeNumber ([49; 160; 50; 8239; 51; 8201; 52] ++ lit ",5") = lit "1234.5".
Proof. split; reflexivity. Qed.

Example formatGameDate_run :
  formatGameDate (IsString (lit "26/09/2025")) = lit "26-09-2025" /\
  formatGameDate (IsDate {| getUTCFullYear := 2025; getUTCMonth := 8; getUTCDate := 6 |})
  = lit "06-09-2025".
Proof. split; reflexivity. Qed.

Example formattedGameDate_run :
  formattedGameDate (now Samples.env0) (DateString (lit "26-09-2025")) = lit "2025-09-26" /\
  formattedGameDate (now Samples.env0) (DateString (lit "2025/09/26")) = lit "2025-09-26" /\
  formattedGameDate (now Samples.env0) NotAString = lit "2025-09-20".
Proof. repeat split; reflexivity. Qed.

Example pairStat_run :
  pairStat NumberDecimal
    [Samples.leg PosB returned "100" "250"; Samples.leg PosA lost "50" "125"]
  = Some {| ps_pairId := lit "p1";
            ps_status := lost;
            ps_totalStake := 150%float;
            ps_netResult := (-50)%float;
            ps_gameDate := lit "2025-09-26";
            ps_incomplete := false |}.
Proof. reflexivity. Qed.

(** ** Numbers *)

Section NumberFacts.

Local Open Scope float_scope.

(** A number strictly equal to 0 is one of the two zeros. *)
Lemma strictEq_zero_cases (t : number) :
  strictEq t 0 = true -> t = 0 \/ t = -0.
Proof.
  unfold strictEq. rewrite FloatAxioms.eqb_spec.
  change (Prim2SF 0) with (S754_zero false).
  destruct (Prim2SF t) as [s | s | | s m e] eqn:E; cbn;
    try destruct s; try discriminate; intros _.
  - right. apply Prim2SF_inj. rewrite E. reflexivity.
  - left. apply Prim2SF_inj. rewrite E. reflexivity.
Qed.

Lemma gt_zero_of_strictEq_zero (t : number) :
  strictEq t 0 = true -> gt t 0 = false.
Proof.
  intros H. destruct (strictEq_zero_cases t H) as [-> | ->]; reflexivity.
Qed.

(** Adding the zero literal changes nothing, except that it turns the
    negative zero into the positive one. *)
Lemma add_zero (p : number) : p + 0 = p \/ (p = -0 /\ p + 0 = 0).
Proof.
  destruct (Prim2SF p) as [s | s | | s m e] eqn:E.
  1: destruct s.
  1: { right. assert (p = -0) as -> by (apply Prim2SF_inj; rewrite E; reflexivity).
       split; reflexivity. }
  all: left; apply Prim2SF_inj; rewrite add_spec, E; reflexivity.
Qed.

Lemma sub_from_either_zero (t : number) : sameNumber (0 - t) (-0 - t).
Proof.
  unfold sameNumber, strictEq.
  destruct (Prim2SF t) as [s | s | | s m e] eqn:E.
  - right. rewrite FloatAxioms.eqb_spec, !sub_spec, E.
    destruct s; reflexivity.
  - left. apply Prim2SF_inj. rewrite !sub_spec, E. reflexivity.
  - left. apply Prim2SF_inj. rewrite !sub_spec, E. reflexivity.
  - left. apply Prim2SF_inj. rewrite !sub_spec, E. reflexivity.
Qed.

(** [p + 0 - t] and [p - t] are the same number. *)
Lemma add_zero_then_sub (p t : number) : sameNumber (p + 0 - t) (p - t).
Proof.
  destruct (add_zero p) as [-> | [-> ->]].
  - left; reflexivity.
  - apply sub_from_either_zero.
Qed.

End NumberFacts.

(** ** Pair metrics *)

(** C2. [calculatePairMetrics] returns the sum of the two stakes as the
    total stake and, when the total stake is greater than 0, the
    percentages ((payout - totalStake) / totalStake) * 100 of the two
    legs; on (100, 100, 250, 0) it returns 200, 25 and -100. *)
Theorem C2_calculatePairMetrics_formulas :
  (forall stakeA stakeB payoutA payoutB : number,
      let m := calculatePairMetrics stakeA stakeB payoutA payoutB in
      totalStake m = (stakeA + stakeB)%float /\
      (gt (totalStake m) 0%float = true ->
       profitPercentageA m
       = (((payoutA - totalStake m) / totalStake m) * 100)%float /\
       profitPercentageB m
       = (((payoutB - totalStake m) / totalStake m) * 100)%float)) /\
  calculatePairMetrics 100%float 100%float 250%float 0%float
  = {| totalStake := 200%float;
       profitPercentageA := 25%float;
       profitPercentageB := (-100)%float |}.
Proof.
  split; [| reflexivity].
  intros stakeA stakeB payoutA payoutB. cbn zeta.
  unfold calculatePairMetrics; cbn [totalStake profitPercentageA profitPercentageB].
  split; [reflexivity |].
  intros ->. split; reflexivity.
Qed.

Lemma C2_calculatePairMetrics_witness :
  let m := calculatePairMetrics 100%float 100%float 250%float 0%float in
  gt (totalStake m) 0%float = true /\
  profitPercentageA m = 25%float /\ profitPercentageB m = (-100)%float.
Proof.
  cbn zeta. split; [reflexivity |].
  destruct (proj1 C2_calculatePairMetrics_formulas
              100%float 100%float 250%float 0%float) as [_ H].
  destruct (H eq_refl) as [HA HB].
  rewrite HA, HB. split; reflexivity.
Defined.

(** C3. When the two stakes sum to 0, [calculatePairMetrics] answers 0 for
    both percentages; the total stake is a zero and none of the three
    results is NaN or infinite. The function is total: it has no error
    result. On the all-zero input it returns 0, 0 and 0. *)
Theorem C3_calculatePairMetrics_zero_total :
  (forall stakeA stakeB payoutA payoutB : number,
      strictEq (stakeA + stakeB)%float 0%float = true ->
      let m := calculatePairMetrics stakeA stakeB payoutA payoutB in
      profitPercentageA m = 0%float /\
      profitPercentageB m = 0%float /\
      strictEq (totalStake m) 0%float = true /\
      isNaN (totalStake m) = false /\ isInfinite (totalStake m) = false /\
      isNaN (profitPercentageA m) = false /\ isInfinite (profitPercentageA m) = false /\
      isNaN (profitPercentageB m) = false /\ isInfinite (profitPercentageB m) = false) /\
  calculatePairMetrics 0%float 0%float 0%float 0%float
  = {| totalStake := 0%float;
       profitPercentageA := 0%float;
       profitPercentageB := 0%float |}.
Proof.
  split; [| reflexivity].
  intros stakeA stakeB payoutA payoutB H. cbn zeta.
  unfold calculatePairMetrics; cbn [totalStake profitPercentageA profitPercentageB].
  rewrite (gt_zero_of_strictEq_zero _ H).
  repeat split; try reflexivity; try exact H.
  all: destruct (strictEq_zero_cases _ H) as [-> | ->]; reflexivity.
Qed.

Lemma C3_calculatePairMetrics_zero_witness :
  let m := calculatePairMetrics 0%float 0%float 0%float 0%float in
  strictEq (0 + 0)%float 0%float = true /\
  profitPercentageA m = 0%float /\ profitPercentageB m = 0%float.
Proof.
  cbn zeta. split; [reflexivity |].
  destruct (proj1 C3_calculatePairMetrics_zero_total
              0%float 0%float 0%float 0%float eq_refl) as (HA & HB & _).
  split; [exact HA | exact HB].
Defined.

(** ** Pair resolution *)

Section FindFacts.

Context {A : Type}.

Lemma find_app_split (p : A -> bool) (l1 l2 : list A) :
  List.find p (l1 ++ l2)
  = match List.find p l1 with
    | Some x => Some x
    | None => List.find p l2
    end.
Proof.
  induction l1 as [| x l1 IH]; cbn; [reflexivity |].
  destruct (p x); [reflexivity | exact IH].
Qed.

Lemma find_filter_same (p : A -> bool) (l : list A) :
  List.find p (List.filter p l) = List.find p l.
Proof.
  induction l as [| x l IH]; cbn; [reflexivity |].
  destruct (p x) eqn:E; cbn; rewrite ?E; [reflexivity | exact IH].
Qed.

Lemma find_filter_disjoint (p q : A -> bool) (l : list A) :
  (forall x, q x = true -> p x = false) ->
  List.find p (List.filter q l) = None.
Proof.
  intros H. induction l as [| x l IH]; cbn; [reflexivity |].
  destruct (q x) eqn:E; cbn; [rewrite (H x E) |]; exact IH.
Qed.

End FindFacts.

(** Sorting by position does not change which bet [find] meets first. *)
Lemma find_A_sorted (pairBets : list Bet) :
  List.find isA (sortByPosition pairBets) = List.find isA pairBets.
Proof.
  unfold sortByPosition. rewrite find_app_split.
  rewrite find_filter_same.
  destruct (List.find isA pairBets) eqn:E; [reflexivity |].
  apply find_filter_disjoint.
  intros x. unfold isA, isB. destruct (betPosition x); cbn; congruence.
Qed.

Lemma find_B_sorted (pairBets : list Bet) :
  List.find isB (sortByPosition pairBets) = List.find isB pairBets.
Proof.
  unfold sortByPosition. rewrite find_app_split.
  rewrite (find_filter_disjoint isB).
  - apply (find_filter_same isB).
  - intros x. unfold isA, isB. destruct (betPosition x); cbn; congruence.
Qed.

(** The entry of a complete pair, from the first bet of each position. *)
Lemma pairStat_complete (Number : jsstring -> number) pairBets betA betB :
  List.find isA pairBets = Some betA ->
  List.find isB pairBets = Some betB ->
  pairStat Number pairBets = pairStat Number [betA; betB].
Proof.
  intros HA HB.
  assert (PA : isA betA = true) by (apply List.find_some in HA; tauto).
  assert (PB : isB betB = true) by (apply List.find_some in HB; tauto).
  unfold pairStat.
  rewrite !find_A_sorted, !find_B_sorted, HA, HB.
  cbn [List.find]. rewrite PA, PB.
  assert (QB : isB betA = false)
    by (revert PA; unfold isA, isB; destruct (betPosition betA); cbn; congruence).
  rewrite QB. reflexivity.
Qed.

Section Resolution.

Variable Number : jsstring -> number.

Local Open Scope float_scope.

Lemma pairStat_two (betA betB : Bet) :
  isA betA = true -> isB betB = true ->
  exists v,
    pairStat Number [betA; betB] = Some v /\
    ps_incomplete v = false /\
    ps_pairId v = pairId betA /\
    ps_totalStake v = stakesTotal Number betA betB /\
    (status betA = pending \/ status betB = pending ->
     ps_status v = pending /\ ps_netResult v = 0) /\
    (status betA = returned -> status betB = returned ->
     ps_status v = returned /\ ps_netResult v = 0) /\
    (status betA = won -> status betB <> pending ->
     ps_status v = won /\
     ps_netResult v
     = Number (payout betA) + returnedStakes Number betA betB - stakesTotal Number betA betB) /\
    (status betB = won -> status betA <> pending -> status betA <> won ->
     ps_status v = won /\
     ps_netResult v
     = Number (payout betB) + returnedStakes Number betA betB - stakesTotal Number betA betB) /\
    (status betA <> pending -> status betB <> pending ->
     status betA <> won -> status betB <> won ->
     ~ (status betA = returned /\ status betB = returned) ->
     ps_status v = lost /\
     ps_netResult v = returnedStakes Number betA betB - stakesTotal Number betA betB).
Proof.
  intros PA PB.
  assert (QB : isB betA = false)
    by (revert PA; unfold isA, isB; destruct (betPosition betA); cbn; congruence).
  unfold pairStat, sortByPosition, returnedStakes, stakesTotal.
  assert (QA : isA betB = false)
    by (revert PB; unfold isA, isB; destruct (betPosition betB); cbn; congruence).
  cbn [List.filter List.app List.find]. rewrite PA, PB, QA, QB.
  cbn [List.filter List.app List.find]. rewrite PA, PB, QB.
  destruct (status betA), (status betB); cbn;
    eexists; (split; [reflexivity |]); cbn;
    repeat split; intros; try congruence; try tauto;
    try (exfalso; intuition congruence).
Qed.

End Resolution.


Lemma pairStat_found (Number : jsstring -> number) pairBets betA betB :
  List.find isA pairBets = Some betA ->
  List.find isB pairBets = Some betB ->
  isA betA = true /\ isB betB = true /\
  pairStat Number pairBets = pairStat Number [betA; betB].
Proof.
  intros HA HB. split; [| split].
  - apply List.find_some in HA; tauto.
  - apply List.find_some in HB; tauto.
  - apply pairStat_complete; assumption.
Qed.

(** C1. The entry of a complete pair follows the resolution table:
    pending with net result 0 when a leg is pending; returned with net
    result 0 when both legs are returned; won, with the winning leg's
    payout plus the returned stakes minus the total stake, when a leg is
    won and none is pending; lost, with the returned stakes minus the total
    stake, otherwise. A won leg of stake 100 and payout 250 against a lost
    leg of stake 100 gives a won pair of net result 50. *)
Theorem C1_pair_resolution_table :
  (forall (Number : jsstring -> number) (pairBets : list Bet) (betA betB : Bet),
      List.find isA pairBets = Some betA ->
      List.find isB pairBets = Some betB ->
      exists v,
        pairStat Number pairBets = Some v /\
        ps_incomplete v = false /\
        ps_totalStake v = stakesTotal Number betA betB /\
        (status betA = pending \/ status betB = pending ->
         ps_status v = pending /\ ps_netResult v = 0%float) /\
        (status betA = returned -> status betB = returned ->
         ps_status v = returned /\ ps_netResult v = 0%float) /\
        (status betA = won -> status betB <> pending ->
         ps_status v = won /\
         ps_netResult v
         = (Number (payout betA) + returnedStakes Number betA betB
            - stakesTotal Number betA betB)%float) /\
        (status betB = won -> status betA <> pending -> status betA <> won ->
         ps_status v = won /\
         ps_netResult v
         = (Number (payout betB) + returnedStakes Number betA betB
            - stakesTotal Number betA betB)%float) /\
        (status betA <> pending -> status betB <> pending ->
         status betA <> won -> status betB <> won ->
         ~ (status betA = returned /\ status betB = returned) ->
         ps_status v = lost /\
         ps_netResult v
         = (returnedStakes Number betA betB - stakesTotal Number betA betB)%float)) /\
  (forall (Number : jsstring -> number) (betA betB : Bet),
      isA betA = true -> isB betB = true ->
      status betA = won -> status betB = lost ->
      Number (stake betA) = 100%float ->
      Number (payout betA) = 250%float ->
      Number (stake betB) = 100%float ->
      exists v,
        pairStat Number [betA; betB] = Some v /\
        ps_status v = won /\ ps_netResult v = 50%float).
Proof.
  split.
  - intros Number pairBets betA betB HA HB.
    destruct (pairStat_found Number _ _ _ HA HB) as (PA & PB & ->).
    destruct (pairStat_two Number betA betB PA PB)
      as (v & Hv & Hinc & _ & Htot & Hpend & Hret & HwonA & HwonB & Hlost).
    exists v. repeat split; try assumption.
    + apply Hpend; assumption.
    + apply Hpend; assumption.
    + apply Hret; assumption.
    + apply Hret; assumption.
    + apply HwonA; assumption.
    + apply HwonA; assumption.
    + apply HwonB; assumption.
    + apply HwonB; assumption.
    + apply Hlost; assumption.
    + apply Hlost; assumption.
  - intros Number betA betB PA PB SA SB HsA HpA HsB.
    destruct (pairStat_two Number betA betB PA PB)
      as (v & Hv & _ & _ & _ & _ & _ & HwonA & _).
    exists v. split; [exact Hv |].
    destruct HwonA as [Hst Hnet]; [exact SA | rewrite SB; discriminate |].
    split; [exact Hst |].
    rewrite Hnet. unfold returnedStakes, stakesTotal.
    rewrite SA, SB, HsA, HpA, HsB. reflexivity.
Qed.

(** C9. When both legs of a complete pair are won, the entry is computed
    (the callback is total), the pair is won, and the net result is leg
    A's payout, plus a returned amount of 0, minus the total stake: the
    same number as leg A's payout minus the total stake. *)
Theorem C9_both_legs_won (Number : jsstring -> number)
    (pairBets : list Bet) (betA betB : Bet) :
  List.find isA pairBets = Some betA ->
  List.find isB pairBets = Some betB ->
  status betA = won -> status betB = won ->
  exists v,
    pairStat Number pairBets = Some v /\
    ps_status v = won /\
    ps_netResult v
    = (Number (payout betA) + 0 - stakesTotal Number betA betB)%float /\
    sameNumber (ps_netResult v)
      (Number (payout betA) - stakesTotal Number betA betB)%float.
Proof.
  intros HA HB SA SB.
  destruct (pairStat_found Number _ _ _ HA HB) as (PA & PB & ->).
  destruct (pairStat_two Number betA betB PA PB)
    as (v & Hv & _ & _ & _ & _ & _ & HwonA & _).
  exists v. split; [exact Hv |].
  destruct HwonA as [Hst Hnet]; [exact SA | rewrite SB; discriminate |].
  split; [exact Hst |].
  assert (E : returnedStakes Number betA betB = 0%float)
    by (unfold returnedStakes; rewrite SA, SB; reflexivity).
  rewrite Hnet, E. split; [reflexivity |].
  apply add_zero_then_sub.
Qed.

Section StatsFacts.

Variable Number : jsstring -> number.

Lemma pairStats_cons_some pairBets groups v :
  pairStat Number pairBets = Some v ->
  pairStats Number (pairBets :: groups) = v :: pairStats Number groups.
Proof. intros H. cbn. rewrite H. reflexivity. Qed.

Lemma countIf_cons (f : PairStat -> bool) v l :
  countIf f (v :: l) = if f v then S (countIf f l) else countIf f l.
Proof. unfold countIf. cbn. destruct (f v); reflexivity. Qed.

(** The entry of a group that holds a single leg. *)
Lemma pairStat_single (b : Bet) :
  pairStat Number [b]
  = Some {| ps_pairId := pairId b;
            ps_status := pending;
            ps_totalStake := Number (stake b);
            ps_netResult := 0%float;
            ps_gameDate := gameDate b;
            ps_incomplete := true |}.
Proof.
  unfold pairStat, sortByPosition, isA, isB.
  destruct (betPosition b) eqn:E;
    cbv [List.filter List.app List.find position_eqb]; rewrite !E; reflexivity.
Qed.

(** The entry of a group in which one position only is present. *)
Lemma pairStat_one_sided (pairBets : list Bet) (b : Bet) :
  (List.find isA pairBets = Some b /\ List.find isB pairBets = None) \/
  (List.find isA pairBets = None /\ List.find isB pairBets = Some b) ->
  pairStat Number pairBets
  = Some {| ps_pairId := pairId b;
            ps_status := pending;
            ps_totalStake := Number (stake b);
            ps_netResult := 0%float;
            ps_gameDate := gameDate b;
            ps_incomplete := true |}.
Proof.
  intros H. unfold pairStat. rewrite find_A_sorted, find_B_sorted.
  destruct H as [[-> ->] | [-> ->]]; reflexivity.
Qed.

End StatsFacts.

(** C4. A pair of which exactly one leg exists is reported as pending,
    with net result 0, the leg's stake as total stake, and flagged
    incomplete (so is any group in which one position only is present);
    the entry of a complete pair is never flagged, and the statistics
    count the incomplete pair among the incomplete ones (and among the
    pending ones), a complete pair never. *)
Theorem C4_incomplete_pair (Number : jsstring -> number) (b : Bet) :
  pairStat Number [b]
  = Some {| ps_pairId := pairId b;
            ps_status := pending;
            ps_totalStake := Number (stake b);
            ps_netResult := 0%float;
            ps_gameDate := gameDate b;
            ps_incomplete := true |} /\
  (forall pairBets : list Bet,
      (List.find isA pairBets = Some b /\ List.find isB pairBets = None) \/
      (List.find isA pairBets = None /\ List.find isB pairBets = Some b) ->
      pairStat Number pairBets = pairStat Number [b]) /\
  (forall pairBets betA betB,
      List.find isA pairBets = Some betA ->
      List.find isB pairBets = Some betB ->
      exists v, pairStat Number pairBets = Some v /\ ps_incomplete v = false) /\
  (forall groups,
      incompletePairs (stats Number ([b] :: groups))
      = S (incompletePairs (stats Number groups)) /\
      pendingPairs (stats Number ([b] :: groups))
      = S (pendingPairs (stats Number groups)) /\
      completePairs (stats Number ([b] :: groups))
      = completePairs (stats Number groups)) /\
  (forall groups pairBets betA betB,
      List.find isA pairBets = Some betA ->
      List.find isB pairBets = Some betB ->
      incompletePairs (stats Number (pairBets :: groups))
      = incompletePairs (stats Number groups) /\
      completePairs (stats Number (pairBets :: groups))
      = S (completePairs (stats Number groups))).
Proof.
  split; [apply pairStat_single |].
  split; [| split; [| split]].
  - intros pairBets H.
    rewrite pairStat_single. apply pairStat_one_sided, H.
  - intros pairBets betA betB HA HB.
    destruct (pairStat_found Number _ _ _ HA HB) as (PA & PB & ->).
    destruct (pairStat_two Number betA betB PA PB) as (v & Hv & Hinc & _).
    exists v. split; assumption.
  - intros groups. unfold stats.
    cbn [incompletePairs pendingPairs completePairs].
    rewrite (pairStats_cons_some Number _ _ _ (pairStat_single Number b)).
    rewrite !countIf_cons. cbn. repeat split; reflexivity.
  - intros groups pairBets betA betB HA HB.
    destruct (pairStat_found Number _ _ _ HA HB) as (PA & PB & E).
    destruct (pairStat_two Number betA betB PA PB) as (v & Hv & Hinc & _).
    rewrite <- E in Hv. unfold stats.
    cbn [incompletePairs completePairs].
    rewrite (pairStats_cons_some Number _ _ _ Hv).
    rewrite !countIf_cons, Hinc. cbn. split; reflexivity.
Qed.

(** ** Number sanitising *)

Lemma sanitizeNumber_canonical (x : jsstring) :
  isCanonical (sanitizeNumber x) = true.
Proof.
  unfold sanitizeNumber, replaceAll, removeAll, isCanonical.
  induction x as [| c x IH]; cbn; [reflexivity |].
  destruct (isSanitizedSpace c) eqn:Ec; cbn; [exact IH |].
  rewrite IH, andb_true_r.
  destruct (unit_eqb c comma) eqn:E; [reflexivity |].
  rewrite Ec, E. reflexivity.
Qed.

Lemma sanitizeNumber_fixes_canonical (x : jsstring) :
  isCanonical x = true -> sanitizeNumber x = x.
Proof.
  unfold sanitizeNumber, replaceAll, removeAll, isCanonical.
  induction x as [| c x IH]; cbn; [reflexivity |].
  intros H. apply andb_prop in H as [Hc Hx].
  apply andb_prop in Hc as [Hs Hk].
  apply negb_true_iff in Hs, Hk. rewrite Hs. cbn. rewrite Hk.
  f_equal. apply IH, Hx.
Qed.

(** C7. [sanitizeNumber] is idempotent; it returns a canonical string (no
    space variant, no comma) unchanged, and every result is canonical;
    "1 234,56" becomes "1234.56". *)
Theorem C7_sanitizeNumber_idempotent :
  (forall x : jsstring, sanitizeNumber (sanitizeNumber x) = sanitizeNumber x) /\
  (forall x : jsstring, isCanonical x = true -> sanitizeNumber x = x) /\
  (forall x : jsstring, isCanonical (sanitizeNumber x) = true) /\
  sanitizeNumber (lit "1 234,56") = lit "1234.56".
Proof.
  repeat split.
  - intros x. apply sanitizeNumber_fixes_canonical, sanitizeNumber_canonical.
  - apply sanitizeNumber_fixes_canonical.
  - apply sanitizeNumber_canonical.
Qed.

Lemma C7_sanitizeNumber_witness :
  isCanonical (lit "1234.56") = true /\
  sanitizeNumber (lit "1234.56") = lit "1234.56".
Proof.
  split; [reflexivity |].
  apply (proj1 (proj2 C7_sanitizeNumber_idempotent) (lit "1234.56")).
  reflexivity.
Defined.

(** ** The structured OCR response *)

Lemma convertBet_without_leg (fields : list (jsstring * jsval)) (bet : string) :
  nullish (lookupField (lit bet) fields) = true ->
  convertBet (VObj fields) bet = Throw TypeError.
Proof.
  intros H. unfold convertBet, betField. cbn [getProp mbind Completion_bind].
  destruct (lookupField (lit bet) fields); try discriminate H; reflexivity.
Qed.

(** C8. An object in which a leg, [betA] or [betB], is missing (or null)
    makes [convertClaudeToOCRFormat] throw a TypeError instead of
    defaulting the leg's fields; the empty object is such an input. *)
Theorem C8_convert_throws_without_leg :
  convertClaudeToOCRFormat (VObj []) = Throw TypeError /\
  (forall fields : list (jsstring * jsval),
      nullish (lookupField (lit "betA") fields) = true \/
      nullish (lookupField (lit "betB") fields) = true ->
      convertClaudeToOCRFormat (VObj fields) = Throw TypeError).
Proof.
  split; [reflexivity |].
  intros fields H. unfold convertClaudeToOCRFormat.
  cbn [getProp mbind Completion_bind].
  destruct (callReplace (removeFirst percent) _) as [cp | []];
    cbn [mbind Completion_bind]; [| reflexivity].
  assert (E : forall gd : Completion jsval,
             gd ≫= (fun gameDate =>
               convertBet (VObj fields) "betA" ≫= fun betA =>
               convertBet (VObj fields) "betB" ≫= fun betB =>
               topField (VObj fields) "gameTime" "00:00" ≫= fun gameTime =>
               topField (VObj fields) "sport" "" ≫= fun sport =>
               topField (VObj fields) "league" "" ≫= fun league =>
               Normal {| f_betA := betA;
                         f_betB := betB;
                         f_gameDate := gameDate;
                         f_gameTime := gameTime;
                         f_sport := sport;
                         f_league := league;
                         f_totalProfitPercentage := cp |})
             = Throw TypeError).
  { intros [gd | []]; cbn [mbind Completion_bind]; [| reflexivity].
    destruct H as [H | H].
    - rewrite (convertBet_without_leg fields "betA" H). reflexivity.
    - rewrite (convertBet_without_leg fields "betB" H).
      destruct (convertBet (VObj fields) "betA") as [a | []]; reflexivity. }
  apply E.
Qed.

Lemma C8_convert_throws_witness :
  nullish (lookupField (lit "betA") [(lit "gameDate", VStr (lit "26/09/2025"))]) = true /\
  convertClaudeToOCRFormat (VObj [(lit "gameDate", VStr (lit "26/09/2025"))])
  = Throw TypeError.
Proof.
  split; [reflexivity |].
  apply (proj2 C8_convert_throws_without_leg). left. reflexivity.
Defined.

(** ** The in-memory store *)

(** C10. [updateBetStatus] on a stored bet answers the bet with the new
    status and every other field as it was, stores it under the same id
    and leaves every other id as it was; on an unknown id it answers
    [undefined] and leaves the store as it was. *)
Theorem C10_updateBetStatus_frame
    (bets : gmap jsstring Bet) (key : jsstring) (s : BetStatus) :
  (forall b : Bet,
      bets !! key = Some b ->
      exists b' : Bet,
        fst (updateBetStatus key s bets) = Some b' /\
        snd (updateBetStatus key s bets) !! key = Some b' /\
        status b' = s /\
        id b' = id b /\ teamA b' = teamA b /\ teamB b' = teamB b /\
        betType b' = betType b /\ selectedSide b' = selectedSide b /\
        bettingHouse b' = bettingHouse b /\ odds b' = odds b /\
        stake b' = stake b /\ payout b' = payout b /\
        gameDate b' = gameDate b /\ gameTime b' = gameTime b /\
        sport b' = sport b /\ league b' = league b /\
        isVerified b' = isVerified b /\ pairId b' = pairId b /\
        betPosition b' = betPosition b /\
        totalPairStake b' = totalPairStake b /\
        profitPercentage b' = profitPercentage b /\
        createdAt b' = createdAt b /\
        (forall other : jsstring,
            other <> key ->
            snd (updateBetStatus key s bets) !! other = bets !! other)) /\
  (bets !! key = None -> updateBetStatus key s bets = (None, bets)).
Proof.
  split.
  - intros b Hb. exists (withStatus b s).
    unfold updateBetStatus. rewrite Hb. cbn [fst snd].
    split; [reflexivity |].
    split; [apply lookup_insert_eq |].
    repeat (split; [reflexivity |]).
    intros other Hne. apply lookup_insert_ne. congruence.
  - intros Hb. unfold updateBetStatus. rewrite Hb. reflexivity.
Qed.

(** ** Game dates *)

Lemma replaceAll_without (c d : codeunit) (s : jsstring) :
  includes c s = false -> replaceAll c d s = s.
Proof.
  unfold includes, replaceAll.
  induction s as [| u s IH]; cbn; [reflexivity |].
  intros H. apply orb_false_elim in H as [Hu Hs].
  unfold unit_eqb in *. rewrite N.eqb_sym, Hu. f_equal. apply IH, Hs.
Qed.

(** The canonical form of a date string is its unit-by-unit substitution. *)
Lemma formatGameDate_string (s : jsstring) :
  formatGameDate (IsString s) = replaceAll slash dash s.
Proof.
  cbn. destruct (includes slash s) eqn:E; [reflexivity |].
  symmetry. apply replaceAll_without, E.
Qed.

Lemma digit_not_dash (c : codeunit) : isDigit c = true -> unit_eqb c dash = false.
Proof.
  unfold isDigit, unit_eqb, dash. intros H.
  apply andb_prop in H as [H1 H2]. apply N.leb_le in H1.
  apply N.eqb_neq. lia.
Qed.

Lemma digit_not_slash (c : codeunit) : isDigit c = true -> unit_eqb c slash = false.
Proof.
  unfold isDigit, unit_eqb, slash. intros H.
  apply andb_prop in H as [H1 H2]. apply N.leb_le in H1.
  apply N.eqb_neq. lia.
Qed.

(** The store reorders a day-month-year date, dashed or slashed, to
    year-month-day. *)
Lemma formattedGameDate_reorders (today : JSDate) (sep d1 d2 m1 m2 y1 y2 y3 y4 : codeunit) :
  sep = slash \/ sep = dash ->
  List.forallb isDigit [d1; d2; m1; m2; y1; y2; y3; y4] = true ->
  formattedGameDate today (DateString [d1; d2; sep; m1; m2; sep; y1; y2; y3; y4])
  = [y1; y2; y3; y4; dash; m1; m2; dash; d1; d2].
Proof.
  intros Hsep H. cbn in H. rewrite !andb_true_iff in H.
  destruct H as (H1 & H2 & H3 & H4 & H5 & H6 & H7 & H8 & _).
  assert (E : (if includes slash [d1; d2; sep; m1; m2; sep; y1; y2; y3; y4]
               then replaceAll slash dash [d1; d2; sep; m1; m2; sep; y1; y2; y3; y4]
               else [d1; d2; sep; m1; m2; sep; y1; y2; y3; y4])
              = [d1; d2; dash; m1; m2; dash; y1; y2; y3; y4]).
  { change (if includes slash [d1; d2; sep; m1; m2; sep; y1; y2; y3; y4]
            then replaceAll slash dash [d1; d2; sep; m1; m2; sep; y1; y2; y3; y4]
            else [d1; d2; sep; m1; m2; sep; y1; y2; y3; y4])
      with (formatGameDate (IsString [d1; d2; sep; m1; m2; sep; y1; y2; y3; y4])).
    rewrite formatGameDate_string. unfold replaceAll. cbn [List.map].
    rewrite (digit_not_slash d1 H1), (digit_not_slash d2 H2),
      (digit_not_slash m1 H3), (digit_not_slash m2 H4),
      (digit_not_slash y1 H5), (digit_not_slash y2 H6),
      (digit_not_slash y3 H7), (digit_not_slash y4 H8).
    destruct Hsep as [-> | ->]; reflexivity. }
  unfold formattedGameDate. rewrite E.
  unfold matchesDayMonthYear, element.
  rewrite H1, H2, H3, H4, H5, H6, H7, H8.
  change (unit_eqb dash dash) with true.
  cbn [andb split].
  rewrite (digit_not_dash d1 H1), (digit_not_dash d2 H2),
    (digit_not_dash m1 H3), (digit_not_dash m2 H4),
    (digit_not_dash y1 H5), (digit_not_dash y2 H6),
    (digit_not_dash y3 H7), (digit_not_dash y4 H8).
  change (unit_eqb dash dash) with true.
  reflexivity.
Qed.

(** C5, as the code has it. The canonical form of a date string replaces
    each slash by a dash, unit by unit, with no reordering, so
    "26/09/2025" becomes "26-09-2025", which is also what the verification
    form displays for it; the game date that [createBet] persists for a
    slashed or dashed day-month-year string is the year-first string,
    "2025-09-26" for this date. *)
Theorem C5_date_canonical_and_persisted :
  (forall s : jsstring,
      formatGameDate (IsString s)
      = List.map (fun u => if unit_eqb u slash then dash else u) s) /\
  formatGameDate (IsString (lit "26/09/2025")) = lit "26-09-2025" /\
  (forall (formatFallback : DateOrString -> option jsstring) (formData : OCRData)
          (s : jsstring),
      o_gameDateFormatted formData = None ->
      o_gameDate formData = IsString s ->
      includes slash s = true ->
      getDisplayDate formatFallback formData = Some (formatGameDate (IsString s))) /\
  (forall (env : Env) (insertBet : InsertBet) (bets : gmap jsstring Bet)
          (sep d1 d2 m1 m2 y1 y2 y3 y4 : codeunit),
      sep = slash \/ sep = dash ->
      List.forallb isDigit [d1; d2; m1; m2; y1; y2; y3; y4] = true ->
      i_gameDate insertBet = DateString [d1; d2; sep; m1; m2; sep; y1; y2; y3; y4] ->
      gameDate (fst (createBet env insertBet bets))
      = [y1; y2; y3; y4; dash; m1; m2; dash; d1; d2] /\
      snd (createBet env insertBet bets) !! randomUUID env
      = Some (fst (createBet env insertBet bets))) /\
  gameDate (fst (createBet Samples.env0
                   (Samples.insertLeg (formatGameDate (IsString (lit "26/09/2025"))))
                   ∅))
  = lit "2025-09-26".
Proof.
  split; [| split; [| split; [| split]]].
  - intros s. apply formatGameDate_string.
  - reflexivity.
  - intros formatFallback formData s HF HD HS.
    unfold getDisplayDate. rewrite HF, HD.
    destruct s as [| c s]; [discriminate |].
    rewrite HS. cbn [formatGameDate]. rewrite HS. reflexivity.
  - intros env insertBet bets sep d1 d2 m1 m2 y1 y2 y3 y4 Hsep Hd Hdate.
    split.
    + unfold createBet. cbn [fst gameDate]. rewrite Hdate.
      apply formattedGameDate_reorders; assumption.
    + unfold createBet. cbn [fst snd]. apply lookup_insert_eq.
  - reflexivity.
Qed.

Lemma C5_date_witness :
  gameDate (fst (createBet Samples.env0 (Samples.insertLeg (lit "26/09/2025")) ∅))
  = lit "2025-09-26" /\
  getDisplayDate (fun _ => None)
    (Samples.form (lit "Flamengo") (lit "Vasco") (lit "Flamengo") (lit "Vasco"))
  = Some (lit "26-09-2025").
Proof.
  split.
  - apply (proj1 (proj1 (proj2 (proj2 (proj2 C5_date_canonical_and_persisted)))
                    Samples.env0 (Samples.insertLeg (lit "26/09/2025")) ∅
                    slash 50 54 48 57 50 48 50 53
                    (or_introl eq_refl) eq_refl eq_refl)).
  - apply (proj1 (proj2 (proj2 C5_date_canonical_and_persisted))
             (fun _ => None)
             (Samples.form (lit "Flamengo") (lit "Vasco") (lit "Flamengo") (lit "Vasco"))
             (lit "26/09/2025") eq_refl eq_refl eq_refl).
Defined.

(** C5 as written fails on the date it names: the store does not persist
    "26-09-2025". *)
Lemma C5_persisted_date_counterexample :
  gameDate (fst (createBet Samples.env0
                   (Samples.insertLeg (formatGameDate (IsString (lit "26/09/2025"))))
                   ∅))
  <> lit "26-09-2025".
Proof. vm_compute. discriminate. Qed.

(** ** Team names *)

Ltac reflect_units :=
  repeat match goal with
    | H : _ /\ _ |- _ => destruct H
    | H : _ \/ _ |- _ => destruct H
    | H : (_ && _)%bool = true |- _ => apply andb_prop in H
    | H : (_ || _)%bool = true |- _ => apply orb_prop in H
    | H : (_ || _)%bool = false |- _ => apply orb_false_elim in H
    | H : (_ && _)%bool = false |- _ => apply andb_false_iff in H
    | H : negb _ = true |- _ => apply negb_true_iff in H
    | H : negb _ = false |- _ => apply negb_false_iff in H
    | H : (_ <=? _) = true |- _ => apply N.leb_le in H
    | H : (_ <=? _) = false |- _ => apply N.leb_gt in H
    | H : (_ =? _) = true |- _ => apply N.eqb_eq in H
    | H : (_ =? _) = false |- _ => apply N.eqb_neq in H
    end.

Lemma upper_not_space (c : codeunit) :
  isUpperUnit c = true -> isWhiteSpace c = false /\ isWhiteSpace (c + 32) = false.
Proof.
  intros H. unfold isUpperUnit in H.
  split; apply not_true_is_false; intros W; unfold isWhiteSpace in W;
    reflect_units; lia.
Qed.

Lemma lower_of_upper (c : codeunit) :
  isUpperUnit c = true -> isUpperUnit (c + 32) = false.
Proof.
  intros H. apply not_true_is_false. intros W.
  unfold isUpperUnit in *. reflect_units; lia.
Qed.

Lemma sameLetter_lower (c d : codeunit) :
  sameLetter c d = true -> toLowerUnit c = toLowerUnit d.
Proof.
  unfold sameLetter, unit_eqb. intros H.
  apply orb_prop in H as [H | H]; [apply orb_prop in H as [H | H] |].
  - apply N.eqb_eq in H. subst. reflexivity.
  - apply andb_prop in H as [U E]. apply N.eqb_eq in E. subst d.
    unfold toLowerUnit. rewrite U, (lower_of_upper c U). reflexivity.
  - apply andb_prop in H as [U E]. apply N.eqb_eq in E. subst c.
    unfold toLowerUnit. rewrite U, (lower_of_upper d U). reflexivity.
Qed.

Lemma sameLetter_space (c d : codeunit) :
  sameLetter c d = true -> isWhiteSpace c = isWhiteSpace d.
Proof.
  unfold sameLetter, unit_eqb. intros H.
  apply orb_prop in H as [H | H]; [apply orb_prop in H as [H | H] |].
  - apply N.eqb_eq in H. subst. reflexivity.
  - apply andb_prop in H as [U E]. apply N.eqb_eq in E. subst d.
    destruct (upper_not_space c U) as [-> ->]. reflexivity.
  - apply andb_prop in H as [U E]. apply N.eqb_eq in E. subst c.
    destruct (upper_not_space d U) as [-> ->]. reflexivity.
Qed.

Lemma dropWhile_all (p : codeunit -> bool) (ws : jsstring) :
  List.forallb p ws = true -> dropWhile p ws = [].
Proof.
  induction ws as [| c ws IH]; cbn; [reflexivity |].
  intros H. apply andb_prop in H as [-> H]. apply IH, H.
Qed.

Lemma dropWhile_prefix (p : codeunit -> bool) (ws s : jsstring) :
  List.forallb p ws = true -> dropWhile p (ws ++ s) = dropWhile p s.
Proof.
  induction ws as [| c ws IH]; cbn; [reflexivity |].
  intros H. apply andb_prop in H as [-> H]. apply IH, H.
Qed.

Lemma forallb_rev_true (p : codeunit -> bool) (ws : jsstring) :
  List.forallb p ws = true -> List.forallb p (List.rev ws) = true.
Proof.
  rewrite !List.forallb_forall. intros H x Hx. apply H, List.in_rev, Hx.
Qed.

Lemma trimEnd_suffix (s ws : jsstring) :
  List.forallb isWhiteSpace ws = true -> trimEnd (s ++ ws) = trimEnd s.
Proof.
  intros H. unfold trimEnd. rewrite List.rev_app_distr.
  rewrite dropWhile_prefix by (apply forallb_rev_true, H). reflexivity.
Qed.

(** Spaces around a string do not change what [trim] answers. *)
Lemma trim_padding (ws1 s ws2 : jsstring) :
  List.forallb isWhiteSpace ws1 = true ->
  List.forallb isWhiteSpace ws2 = true ->
  trim (ws1 ++ s ++ ws2) = trim s.
Proof.
  intros H1 H2. unfold trim, trimStart.
  rewrite dropWhile_prefix by exact H1.
  induction s as [| c s IH]; cbn [List.app dropWhile].
  - rewrite (dropWhile_all isWhiteSpace ws2 H2). reflexivity.
  - destruct (isWhiteSpace c); [exact IH |].
    apply (trimEnd_suffix (c :: s)), H2.
Qed.

Lemma differOnlyInCase_dropWhile (s t : jsstring) :
  differOnlyInCase s t ->
  differOnlyInCase (dropWhile isWhiteSpace s) (dropWhile isWhiteSpace t).
Proof.
  unfold differOnlyInCase. induction 1 as [| c d s t Hcd Hst IH]; cbn.
  - constructor.
  - rewrite <- (sameLetter_space c d Hcd).
    destruct (isWhiteSpace c); [exact IH | constructor; assumption].
Qed.

Lemma differOnlyInCase_rev (s t : jsstring) :
  differOnlyInCase s t -> differOnlyInCase (List.rev s) (List.rev t).
Proof.
  unfold differOnlyInCase. induction 1 as [| c d s t Hcd Hst IH]; cbn.
  - constructor.
  - apply List.Forall2_app; [exact IH | repeat constructor; exact Hcd].
Qed.

Lemma differOnlyInCase_trim (s t : jsstring) :
  differOnlyInCase s t -> differOnlyInCase (trim s) (trim t).
Proof.
  intros H. unfold trim, trimEnd, trimStart.
  apply differOnlyInCase_rev, differOnlyInCase_dropWhile,
    differOnlyInCase_rev, differOnlyInCase_dropWhile, H.
Qed.

Lemma differOnlyInCase_lower (s t : jsstring) :
  differOnlyInCase s t -> toLowerCaseLatin1 s = toLowerCaseLatin1 t.
Proof.
  unfold differOnlyInCase, toLowerCaseLatin1.
  induction 1 as [| c d s t Hcd Hst IH]; cbn; [reflexivity |].
  rewrite (sameLetter_lower c d Hcd), IH. reflexivity.
Qed.

Lemma lower_sameLetter (c d : codeunit) :
  toLowerUnit c = toLowerUnit d -> sameLetter c d = true.
Proof.
  unfold toLowerUnit, sameLetter, unit_eqb.
  destruct (isUpperUnit c) eqn:Uc, (isUpperUnit d) eqn:Ud; intros E;
    cbn [andb].
  - assert (c = d) by lia. subst d. rewrite N.eqb_refl. reflexivity.
  - subst d. rewrite N.eqb_refl. destruct (c =? c + 32); reflexivity.
  - subst c. rewrite N.eqb_refl. destruct (d + 32 =? d); reflexivity.
  - subst d. rewrite N.eqb_refl. reflexivity.
Qed.

Lemma lower_differOnlyInCase (s t : jsstring) :
  toLowerCaseLatin1 s = toLowerCaseLatin1 t -> differOnlyInCase s t.
Proof.
  unfold differOnlyInCase, toLowerCaseLatin1. revert t.
  induction s as [| c s IH]; intros [| d t] E; try discriminate E.
  - constructor.
  - cbn in E. injection E as Ecd E.
    constructor; [apply lower_sameLetter, Ecd | apply IH, E].
Qed.

Lemma forallb_dropWhile (p q : codeunit -> bool) (s : jsstring) :
  List.forallb p s = true -> List.forallb p (dropWhile q s) = true.
Proof.
  induction s as [| c s IH]; cbn; [reflexivity |].
  intros H. apply andb_prop in H as [Hc Hs].
  destruct (q c); [apply IH, Hs |]. cbn. rewrite Hc. exact Hs.
Qed.

Lemma forallb_of_rev (p : codeunit -> bool) (s : jsstring) :
  List.forallb p (List.rev s) = true -> List.forallb p s = true.
Proof.
  intros H. rewrite <- (List.rev_involutive s). apply forallb_rev_true, H.
Qed.

Lemma latin1_trim (s : jsstring) :
  List.forallb isLatin1 s = true -> List.forallb isLatin1 (trim s) = true.
Proof.
  intros H. unfold trim, trimEnd, trimStart.
  apply forallb_rev_true, forallb_dropWhile, forallb_rev_true,
    forallb_dropWhile, H.
Qed.

Lemma str_eqb_eq (s t : jsstring) : str_eqb s t = true <-> s = t.
Proof.
  revert t. induction s as [| c s IH]; intros [| d t]; cbn;
    try (split; [discriminate | discriminate]); [tauto |].
  unfold unit_eqb. rewrite andb_true_iff, N.eqb_eq, IH.
  split; [intros [-> ->]; reflexivity | intros [= -> ->]; tauto].
Qed.

Lemma hasKey_app (key : string) (e1 e2 : Errors) :
  hasKey key (e1 ++ e2) = hasKey key e1 || hasKey key e2.
Proof. apply List.existsb_app. Qed.

Lemma hasKey_when (key k msg : string) (cond : bool) :
  hasKey key (when cond k msg) = cond && String.eqb k key.
Proof. destruct cond; cbn; [apply orb_false_r | reflexivity]. Qed.

Section TeamCheck.

Variable Number : jsstring -> number.
Variable toLowerCase : jsstring -> jsstring.

(** The team check passes exactly when the trimmed names of each side
    have one lower-case form. *)
Lemma teamsDiffer_false (formData : OCRData) :
  teamsDiffer toLowerCase formData = false <->
  toLowerCase (trim (o_teamA (o_betA formData)))
  = toLowerCase (trim (o_teamA (o_betB formData))) /\
  toLowerCase (trim (o_teamB (o_betA formData)))
  = toLowerCase (trim (o_teamB (o_betB formData))).
Proof.
  unfold teamsDiffer, normalizeTeam.
  rewrite orb_false_iff, !negb_false_iff, !str_eqb_eq. tauto.
Qed.

(** The key "teams" is recorded exactly when the team check fails. *)
Lemma validateForm_teams_key (formData : OCRData) :
  hasKey "teams" (fst (validateForm Number toLowerCase formData))
  = teamsDiffer toLowerCase formData.
Proof.
  unfold validateForm, validateBetFields. cbn [fst].
  rewrite !hasKey_app, !hasKey_when. cbn.
  rewrite !andb_false_r, andb_true_r. reflexivity.
Qed.

Lemma validateForm_flag (formData : OCRData) :
  hasKey "teams" (fst (validateForm Number toLowerCase formData)) = true ->
  snd (validateForm Number toLowerCase formData) = false.
Proof.
  unfold validateForm. cbn [fst snd].
  destruct (_ ++ _); [discriminate | reflexivity].
Qed.

Hypothesis lowers : LowersLatin1 toLowerCase.

(** On names of Latin-1 units, one lower-case form after trimming is the
    same letters, unit by unit. *)
Lemma lower_trim_same_letters (a b : jsstring) :
  List.forallb isLatin1 a = true -> List.forallb isLatin1 b = true ->
  toLowerCase (trim a) = toLowerCase (trim b) <->
  differOnlyInCase (trim a) (trim b).
Proof.
  intros Ha Hb.
  rewrite (lowers (trim a) (latin1_trim a Ha)), (lowers (trim b) (latin1_trim b Hb)).
  split; [apply lower_differOnlyInCase | apply differOnlyInCase_lower].
Qed.

(** Names that differ only in letter case and in the spaces around them
    have one normal form. *)
Lemma normalizeTeam_variants (a b ws1 ws2 ws3 ws4 : jsstring) :
  List.forallb isWhiteSpace ws1 = true ->
  List.forallb isWhiteSpace ws2 = true ->
  List.forallb isWhiteSpace ws3 = true ->
  List.forallb isWhiteSpace ws4 = true ->
  List.forallb isLatin1 a = true -> List.forallb isLatin1 b = true ->
  differOnlyInCase a b ->
  toLowerCase (trim (ws1 ++ a ++ ws2)) = toLowerCase (trim (ws3 ++ b ++ ws4)).
Proof.
  intros H1 H2 H3 H4 Ha Hb H.
  rewrite !trim_padding by assumption.
  apply (lower_trim_same_letters a b Ha Hb), differOnlyInCase_trim, H.
Qed.

End TeamCheck.



(** ** Sample runs of the pair claims *)

Lemma C1_pair_resolution_witness :
  exists v,
    pairStat NumberDecimal
      [Samples.leg PosA won "100" "250"; Samples.leg PosB lost "100" "0"] = Some v /\
    ps_status v = won /\ ps_netResult v = 50%float.
Proof.
  apply (proj2 C1_pair_resolution_table NumberDecimal
           (Samples.leg PosA won "100" "250") (Samples.leg PosB lost "100" "0"));
    reflexivity.
Defined.

Lemma C4_incomplete_pair_witness :
  exists v,
    pairStat NumberDecimal
      [Samples.leg PosB pending "100" "250"; Samples.leg PosA pending "100" "210"]
    = Some v /\
    ps_incomplete v = false.
Proof.
  apply (proj1 (proj2 (proj2 (C4_incomplete_pair NumberDecimal
                                (Samples.leg PosA pending "100" "250"))))
           [Samples.leg PosB pending "100" "250"; Samples.leg PosA pending "100" "210"]
           (Samples.leg PosA pending "100" "210")
           (Samples.leg PosB pending "100" "250"));
    reflexivity.
Defined.

Lemma C9_both_legs_won_witness :
  exists v,
    pairStat NumberDecimal
      [Samples.leg PosA won "100" "250"; Samples.leg PosB won "100" "210"] = Some v /\
    ps_status v = won /\
    ps_netResult v
    = (NumberDecimal (lit "250") + 0
       - stakesTotal NumberDecimal (Samples.leg PosA won "100" "250")
           (Samples.leg PosB won "100" "210"))%float /\
    sameNumber (ps_netResult v)
      (NumberDecimal (lit "250")
       - stakesTotal NumberDecimal (Samples.leg PosA won "100" "250")
           (Samples.leg PosB won "100" "210"))%float.
Proof.
  apply (C9_both_legs_won NumberDecimal
           [Samples.leg PosA won "100" "250"; Samples.leg PosB won "100" "210"]
           (Samples.leg PosA won "100" "250") (Samples.leg PosB won "100" "210"));
    reflexivity.
Defined.

Lemma C10_updateBetStatus_witness :
  exists b' : Bet,
    fst (updateBetStatus (lit "1") won {[ lit "1" := Samples.leg PosA pending "100" "250" ]})
    = Some b' /\
    status b' = won /\ stake b' = lit "100" /\ payout b' = lit "250".
Proof.
  destruct (proj1 (C10_updateBetStatus_frame
                     {[ lit "1" := Samples.leg PosA pending "100" "250" ]}
                     (lit "1") won)
              (Samples.leg PosA pending "100" "250")
              (lookup_singleton_eq _ _))
    as (b' & H1 & _ & H2 & _ & _ & _ & _ & _ & _ & _ & H3 & H4 & _).
  exists b'. repeat split; assumption.
Defined.

(** ** Further facts *)

(** With both legs present as objects and the percentage and the date
    given as strings or left out, the conversion answers a record in which
    every missing field holds its default. *)
Lemma convert_defaults (fields legA legB : list (jsstring * jsval)) :
  lookupField (lit "betA") fields = VObj legA ->
  lookupField (lit "betB") fields = VObj legB ->
  lookupField (lit "totalProfitPercentage") fields = VUndefined ->
  lookupField (lit "gameDate") fields = VUndefined ->
  convertClaudeToOCRFormat (VObj fields)
  = Normal
      {| f_betA :=
           {| f_bettingHouse := orElse (lookupField (lit "bettingHouse") legA) (str "");
              f_teamA := orElse (lookupField (lit "teamA") fields) (str "");
              f_teamB := orElse (lookupField (lit "teamB") fields) (str "");
              f_betType := orElse (lookupField (lit "betType") legA) (str "");
              f_odds := orElse (lookupField (lit "odds") legA) (str "0");
              f_stake := orElse (lookupField (lit "stake") legA) (str "0");
              f_profit := orElse (lookupField (lit "profit") legA) (str "0") |};
         f_betB :=
           {| f_bettingHouse := orElse (lookupField (lit "bettingHouse") legB) (str "");
              f_teamA := orElse (lookupField (lit "teamA") fields) (str "");
              f_teamB := orElse (lookupField (lit "teamB") fields) (str "");
              f_betType := orElse (lookupField (lit "betType") legB) (str "");
              f_odds := orElse (lookupField (lit "odds") legB) (str "0");
              f_stake := orElse (lookupField (lit "stake") legB) (str "0");
              f_profit := orElse (lookupField (lit "profit") legB) (str "0") |};
         f_gameDate := str "";
         f_gameTime := orElse (lookupField (lit "gameTime") fields) (str "00:00");
         f_sport := orElse (lookupField (lit "sport") fields) (str "");
         f_league := orElse (lookupField (lit "league") fields) (str "");
         f_totalProfitPercentage := str "0" |}.
Proof.
  intros HA HB HP HD.
  unfold convertClaudeToOCRFormat, convertBet, betField, topField.
  cbn [getProp mbind Completion_bind].
  rewrite HA, HB, HP, HD. reflexivity.
Qed.

(** [validateBetPair] of shared/schema.ts compares the stored names as
    they are; no caller confirms a pair through it. *)
Remark validateBetPair_compares_strictly :
  PairValidation.validateBetPair
    {| PairValidation.p_pairId := Some (lit "p1");
       PairValidation.p_teamA := Some (lit "Flamengo");
       PairValidation.p_teamB := Some (lit "Vasco");
       PairValidation.p_betPosition := Some PosA |}
    {| PairValidation.p_pairId := Some (lit "p1");
       PairValidation.p_teamA := Some (lit "flamengo ");
       PairValidation.p_teamB := Some (lit "Vasco");
       PairValidation.p_betPosition := Some PosB |}
  = ["Times devem ser iguais em ambas as apostas"%string].
Proof. reflexivity. Qed.

(** * Further properties of the code *)

(** ** The in-memory store: create, read, update, delete *)

Lemma orNull_not_empty (s : option jsstring) : orNull s <> Some [].
Proof. destruct s as [[| c s] |]; discriminate. Qed.

Lemma withStatus_same (b : Bet) : withStatus b (status b) = b.
Proof. destruct b; reflexivity. Qed.

Lemma withStatus_twice (b : Bet) (s1 s2 : BetStatus) :
  withStatus (withStatus b s1) s2 = withStatus b s2.
Proof. reflexivity. Qed.

(** X1. A created bet is read back by the id it was given and no other id
    is touched; a status left out reads pending, a verification flag left
    out reads false, and a pair field is never stored as the empty
    string. *)
Theorem createBet_read_back
    (env : Env) (insertBet : InsertBet) (bets : gmap jsstring Bet) :
  let bet := fst (createBet env insertBet bets) in
  let bets' := snd (createBet env insertBet bets) in
  id bet = randomUUID env /\
  getBetById (randomUUID env) bets' = Some bet /\
  (forall other : jsstring,
      other <> randomUUID env -> getBetById other bets' = getBetById other bets) /\
  (i_status insertBet = None -> status bet = pending) /\
  (i_isVerified insertBet = None -> isVerified bet = false) /\
  totalPairStake bet <> Some [] /\ profitPercentage bet <> Some [] /\
  createdAt bet = stamp env.
Proof.
  cbn zeta. unfold createBet, getBetById. cbn [fst snd].
  split; [reflexivity |].
  split; [apply lookup_insert_eq |].
  split; [intros other Hne; apply lookup_insert_ne; congruence |].
  split; [intros ->; reflexivity |].
  split; [intros ->; reflexivity |].
  cbn [totalPairStake profitPercentage createdAt].
  split; [apply orNull_not_empty |].
  split; [apply orNull_not_empty | reflexivity].
Qed.

Lemma createBet_read_back_witness :
  status (fst (createBet Samples.env0
                 (mkInsertBet [] [] [] [] [] [] [] [] NotAString [] [] []
                    None None (lit "p1") PosA (Some []) None)
                 ∅)) = pending.
Proof.
  apply (proj1 (proj2 (proj2 (proj2
           (createBet_read_back Samples.env0
              (mkInsertBet [] [] [] [] [] [] [] [] NotAString [] [] []
                 None None (lit "p1") PosA (Some []) None)
              ∅))))).
  reflexivity.
Defined.

(** X2. Deleting a stored id answers true and removes that id only;
    deleting an unknown id answers false and leaves the store as it was;
    creating a bet under a fresh id and deleting it gives the store back. *)
Theorem deleteBet_removes_one (key : jsstring) (bets : gmap jsstring Bet) :
  (forall b : Bet,
      bets !! key = Some b ->
      fst (deleteBet key bets) = true /\
      getBetById key (snd (deleteBet key bets)) = None /\
      (forall other : jsstring,
          other <> key ->
          getBetById other (snd (deleteBet key bets)) = getBetById other bets)) /\
  (bets !! key = None -> deleteBet key bets = (false, bets)) /\
  (forall (env : Env) (insertBet : InsertBet),
      randomUUID env = key ->
      bets !! key = None ->
      deleteBet key (snd (createBet env insertBet bets)) = (true, bets)).
Proof.
  split; [| split].
  - intros b Hb. unfold deleteBet, getBetById. rewrite Hb. cbn [fst snd].
    split; [reflexivity |].
    split; [apply lookup_delete_eq |].
    intros other Hne. apply lookup_delete_ne. congruence.
  - intros Hb. unfold deleteBet. rewrite Hb. reflexivity.
  - intros env insertBet <- Hfresh. unfold deleteBet, createBet. cbn [snd].
    rewrite lookup_insert_eq, delete_insert_eq.
    f_equal. apply delete_id, Hfresh.
Qed.

Lemma deleteBet_removes_one_witness :
  deleteBet (lit "b7e1")
    (snd (createBet Samples.env0 (Samples.insertLeg (lit "26/09/2025")) ∅))
  = (true, ∅).
Proof.
  apply (proj2 (proj2 (deleteBet_removes_one (lit "b7e1") ∅))
           Samples.env0 (Samples.insertLeg (lit "26/09/2025")) eq_refl).
  apply lookup_empty.
Defined.

(** X3. Of two status updates of one id the last one wins; an update to
    the status a bet already has leaves the store as it was; an update
    never changes which ids are stored; the updated bet is what
    [getBetById] then answers. *)
Theorem updateBetStatus_composes
    (key : jsstring) (s1 s2 : BetStatus) (bets : gmap jsstring Bet) :
  snd (updateBetStatus key s2 (snd (updateBetStatus key s1 bets)))
  = snd (updateBetStatus key s2 bets) /\
  fst (updateBetStatus key s2 (snd (updateBetStatus key s1 bets)))
  = fst (updateBetStatus key s2 bets) /\
  (forall b : Bet,
      bets !! key = Some b -> status b = s1 ->
      snd (updateBetStatus key s1 bets) = bets) /\
  dom (snd (updateBetStatus key s1 bets)) = dom bets /\
  getBetById key (snd (updateBetStatus key s1 bets))
  = fst (updateBetStatus key s1 bets).
Proof.
  unfold updateBetStatus, getBetById.
  destruct (bets !! key) as [b |] eqn:Hb; cbn [fst snd].
  - rewrite lookup_insert_eq. cbn [fst snd].
    rewrite insert_insert_eq, withStatus_twice.
    split; [reflexivity |]. split; [reflexivity |].
    split; [| split].
    + intros b' Hb' Hs. injection Hb' as <-. rewrite <- Hs, withStatus_same.
      apply insert_id, Hb.
    + rewrite dom_insert_L. apply elem_of_dom_2 in Hb.
      apply set_eq. intros x. rewrite elem_of_union, elem_of_singleton.
      split; [intros [-> | Hx]; assumption | intros Hx; right; exact Hx].
    + reflexivity.
  - rewrite Hb. cbn [fst snd].
    split; [reflexivity |]. split; [reflexivity |].
    split; [discriminate |]. split; reflexivity.
Qed.

Lemma updateBetStatus_composes_witness :
  snd (updateBetStatus (lit "1") pending
         {[ lit "1" := Samples.leg PosA pending "100" "250" ]})
  = {[ lit "1" := Samples.leg PosA pending "100" "250" ]}.
Proof.
  apply (proj1 (proj2 (proj2
           (updateBetStatus_composes (lit "1") pending pending
              {[ lit "1" := Samples.leg PosA pending "100" "250" ]})))
           (Samples.leg PosA pending "100" "250")).
  - apply lookup_singleton_eq.
  - reflexivity.
Defined.

(** ** The stored game date *)

Lemma replaceAll_removes (c d : codeunit) (s : jsstring) :
  unit_eqb d c = false -> includes c (replaceAll c d s) = false.
Proof.
  intros Hd. unfold includes, replaceAll.
  induction s as [| u s IH]; cbn; [reflexivity |].
  rewrite IH, orb_false_r.
  destruct (unit_eqb u c) eqn:E; unfold unit_eqb in *;
    rewrite N.eqb_sym; assumption.
Qed.

Lemma dashed_no_slash (g : jsstring) : includes slash (dashed g) = false.
Proof.
  unfold dashed. destruct (includes slash g) eqn:E; [| exact E].
  apply replaceAll_removes. reflexivity.
Qed.

Lemma dashed_fixed (g : jsstring) : includes slash g = false -> dashed g = g.
Proof. intros H. unfold dashed. rewrite H. reflexivity. Qed.

Lemma matchesDayMonthYear_shape (s : jsstring) :
  matchesDayMonthYear s = true ->
  exists d1 d2 m1 m2 y1 y2 y3 y4,
    s = [d1; d2; dash; m1; m2; dash; y1; y2; y3; y4] /\
    List.forallb isDigit [d1; d2; m1; m2; y1; y2; y3; y4] = true.
Proof.
  destruct s as [| d1 [| d2 [| h1 [| m1 [| m2 [| h2 [| y1 [| y2 [| y3 [| y4 [| x s]]]]]]]]]]];
    try discriminate.
  cbn. rewrite !andb_true_iff. unfold unit_eqb. rewrite !N.eqb_eq.
  intros (((((((((H1 & H2) & ->) & H3) & H4) & ->) & H5) & H6) & H7) & H8).
  exists d1, d2, m1, m2, y1, y2, y3, y4. split; [reflexivity |].
  rewrite H1, H2, H3, H4, H5, H6, H7, H8. reflexivity.
Qed.

(** What the store persists for a string: the year-first reordering of a
    day-month-year date, the dashed string otherwise. *)
Lemma formattedGameDate_cases (today : JSDate) (g : jsstring) :
  (exists d1 d2 m1 m2 y1 y2 y3 y4,
      dashed g = [d1; d2; dash; m1; m2; dash; y1; y2; y3; y4] /\
      List.forallb isDigit [d1; d2; m1; m2; y1; y2; y3; y4] = true /\
      formattedGameDate today (DateString g)
      = [y1; y2; y3; y4; dash; m1; m2; dash; d1; d2]) \/
  (matchesDayMonthYear (dashed g) = false /\
   formattedGameDate today (DateString g) = dashed g).
Proof.
  destruct (matchesDayMonthYear (dashed g)) eqn:M.
  - left. destruct (matchesDayMonthYear_shape _ M)
      as (d1 & d2 & m1 & m2 & y1 & y2 & y3 & y4 & E & D).
    exists d1, d2, m1, m2, y1, y2, y3, y4. split; [exact E |]. split; [exact D |].
    rewrite <- (formattedGameDate_reorders today dash d1 d2 m1 m2 y1 y2 y3 y4
                  (or_intror eq_refl) D).
    rewrite <- E. unfold formattedGameDate. fold (dashed g). fold (dashed (dashed g)).
    rewrite (dashed_fixed (dashed g) (dashed_no_slash g)). reflexivity.
  - right. split; [reflexivity |].
    unfold formattedGameDate. fold (dashed g). rewrite M. reflexivity.
Qed.

Lemma year_first_not_day_first (d1 d2 m1 m2 y1 y2 y3 y4 : codeunit) :
  isDigit y3 = true ->
  matchesDayMonthYear [y1; y2; y3; y4; dash; m1; m2; dash; d1; d2] = false.
Proof.
  intros H. cbn. rewrite (digit_not_dash y3 H).
  rewrite andb_false_r. reflexivity.
Qed.

Lemma digits_and_dashes_no_slash (s : jsstring) :
  List.forallb (fun c => isDigit c || unit_eqb c dash) s = true ->
  includes slash s = false.
Proof.
  unfold includes. induction s as [| c s IH]; cbn [List.forallb List.existsb];
    [reflexivity |].
  intros H. apply andb_prop in H as [Hc Hs]. rewrite (IH Hs), orb_false_r.
  unfold unit_eqb. rewrite N.eqb_sym.
  apply orb_prop in Hc as [Hc | Hc].
  - apply (digit_not_slash c Hc).
  - unfold unit_eqb in Hc. apply N.eqb_eq in Hc. subst c. reflexivity.
Qed.

(** X4. The date conversion of [createBet] is idempotent on strings: a
    stored date that is submitted again is stored as it is; and a stored
    date never holds a slash. *)
Theorem formattedGameDate_idempotent (today today' : JSDate) (g : jsstring) :
  formattedGameDate today' (DateString (formattedGameDate today (DateString g)))
  = formattedGameDate today (DateString g) /\
  includes slash (formattedGameDate today (DateString g)) = false.
Proof.
  destruct (formattedGameDate_cases today g)
    as [(d1 & d2 & m1 & m2 & y1 & y2 & y3 & y4 & E & D & ->) | [M ->]].
  - assert (N : includes slash [y1; y2; y3; y4; dash; m1; m2; dash; d1; d2] = false).
    { apply digits_and_dashes_no_slash. cbn in D |- *.
      rewrite !andb_true_iff in D.
      destruct D as (H1 & H2 & H3 & H4 & H5 & H6 & H7 & H8 & _).
      rewrite H1, H2, H3, H4, H5, H6, H7, H8. reflexivity. }
    split; [| exact N].
    unfold formattedGameDate. rewrite N.
    rewrite year_first_not_day_first; [reflexivity |].
    cbn in D. rewrite !andb_true_iff in D. tauto.
  - split; [| apply dashed_no_slash].
    unfold formattedGameDate. rewrite (dashed_no_slash g), M. reflexivity.
Qed.

(** ** The dashboard's entries and statistics *)

Lemma position_covered (bet : Bet) : isA bet = true \/ isB bet = true.
Proof. unfold isA, isB. destruct (betPosition bet); cbn; tauto. Qed.

Lemma find_none_nil (g : list Bet) :
  List.find isA g = None -> List.find isB g = None -> g = [].
Proof.
  destruct g as [| b g]; [reflexivity |]. cbn.
  destruct (position_covered b) as [-> | ->]; [discriminate |].
  destruct (isA b); discriminate.
Qed.

(** The three shapes of a group and the entry of each. *)
Lemma pairStat_cases (Number : jsstring -> number) (g : list Bet) :
  (g = [] /\ pairStat Number g = None) \/
  (exists b, In b g /\ pairStat Number g = pairStat Number [b] /\
             (List.find isA g = None \/ List.find isB g = None)) \/
  (exists a b, In a g /\ In b g /\ isA a = true /\ isB b = true /\
               List.find isA g = Some a /\ List.find isB g = Some b /\
               pairStat Number g = pairStat Number [a; b]).
Proof.
  destruct (List.find isA g) as [a |] eqn:HA, (List.find isB g) as [b |] eqn:HB.
  - right. right. exists a, b.
    destruct (pairStat_found Number g a b HA HB) as (PA & PB & E).
    apply List.find_some in HA as [IA _]. apply List.find_some in HB as [IB _].
    repeat split; assumption.
  - right. left. exists a. split; [apply List.find_some in HA; tauto |].
    split; [| right; reflexivity].
    rewrite pairStat_single. apply pairStat_one_sided. left. split; assumption.
  - right. left. exists b. split; [apply List.find_some in HB; tauto |].
    split; [| left; reflexivity].
    rewrite pairStat_single. apply pairStat_one_sided. right. split; assumption.
  - left. pose proof (find_none_nil g HA HB) as ->. split; reflexivity.
Qed.

Lemma pairStat_incomplete_pending (Number : jsstring -> number) (g : list Bet) v :
  pairStat Number g = Some v -> ps_incomplete v = true -> ps_status v = pending.
Proof.
  intros Hv Hinc.
  destruct (pairStat_cases Number g) as [[_ E] | [(b & _ & E & _) | (a & b & _ & _ & PA & PB & _ & _ & E)]].
  - congruence.
  - rewrite E, pairStat_single in Hv. injection Hv as <-. reflexivity.
  - rewrite E in Hv.
    destruct (pairStat_two Number a b PA PB) as (v' & Hv' & Hinc' & _).
    congruence.
Qed.

(** X5. Whatever the groups, the entries of a pair hold together: an entry
    flagged incomplete is pending; a pending or returned entry has net
    result 0; a won entry has a won leg in its group and a lost entry a
    lost leg; the pair id and the game date of an entry are those of a bet
    of its group. *)
Theorem pairStat_entry_sound
    (Number : jsstring -> number) (g : list Bet) (v : PairStat) :
  pairStat Number g = Some v ->
  (ps_incomplete v = true -> ps_status v = pending) /\
  (ps_status v = pending \/ ps_status v = returned -> ps_netResult v = 0%float) /\
  (ps_status v = won -> exists leg, In leg g /\ status leg = won) /\
  (ps_status v = lost -> exists leg, In leg g /\ status leg = lost) /\
  (ps_status v = returned -> exists leg, In leg g /\ status leg = returned) /\
  (exists leg, In leg g /\ ps_pairId v = pairId leg /\ ps_gameDate v = gameDate leg).
Proof.
  intros Hv.
  split; [apply (pairStat_incomplete_pending Number g v Hv) |].
  destruct (pairStat_cases Number g)
    as [[_ E] | [(b & Ib & E & _) | (a & b & Ia & Ib & PA & PB & _ & _ & E)]].
  - congruence.
  - rewrite E, pairStat_single in Hv. injection Hv as <-. cbn.
    repeat split; try discriminate; eauto.
  - rewrite E in Hv. clear E.
    assert (QB : isB a = false)
      by (revert PA; unfold isA, isB; destruct (betPosition a); cbn; congruence).
    assert (QA : isA b = false)
      by (revert PB; unfold isA, isB; destruct (betPosition b); cbn; congruence).
    unfold pairStat, sortByPosition in Hv.
    cbn [List.filter List.app List.find] in Hv. rewrite PA, PB, QA, QB in Hv.
    cbn [List.filter List.app List.find] in Hv. rewrite PA, PB, QB in Hv.
    destruct (status a) eqn:SA, (status b) eqn:SB; cbn in Hv;
      injection Hv as <-; cbn;
      repeat split; try discriminate; try (intros [|]; discriminate);
      try reflexivity; eauto.
Qed.

Lemma pairStat_entry_sound_witness :
  exists leg,
    In leg [Samples.leg PosA won "100" "250"; Samples.leg PosB lost "100" "0"] /\
    status leg = won.
Proof.
  apply (proj1 (proj2 (proj2
           (pairStat_entry_sound NumberDecimal
              [Samples.leg PosA won "100" "250"; Samples.leg PosB lost "100" "0"]
              _ eq_refl))));
    reflexivity.
Defined.

Lemma pairStat_none_nil (Number : jsstring -> number) (g : list Bet) :
  pairStat Number g = None <-> g = [].
Proof.
  split.
  - intros Hn.
    destruct (pairStat_cases Number g)
      as [[E _] | [(b & _ & E & _) | (a & b & _ & _ & PA & PB & _ & _ & E)]].
    + exact E.
    + rewrite E, pairStat_single in Hn. discriminate.
    + rewrite E in Hn.
      destruct (pairStat_two Number a b PA PB) as (v' & Hv' & _). congruence.
  - intros ->. reflexivity.
Qed.

Lemma countIf_split (f : PairStat -> bool) (l : list PairStat) :
  List.length l = (countIf f l + countIf (fun p => negb (f p)) l)%nat.
Proof.
  induction l as [| v l IH]; [reflexivity |].
  rewrite !countIf_cons. cbn [List.length]. destruct (f v); cbn; lia.
Qed.

Lemma countIf_by_status (l : list PairStat) :
  List.length l
  = (countIf (fun p => status_eqb (ps_status p) pending) l
     + countIf (fun p => status_eqb (ps_status p) won) l
     + countIf (fun p => status_eqb (ps_status p) lost) l
     + countIf (fun p => status_eqb (ps_status p) returned) l)%nat.
Proof.
  induction l as [| v l IH]; [reflexivity |].
  rewrite !countIf_cons. cbn [List.length]. destruct (ps_status v); cbn; lia.
Qed.

Lemma countIf_le (f g : PairStat -> bool) (l : list PairStat) :
  List.Forall (fun p => f p = true -> g p = true) l ->
  (countIf f l <= countIf g l)%nat.
Proof.
  induction 1 as [| v l Hv Hl IH]; [reflexivity |].
  rewrite !countIf_cons. destruct (f v) eqn:E.
  - rewrite (Hv eq_refl). lia.
  - destruct (g v); lia.
Qed.

Lemma pairStats_incomplete_pending (Number : jsstring -> number) groups :
  List.Forall
    (fun p => ps_incomplete p = true -> status_eqb (ps_status p) pending = true)
    (pairStats Number groups).
Proof.
  induction groups as [| g groups IH]; cbn; [constructor |].
  destruct (pairStat Number g) as [v |] eqn:E; [| exact IH].
  constructor; [| exact IH].
  intros Hinc. rewrite (pairStat_incomplete_pending Number g v E Hinc). reflexivity.
Qed.

Lemma pairStats_length (Number : jsstring -> number) groups :
  List.length (pairStats Number groups)
  = List.length (List.filter (fun g => negb (Nat.eqb (List.length g) 0)) groups).
Proof.
  induction groups as [| g groups IH]; cbn; [reflexivity |].
  destruct (pairStat Number g) as [v |] eqn:E.
  - destruct g as [| b g]; [discriminate E |]. cbn. f_equal. exact IH.
  - apply pairStat_none_nil in E. subst g. cbn. exact IH.
Qed.

(** X6. The counters of the dashboard add up: every pair is complete or
    incomplete, every pair has one of the four statuses, the incomplete
    pairs are among the pending ones, and there is one pair per non-empty
    group. *)
Theorem stats_counters_add_up
    (Number : jsstring -> number) (groups : list (list Bet)) :
  let st := stats Number groups in
  totalPairs st = (completePairs st + incompletePairs st)%nat /\
  totalPairs st
  = (pendingPairs st + wonPairs st + lostPairs st + returnedPairs st)%nat /\
  (incompletePairs st <= pendingPairs st)%nat /\
  totalPairs st
  = List.length (List.filter (fun g => negb (Nat.eqb (List.length g) 0)) groups).
Proof.
  cbn zeta. unfold stats.
  cbn [totalPairs completePairs incompletePairs pendingPairs wonPairs lostPairs
         returnedPairs].
  split; [| split; [| split]].
  - rewrite (countIf_split ps_incomplete). lia.
  - apply countIf_by_status.
  - apply countIf_le, pairStats_incomplete_pending.
  - apply pairStats_length.
Qed.

Lemma find_filter_and {A : Type} (p q : A -> bool) (l : list A) :
  List.find (fun x => p x && q x) l = List.find q (List.filter p l).
Proof.
  induction l as [| x l IH]; cbn; [reflexivity |].
  destruct (p x); cbn; [destruct (q x); [reflexivity | exact IH] | exact IH].
Qed.

(** X7. The paired bet handed to a card shares the card's pair id and is
    another bet (another id) of the list; when two bets of different ids
    are the only ones of their pair, each is the paired bet of the other. *)
Theorem pairedBet_is_the_other_leg (bets : list Bet) :
  (forall bet b : Bet,
      pairedBet bets bet = Some b ->
      In b bets /\ pairId b = pairId bet /\ id b <> id bet) /\
  (forall a b : Bet,
      List.filter (fun x => str_eqb (pairId x) (pairId a)) bets = [a; b] ->
      id a <> id b ->
      pairedBet bets a = Some b /\ pairedBet bets b = Some a).
Proof.
  split.
  - intros bet b H. unfold pairedBet in H.
    apply List.find_some in H as [Hin Hb].
    apply andb_prop in Hb as [Hp Hi].
    apply str_eqb_eq in Hp. apply negb_true_iff in Hi.
    repeat split; [exact Hin | exact Hp |].
    intros E. apply str_eqb_eq in E. congruence.
  - intros a b Hf Hne.
    assert (Hb : pairId b = pairId a).
    { assert (I : In b (List.filter (fun x => str_eqb (pairId x) (pairId a)) bets))
        by (rewrite Hf; right; left; reflexivity).
      apply List.filter_In in I as [_ I]. apply str_eqb_eq, I. }
    assert (Haa : str_eqb (id a) (id a) = true) by (apply str_eqb_eq; reflexivity).
    assert (Hbb : str_eqb (id b) (id b) = true) by (apply str_eqb_eq; reflexivity).
    assert (Hba : str_eqb (id b) (id a) = false).
    { apply not_true_is_false. intros E. apply str_eqb_eq in E. congruence. }
    assert (Hab : str_eqb (id a) (id b) = false).
    { apply not_true_is_false. intros E. apply str_eqb_eq in E. congruence. }
    unfold pairedBet. split.
    + rewrite (find_filter_and (fun x => str_eqb (pairId x) (pairId a))), Hf.
      cbn. rewrite Haa, Hba. reflexivity.
    + rewrite Hb.
      rewrite (find_filter_and (fun x => str_eqb (pairId x) (pairId a))), Hf.
      cbn. rewrite Hab. reflexivity.
Qed.

Lemma pairedBet_witness :
  pairedBet [Samples.leg PosA pending "100" "250";
             mkBet (lit "2") [] [] [] [] [] [] [] [] [] [] [] [] pending true
               (lit "p1") PosB None None 0%Z]
    (Samples.leg PosA pending "100" "250")
  = Some (mkBet (lit "2") [] [] [] [] [] [] [] [] [] [] [] [] pending true
            (lit "p1") PosB None None 0%Z).
Proof.
  apply (proj2 (pairedBet_is_the_other_leg
                  [Samples.leg PosA pending "100" "250";
                   mkBet (lit "2") [] [] [] [] [] [] [] [] [] [] [] [] pending true
                     (lit "p1") PosB None None 0%Z])
           (Samples.leg PosA pending "100" "250")
           (mkBet (lit "2") [] [] [] [] [] [] [] [] [] [] [] [] pending true
              (lit "p1") PosB None None 0%Z)).
  - reflexivity.
  - discriminate.
Defined.

(** ** Grouping the bets by pair id *)

Lemma str_eqb_refl (k : jsstring) : str_eqb k k = true.
Proof. apply str_eqb_eq. reflexivity. Qed.

Lemma str_eqb_neq (k k' : jsstring) : k <> k' -> str_eqb k k' = false.
Proof. intros H. apply not_true_is_false. intros E. apply str_eqb_eq in E. tauto. Qed.

Section OwnProperties.

Context {A : Type}.

Lemma ownLookup_app (k k' : jsstring) (v : A) (o : list (jsstring * A)) :
  ownLookup k (o ++ [(k', v)])
  = match ownLookup k o with
    | Some x => Some x
    | None => if str_eqb k' k then Some v else None
    end.
Proof.
  induction o as [| [k0 v0] o IH]; cbn; [reflexivity |].
  destruct (str_eqb k0 k); [reflexivity | exact IH].
Qed.

Lemma ownLookup_updateOwn (k k' : jsstring) (f : A -> A) (o : list (jsstring * A)) :
  ownLookup k (updateOwn k' f o)
  = if str_eqb k' k then option_map f (ownLookup k o) else ownLookup k o.
Proof.
  induction o as [| [k0 v0] o IH]; cbn; [destruct (str_eqb k' k); reflexivity |].
  destruct (str_eqb k0 k') eqn:E0; cbn.
  - apply str_eqb_eq in E0. subst k0.
    destruct (str_eqb k' k); reflexivity.
  - rewrite IH. destruct (str_eqb k0 k) eqn:E1; [| reflexivity].
    apply str_eqb_eq in E1. subst k0. rewrite str_eqb_neq; [reflexivity |].
    intros ->. rewrite str_eqb_refl in E0. discriminate.
Qed.

Lemma updateOwn_keys (k : jsstring) (f : A -> A) (o : list (jsstring * A)) :
  List.map fst (updateOwn k f o) = List.map fst o.
Proof.
  induction o as [| [k0 v0] o IH]; cbn; [reflexivity |].
  destruct (str_eqb k0 k); cbn; [reflexivity | f_equal; exact IH].
Qed.

Lemma ownLookup_none_key (k : jsstring) (o : list (jsstring * A)) :
  ownLookup k o = None -> ~ In k (List.map fst o).
Proof.
  induction o as [| [k0 v0] o IH]; cbn; [tauto |].
  destruct (str_eqb k0 k) eqn:E; [discriminate |].
  intros H [-> | I]; [rewrite str_eqb_refl in E; discriminate | exact (IH H I)].
Qed.

Lemma ownLookup_some_in (k : jsstring) (v : A) (o : list (jsstring * A)) :
  ownLookup k o = Some v -> In (k, v) o.
Proof.
  induction o as [| [k0 v0] o IH]; cbn; [discriminate |].
  destruct (str_eqb k0 k) eqn:E.
  - intros [= ->]. apply str_eqb_eq in E. subst. left. reflexivity.
  - intros H. right. exact (IH H).
Qed.

Lemma in_ownLookup (k : jsstring) (v : A) (o : list (jsstring * A)) :
  List.NoDup (List.map fst o) -> In (k, v) o -> ownLookup k o = Some v.
Proof.
  induction o as [| [k0 v0] o IH]; cbn; [tauto |].
  intros ND [E | I].
  - injection E as -> ->. rewrite str_eqb_refl. reflexivity.
  - apply List.NoDup_cons_iff in ND as [N0 ND].
    destruct (str_eqb k0 k) eqn:E; [| exact (IH ND I)].
    apply str_eqb_eq in E. subst k0. exfalso. apply N0.
    apply (List.in_map fst) in I. exact I.
Qed.

Lemma in_insertByIndex (x e : N * A) (l : list (N * A)) :
  In x (insertByIndex e l) <-> x = e \/ In x l.
Proof.
  induction l as [| y l IH]; cbn; [intuition congruence |].
  destruct (fst e <? fst y); cbn; [intuition congruence |].
  rewrite IH. intuition congruence.
Qed.

Lemma in_sortByIndex (x : N * A) (l : list (N * A)) :
  In x (sortByIndex l) <-> In x l.
Proof.
  unfold sortByIndex. induction l as [| y l IH]; cbn; [tauto |].
  rewrite in_insertByIndex, IH. intuition congruence.
Qed.

Lemma length_insertByIndex (e : N * A) (l : list (N * A)) :
  List.length (insertByIndex e l) = Datatypes.S (List.length l).
Proof.
  induction l as [| y l IH]; cbn; [reflexivity |].
  destruct (fst e <? fst y); cbn; [reflexivity | f_equal; exact IH].
Qed.

Lemma length_sortByIndex (l : list (N * A)) :
  List.length (sortByIndex l) = List.length l.
Proof.
  unfold sortByIndex. induction l as [| y l IH]; cbn; [reflexivity |].
  rewrite length_insertByIndex. f_equal. exact IH.
Qed.

Lemma in_indexEntries (n : N) (v : A) (o : list (jsstring * A)) :
  In (n, v) (indexEntries o) <-> exists k, In (k, v) o /\ arrayIndex k = Some n.
Proof.
  induction o as [| [k0 v0] o IH]; cbn [indexEntries In];
    [split; [intros [] | intros (k & [] & _)] |].
  destruct (arrayIndex k0) as [n0 |] eqn:E; cbn [In]; rewrite ?IH.
  - split.
    + intros [[= <- <-] | (k & I & Hk)]; [exists k0; tauto | exists k; tauto].
    + intros (k & [[= <- <-] | I] & Hk).
      * left. congruence.
      * right. exists k. tauto.
  - split.
    + intros (k & I & Hk). exists k. tauto.
    + intros (k & [[= <- <-] | I] & Hk); [congruence | exists k; tauto].
Qed.

Lemma in_namedEntries (v : A) (o : list (jsstring * A)) :
  In v (namedEntries o) <-> exists k, In (k, v) o /\ arrayIndex k = None.
Proof.
  induction o as [| [k0 v0] o IH]; cbn [namedEntries In];
    [split; [intros [] | intros (k & [] & _)] |].
  destruct (arrayIndex k0) as [n0 |] eqn:E; cbn [In]; rewrite ?IH.
  - split.
    + intros (k & I & Hk). exists k. tauto.
    + intros (k & [[= <- <-] | I] & Hk); [congruence | exists k; tauto].
  - split.
    + intros [<- | (k & I & Hk)]; [exists k0; tauto | exists k; tauto].
    + intros (k & [[= <- <-] | I] & Hk); [left; reflexivity | right; exists k; tauto].
Qed.

(** [Object.values] lists the values of the own properties, each once. *)
Lemma in_objectValues (v : A) (o : list (jsstring * A)) :
  In v (objectValues o) <-> exists k, In (k, v) o.
Proof.
  unfold objectValues. rewrite List.in_app_iff, List.in_map_iff, in_namedEntries.
  split.
  - intros [([n v'] & E & I) | (k & I & _)].
    + cbn in E. subst v'. apply in_sortByIndex, in_indexEntries in I.
      destruct I as (k & I & _). exists k. exact I.
    + exists k. exact I.
  - intros (k & I). destruct (arrayIndex k) as [n |] eqn:E.
    + left. exists (n, v). split; [reflexivity |].
      apply in_sortByIndex, in_indexEntries. exists k. tauto.
    + right. exists k. tauto.
Qed.

Lemma length_entries (o : list (jsstring * A)) :
  (List.length (indexEntries o) + List.length (namedEntries o))%nat = List.length o.
Proof.
  induction o as [| [k0 v0] o IH]; cbn; [reflexivity |].
  destruct (arrayIndex k0); cbn; lia.
Qed.

Lemma length_objectValues (o : list (jsstring * A)) :
  List.length (objectValues o) = List.length o.
Proof.
  unfold objectValues.
  rewrite List.length_app, List.length_map, length_sortByIndex.
  apply length_entries.
Qed.

End OwnProperties.

Lemma groupFrom_normal (bets : list Bet) :
  anyInherited bets = false ->
  forall pairs : list (jsstring * list Bet),
    List.NoDup (List.map fst pairs) ->
    exists groups,
      groupFrom pairs bets = Normal groups /\
      List.NoDup (List.map fst groups) /\
      forall k, ownLookup k groups = groupAfter pairs bets k.
Proof.
  unfold anyInherited.
  induction bets as [| b bets IH]; intros Hinh pairs ND.
  - exists pairs. split; [reflexivity |]. split; [exact ND |].
    intros k. unfold groupAfter. cbn.
    destruct (ownLookup k pairs); [rewrite List.app_nil_r |]; reflexivity.
  - cbn [List.existsb] in Hinh. apply orb_false_elim in Hinh as [Hb Hrest].
    cbn [groupFrom]. unfold pushBet.
    destruct (ownLookup (pairId b) pairs) as [g |] eqn:L.
    + cbn [mbind Completion_bind].
      destruct (IH Hrest (updateOwn (pairId b) (fun group => group ++ [b]) pairs))
        as (groups & E & ND' & Hk).
      { rewrite updateOwn_keys. exact ND. }
      exists groups. split; [exact E |]. split; [exact ND' |].
      intros k. rewrite Hk. unfold groupAfter, betsOfPair.
      rewrite ownLookup_updateOwn. cbn [List.filter].
      destruct (str_eqb (pairId b) k) eqn:Ek.
      * apply str_eqb_eq in Ek. subst k. rewrite L. cbn.
        rewrite <- List.app_assoc. reflexivity.
      * reflexivity.
    + rewrite Hb. cbn [mbind Completion_bind].
      destruct (IH Hrest (pairs ++ [(pairId b, [b])])) as (groups & E & ND' & Hk).
      { rewrite List.map_app. cbn.
        apply List.NoDup_app; [exact ND | repeat constructor; cbn; tauto |].
        intros x Hx [<- | []]. exact (ownLookup_none_key _ _ L Hx). }
      exists groups. split; [exact E |]. split; [exact ND' |].
      intros k. rewrite Hk. unfold groupAfter, betsOfPair.
      rewrite ownLookup_app. cbn [List.filter].
      destruct (str_eqb (pairId b) k) eqn:Ek.
      * apply str_eqb_eq in Ek. subst k. rewrite L. reflexivity.
      * destruct (ownLookup k pairs); reflexivity.
Qed.

Lemma groupFrom_throws (bets : list Bet) :
  anyInherited bets = true ->
  forall pairs : list (jsstring * list Bet),
    (forall k, inherited k = true -> ownLookup k pairs = None) ->
    groupFrom pairs bets = Throw TypeError.
Proof.
  unfold anyInherited.
  induction bets as [| b bets IH]; intros Hinh pairs Hp; [discriminate |].
  cbn [List.existsb] in Hinh. cbn [groupFrom]. unfold pushBet.
  destruct (inherited (pairId b)) eqn:Hb.
  - rewrite (Hp _ Hb). reflexivity.
  - cbn [orb] in Hinh.
    destruct (ownLookup (pairId b) pairs) as [g |] eqn:L;
      cbn [mbind Completion_bind]; apply (IH Hinh); intros k Hk.
    + rewrite ownLookup_updateOwn, (Hp k Hk).
      destruct (str_eqb (pairId b) k); reflexivity.
    + rewrite ownLookup_app, (Hp k Hk).
      rewrite str_eqb_neq; [reflexivity | congruence].
Qed.

Lemma inherited_names (k : jsstring) :
  inherited k = true -> In k objectPrototypeNames.
Proof.
  unfold inherited. intros H. apply List.existsb_exists in H as (x & I & E).
  apply str_eqb_eq in E. subst x. exact I.
Qed.

Lemma minted_not_inherited (k : jsstring) :
  isMintedPairId k = true -> inherited k = false.
Proof.
  intros M. apply not_true_is_false. intros H.
  apply inherited_names in H. cbn in H.
  repeat (destruct H as [<- | H]; [discriminate M |]). exact H.
Qed.

(** X8. Grouping throws a TypeError exactly when the pair id of some bet
    is a name that objects inherit, such as "constructor"; the pair ids
    minted by [handleOCRConfirm] are never such names, so grouping bets
    that carry them does not throw. *)
Theorem groupByPairId_throws_iff (bets : list Bet) :
  (groupByPairId bets = Throw TypeError <->
   List.existsb (fun bet => inherited (pairId bet)) bets = true) /\
  (List.forallb (fun bet => isMintedPairId (pairId bet)) bets = true ->
   exists groups, groupByPairId bets = Normal groups).
Proof.
  assert (T : groupByPairId bets = Throw TypeError <-> anyInherited bets = true).
  { split.
    - intros H. destruct (anyInherited bets) eqn:E; [reflexivity |].
      destruct (groupFrom_normal bets E [] (List.NoDup_nil _)) as (groups & G & _).
      unfold groupByPairId in H. congruence.
    - intros H. apply (groupFrom_throws bets H). reflexivity. }
  split; [exact T |].
  intros M.
  assert (E : anyInherited bets = false).
  { apply not_true_is_false. intros H. unfold anyInherited in H.
    apply List.existsb_exists in H as (b & I & Hb).
    rewrite List.forallb_forall in M.
    rewrite (minted_not_inherited _ (M b I)) in Hb. discriminate. }
  destruct (groupFrom_normal bets E [] (List.NoDup_nil _)) as (groups & G & _).
  exists groups. exact G.
Qed.

Lemma groupByPairId_throws_witness :
  exists groups,
    groupByPairId [Samples.leg PosA pending "100" "250";
                   Samples.leg PosB pending "100" "210"] = Normal groups.
Proof.
  apply (proj2 (groupByPairId_throws_iff
                  [Samples.leg PosA pending "100" "250";
                   Samples.leg PosB pending "100" "210"])).
  reflexivity.
Defined.

Lemma groupByPairId_groups (bets : list Bet) :
  anyInherited bets = false ->
  exists groups,
    groupByPairId bets = Normal groups /\
    List.NoDup (List.map fst groups) /\
    forall k g, In (k, g) groups <-> g <> [] /\ g = betsOfPair k bets.
Proof.
  intros E.
  destruct (groupFrom_normal bets E [] (List.NoDup_nil _)) as (groups & G & ND & Hk).
  exists groups. split; [exact G |]. split; [exact ND |].
  intros k g. split.
  - intros I. apply (in_ownLookup k g groups ND) in I.
    rewrite Hk in I. unfold groupAfter in I. cbn in I.
    destruct (betsOfPair k bets) as [| b l]; [discriminate |].
    injection I as <-. split; [discriminate | reflexivity].
  - intros [Hne ->]. apply ownLookup_some_in. rewrite Hk.
    unfold groupAfter. cbn.
    destruct (betsOfPair k bets) as [| b l]; [contradiction | reflexivity].
Qed.

(** X9. When no pair id is an inherited name, the grouping partitions the
    bets by pair id: there is one group per pair id present, each group
    holds exactly the bets of its pair id in the order of the list, and
    [Object.values] hands out these groups, each once. *)
Theorem groupByPairId_partitions (bets : list Bet) :
  List.existsb (fun bet => inherited (pairId bet)) bets = false ->
  exists groups,
    groupByPairId bets = Normal groups /\
    List.NoDup (List.map fst groups) /\
    (forall k g,
        In (k, g) groups <->
        g <> [] /\ g = List.filter (fun bet => str_eqb (pairId bet) k) bets) /\
    (forall bet, In bet bets ->
        exists g, In (pairId bet, g) groups /\ In bet g) /\
    (forall g,
        In g (objectValues groups) <->
        g <> [] /\
        exists k, g = List.filter (fun bet => str_eqb (pairId bet) k) bets) /\
    List.length (objectValues groups) = List.length groups.
Proof.
  intros E. destruct (groupByPairId_groups bets E) as (groups & G & ND & H).
  exists groups. split; [exact G |]. split; [exact ND |].
  split; [exact H |]. split; [| split].
  - intros bet I.
    assert (J : In bet (betsOfPair (pairId bet) bets)).
    { apply List.filter_In. split; [exact I | apply str_eqb_refl]. }
    exists (betsOfPair (pairId bet) bets). split; [| exact J].
    apply H. split; [| reflexivity].
    intros N. rewrite N in J. exact J.
  - intros g. rewrite in_objectValues. split.
    + intros (k & I). apply H in I as [Hne Hg]. split; [exact Hne |].
      exists k. exact Hg.
    + intros (Hne & k & Hg). exists k. apply H. split; assumption.
  - apply length_objectValues.
Qed.

Lemma groupByPairId_partitions_witness :
  exists groups,
    groupByPairId [Samples.leg PosA pending "100" "250";
                   Samples.leg PosB pending "100" "210"] = Normal groups /\
    List.length (objectValues groups) = List.length groups.
Proof.
  destruct (groupByPairId_partitions
              [Samples.leg PosA pending "100" "250";
               Samples.leg PosB pending "100" "210"] eq_refl)
    as (groups & G & _ & _ & _ & _ & L).
  exists groups. split; assumption.
Defined.

(** X10. [groupBetsByPair] of the reports and of the bet management keeps
    exactly the groups of two bets: the bets of a pair id with one leg, or
    with three and more, are in none of the pairs it returns. *)
Theorem groupBetsByPair_keeps_two_legs (bets : list Bet) :
  List.existsb (fun bet => inherited (pairId bet)) bets = false ->
  exists grouped,
    groupBetsByPair bets = Normal grouped /\
    (forall g,
        In g grouped <->
        List.length g = 2%nat /\
        exists k, g = List.filter (fun bet => str_eqb (pairId bet) k) bets) /\
    (forall bet g,
        In g grouped -> In bet g ->
        List.length (List.filter (fun x => str_eqb (pairId x) (pairId bet)) bets)
        = 2%nat).
Proof.
  intros E. destruct (groupByPairId_groups bets E) as (groups & G & ND & H).
  unfold groupBetsByPair. rewrite G. cbn [mbind Completion_bind].
  eexists. split; [reflexivity |].
  assert (C : forall g,
             In g (List.filter (fun pairBets => Nat.eqb (List.length pairBets) 2)
                     (objectValues groups)) <->
             List.length g = 2%nat /\ exists k, g = betsOfPair k bets).
  { intros g. rewrite List.filter_In, in_objectValues, Nat.eqb_eq. split.
    - intros [(k & I) L]. apply H in I as [_ Hg]. split; [exact L |].
      exists k. exact Hg.
    - intros (L & k & Hg). split; [| exact L]. exists k. apply H.
      split; [| exact Hg]. intros N. rewrite N in L. discriminate. }
  split; [exact C |].
  intros bet g Ig Ib. apply C in Ig as [L (k & Hg)].
  assert (Ek : pairId bet = k).
  { rewrite Hg in Ib. apply List.filter_In in Ib as [_ Ib].
    apply str_eqb_eq, Ib. }
  rewrite Ek. fold (betsOfPair k bets). rewrite <- Hg. exact L.
Qed.

Lemma groupBetsByPair_witness :
  exists grouped,
    groupBetsByPair [Samples.leg PosA pending "100" "250"] = Normal grouped /\
    ~ In [Samples.leg PosA pending "100" "250"] grouped.
Proof.
  destruct (groupBetsByPair_keeps_two_legs
              [Samples.leg PosA pending "100" "250"] eq_refl)
    as (grouped & G & C & _).
  exists grouped. split; [exact G |].
  intros I. apply C in I as [L _]. discriminate L.
Defined.

Lemma in_pairStats (Number : jsstring -> number) (groups : list (list Bet)) v :
  In v (pairStats Number groups) <->
  exists g, In g groups /\ pairStat Number g = Some v.
Proof.
  induction groups as [| g groups IH]; cbn [pairStats In];
    [split; [intros [] | intros (g & [] & _)] |].
  destruct (pairStat Number g) as [v' |] eqn:E; cbn [In]; rewrite IH; split.
  - intros [<- | (g' & I & Hg)]; [exists g; tauto | exists g'; tauto].
  - intros (g' & [<- | I] & Hg); [left; congruence | right; exists g'; tauto].
  - intros (g' & I & Hg). exists g'. tauto.
  - intros (g' & [<- | I] & Hg); [congruence | exists g'; tauto].
Qed.

(** X11. The dashboard, from the list of bets: when no pair id is an
    inherited name it has exactly one entry per pair id present, every
    entry is the entry of the bets of one pair id, and a pair id with a
    single bet shows as the incomplete, pending entry of that bet. *)
Theorem dashboard_entries_per_pair (Number : jsstring -> number) (bets : list Bet) :
  List.existsb (fun bet => inherited (pairId bet)) bets = false ->
  exists groups entries,
    groupByPairId bets = Normal groups /\
    dashboardPairStats Number bets = Normal entries /\
    List.length entries = List.length groups /\
    (forall v,
        In v entries <->
        exists k,
          List.filter (fun bet => str_eqb (pairId bet) k) bets <> [] /\
          pairStat Number (List.filter (fun bet => str_eqb (pairId bet) k) bets)
          = Some v) /\
    (forall b,
        List.filter (fun bet => str_eqb (pairId bet) (pairId b)) bets = [b] ->
        In {| ps_pairId := pairId b;
              ps_status := pending;
              ps_totalStake := Number (stake b);
              ps_netResult := 0%float;
              ps_gameDate := gameDate b;
              ps_incomplete := true |} entries).
Proof.
  intros E. destruct (groupByPairId_groups bets E) as (groups & G & ND & H).
  exists groups, (pairStats Number (objectValues groups)).
  split; [exact G |].
  split; [unfold dashboardPairStats; rewrite G; reflexivity |].
  assert (C : forall v,
             In v (pairStats Number (objectValues groups)) <->
             exists k, betsOfPair k bets <> [] /\
                       pairStat Number (betsOfPair k bets) = Some v).
  { intros v. rewrite in_pairStats. split.
    - intros (g & I & Hg). apply in_objectValues in I as (k & I).
      apply H in I as [Hne ->]. exists k. tauto.
    - intros (k & Hne & Hg). exists (betsOfPair k bets). split; [| exact Hg].
      apply in_objectValues. exists k. apply H. tauto. }
  split; [| split; [exact C |]].
  - rewrite pairStats_length, <- (length_objectValues groups).
    f_equal. apply List.forallb_filter_id, List.forallb_forall.
    intros g I. apply in_objectValues in I as (k & I). apply H in I as [Hne _].
    destruct g; [contradiction | reflexivity].
  - intros b Hb. apply C. exists (pairId b). fold (betsOfPair (pairId b) bets) in Hb.
    rewrite Hb. split; [discriminate | apply pairStat_single].
Qed.

Lemma dashboard_entries_witness :
  exists groups entries,
    groupByPairId [Samples.leg PosA pending "100" "250"] = Normal groups /\
    dashboardPairStats NumberDecimal [Samples.leg PosA pending "100" "250"]
    = Normal entries /\
    List.length entries = List.length groups.
Proof.
  destruct (dashboard_entries_per_pair NumberDecimal
              [Samples.leg PosA pending "100" "250"] eq_refl)
    as (groups & entries & G & D & L & _).
  exists groups, entries. repeat split; assumption.
Defined.

(** ** The reports *)

Section SummaryFacts.

Variable Number : jsstring -> number.

Lemma addPairs_counts (grouped : list (list Bet)) :
  List.Forall (fun g => List.length g = 2%nat) grouped ->
  forall t : Reports.Totals,
  exists t',
    Reports.addPairs Number t grouped = Normal t' /\
    (Reports.t_pendingPairs t' + Reports.t_resolvedPairs t'
     = Reports.t_pendingPairs t + Reports.t_resolvedPairs t + List.length grouped)%nat /\
    (Reports.t_resolvedPairs t = Reports.t_wonPairs t + Reports.t_lostPairs t ->
     Reports.t_resolvedPairs t' = Reports.t_wonPairs t' + Reports.t_lostPairs t')%nat.
Proof.
  induction 1 as [| g grouped Hg Hrest IH]; intros t.
  - exists t. split; [reflexivity |]. cbn. split; [lia | tauto].
  - destruct g as [| a [| b [| c g]]]; try discriminate Hg.
    cbn [Reports.addPairs]. unfold Reports.addPair.
    destruct (status_eqb (status a) pending || status_eqb (status b) pending);
      [| destruct (status_eqb (status a) won || status_eqb (status b) won)];
      cbn [mbind Completion_bind];
      match goal with
      | |- context [Reports.addPairs Number ?u grouped] =>
          destruct (IH u) as (t' & E & C1 & C2)
      end;
      exists t'; (split; [exact E |]); cbn in C1, C2 |- *; split; lia.
Qed.

End SummaryFacts.

(** X12. The summary of the reports never throws on bets whose pair ids
    are not inherited names, and its counters add up: every pair it
    counts is pending or resolved, and every resolved pair is won or
    lost. *)
Theorem calculateSummary_counters
    (Number : jsstring -> number) (filteredBets : list Bet) :
  List.existsb (fun bet => inherited (pairId bet)) filteredBets = false ->
  exists s,
    Reports.calculateSummary Number filteredBets = Normal s /\
    Reports.s_totalPairs s
    = (Reports.s_pendingPairs s + Reports.s_resolvedPairs s)%nat /\
    Reports.s_resolvedPairs s
    = (Reports.s_wonPairs s + Reports.s_lostPairs s)%nat.
Proof.
  intros E. destruct (groupByPairId_groups filteredBets E) as (groups & G & _).
  unfold Reports.calculateSummary, groupBetsByPair.
  rewrite G. cbn [mbind Completion_bind].
  set (grouped := List.filter _ (objectValues groups)).
  assert (F : List.Forall (fun g => List.length g = 2%nat) grouped).
  { apply List.Forall_forall. intros g I. apply List.filter_In in I as [_ I].
    apply Nat.eqb_eq, I. }
  destruct (addPairs_counts Number grouped F Reports.noTotals) as (t & A & C1 & C2).
  rewrite A. cbn [mbind Completion_bind].
  eexists. split; [reflexivity |]. cbn in C1, C2 |- *. split; [lia |].
  apply C2. reflexivity.
Qed.

Lemma calculateSummary_counters_witness :
  exists s,
    Reports.calculateSummary NumberDecimal
      [Samples.leg PosA won "100" "250"; Samples.leg PosB lost "100" "0"] = Normal s /\
    Reports.s_totalPairs s
    = (Reports.s_pendingPairs s + Reports.s_resolvedPairs s)%nat /\
    Reports.s_resolvedPairs s
    = (Reports.s_wonPairs s + Reports.s_lostPairs s)%nat.
Proof.
  apply (calculateSummary_counters NumberDecimal
           [Samples.leg PosA won "100" "250"; Samples.leg PosB lost "100" "0"]).
  reflexivity.
Defined.

Lemma objectValues_single {A : Type} (k : jsstring) (v : A) :
  objectValues [(k, v)] = [v].
Proof. unfold objectValues. cbn. destruct (arrayIndex k); reflexivity. Qed.

Lemma groupByPairId_two (a b : Bet) :
  pairId b = pairId a -> inherited (pairId a) = false ->
  groupByPairId [a; b] = Normal [(pairId a, [a; b])].
Proof.
  intros Eb Ha. unfold groupByPairId. cbn [groupFrom].
  assert (E1 : pushBet [] a = Normal [(pairId a, [a])]).
  { unfold pushBet. cbn [ownLookup]. rewrite Ha. reflexivity. }
  assert (E2 : pushBet [(pairId a, [a])] b = Normal [(pairId a, [a; b])]).
  { unfold pushBet. rewrite Eb. cbn [ownLookup updateOwn].
    rewrite str_eqb_refl. reflexivity. }
  rewrite E1. cbn [mbind Completion_bind]. rewrite E2. reflexivity.
Qed.

(** X13. A pair whose two legs are returned: the dashboard reports it as
    returned with net result 0, the reports count it as a lost pair, with
    no payout, so with a profit of minus its stakes. *)
Theorem returned_pair_in_dashboard_and_reports
    (Number : jsstring -> number) (a b : Bet) :
  pairId b = pairId a -> inherited (pairId a) = false ->
  betPosition a = PosA -> betPosition b = PosB ->
  status a = returned -> status b = returned ->
  (exists v,
      dashboardPairStats Number [a; b] = Normal [v] /\
      ps_status v = returned /\ ps_netResult v = 0%float) /\
  (exists s,
      Reports.calculateSummary Number [a; b] = Normal s /\
      Reports.s_totalPairs s = 1%nat /\
      Reports.s_lostPairs s = 1%nat /\ Reports.s_wonPairs s = 0%nat /\
      Reports.s_totalPayout s = 0%float /\
      Reports.s_totalProfit s
      = (0 - (0 + (Number (stake a) + Number (stake b))))%float).
Proof.
  intros Eb Ha PA PB SA SB.
  pose proof (groupByPairId_two a b Eb Ha) as G.
  split.
  - unfold dashboardPairStats. rewrite G. cbn [mbind Completion_bind].
    rewrite objectValues_single. cbn [pairStats].
    destruct (pairStat_two Number a b) as (v & Hv & _ & _ & _ & _ & Hret & _).
    { unfold isA. rewrite PA. reflexivity. }
    { unfold isB. rewrite PB. reflexivity. }
    rewrite Hv. exists v. split; [reflexivity |]. apply Hret; assumption.
  - unfold Reports.calculateSummary, groupBetsByPair.
    rewrite G. cbn [mbind Completion_bind].
    rewrite objectValues_single.
    cbn [List.filter List.length Nat.eqb Reports.addPairs].
    unfold Reports.addPair. rewrite SA, SB. cbn.
    eexists. split; [reflexivity |]. cbn. repeat split; reflexivity.
Qed.

Lemma returned_pair_witness :
  exists v,
    dashboardPairStats NumberDecimal
      [Samples.leg PosA returned "100" "250"; Samples.leg PosB returned "100" "210"]
    = Normal [v] /\
    ps_status v = returned /\ ps_netResult v = 0%float.
Proof.
  apply (proj1 (returned_pair_in_dashboard_and_reports NumberDecimal
                  (Samples.leg PosA returned "100" "250")
                  (Samples.leg PosB returned "100" "210")
                  eq_refl eq_refl eq_refl eq_refl eq_refl eq_refl)).
Defined.

Section FilterFacts.

Variable Number : jsstring -> number.
Variable dateValue : jsstring -> number.

Lemma filterWhen_app {B : Type} (bound : option B) (keep : B -> Bet -> bool) l1 l2 :
  Reports.filterWhen bound keep (l1 ++ l2)
  = Reports.filterWhen bound keep l1 ++ Reports.filterWhen bound keep l2.
Proof. destruct bound; cbn; [apply List.filter_app | reflexivity]. Qed.

Lemma filterWhen_as_filter {B : Type} (bound : option B) (keep : B -> Bet -> bool) l :
  Reports.filterWhen bound keep l
  = List.filter (fun bet => match bound with
                            | Some b => keep b bet
                            | None => true
                            end) l.
Proof.
  destruct bound; cbn; [reflexivity |].
  induction l as [| x l IH]; cbn; [reflexivity | f_equal; exact IH].
Qed.

Lemma filter_filter (p q : Bet -> bool) (l : list Bet) :
  List.filter p (List.filter q l) = List.filter (fun x => q x && p x) l.
Proof.
  induction l as [| x l IH]; cbn; [reflexivity |].
  destruct (q x); cbn; [destruct (p x); [f_equal |]; exact IH | exact IH].
Qed.

Lemma filter_twice (p : Bet -> bool) (l : list Bet) :
  List.filter p (List.filter p l) = List.filter p l.
Proof.
  induction l as [| x l IH]; cbn; [reflexivity |].
  destruct (p x) eqn:E; cbn; rewrite ?E; [f_equal |]; exact IH.
Qed.

(** The filters of the report decide bet by bet. *)
Lemma applyFilters_as_filter (filters : Reports.ReportFilters) :
  exists keep : Bet -> bool,
    forall bets, Reports.applyFilters Number dateValue filters bets = List.filter keep bets.
Proof.
  eexists. intros bets. unfold Reports.applyFilters.
  rewrite !filterWhen_as_filter, !filter_filter. reflexivity.
Qed.

End FilterFacts.

(** X14. The filters of the report keep a sublist of the bets, in their
    order, deciding bet by bet: filtering a concatenation filters its
    parts, filtering twice changes nothing more, every kept bet has the
    requested status, and the cleared filters keep every bet. *)
Theorem applyFilters_selects
    (Number dateValue : jsstring -> number) (filters : Reports.ReportFilters) :
  (forall l1 l2,
      Reports.applyFilters Number dateValue filters (l1 ++ l2)
      = Reports.applyFilters Number dateValue filters l1
        ++ Reports.applyFilters Number dateValue filters l2) /\
  (forall bets,
      Reports.applyFilters Number dateValue filters
        (Reports.applyFilters Number dateValue filters bets)
      = Reports.applyFilters Number dateValue filters bets) /\
  (forall bets bet,
      In bet (Reports.applyFilters Number dateValue filters bets) ->
      In bet bets /\
      (forall s, Reports.rf_status filters = Some s -> status bet = s)) /\
  (forall bets,
      Reports.applyFilters Number dateValue Reports.clearedFilters bets = bets).
Proof.
  destruct (applyFilters_as_filter Number dateValue filters) as (keep & K).
  split; [| split; [| split]].
  - intros l1 l2. rewrite !K. apply List.filter_app.
  - intros bets. rewrite !K. apply filter_twice.
  - intros bets bet I. split.
    + rewrite K in I. apply List.filter_In in I. tauto.
    + intros s Hs. unfold Reports.applyFilters in I. rewrite Hs in I.
      rewrite !filterWhen_as_filter in I.
      do 6 (apply List.filter_In in I as [I _]).
      apply List.filter_In in I as [_ I]. cbn in I.
      destruct (status bet), s; (reflexivity || discriminate I).
  - intros bets. reflexivity.
Qed.

(** ** The HTTP routes *)

Lemma statusOfValue_name (s : BetStatus) :
  Routes.statusOfValue (VStr (statusName s)) = Some s.
Proof. destruct s; reflexivity. Qed.

Lemma statusOfValue_some (v : jsval) (s : BetStatus) :
  Routes.statusOfValue v = Some s -> v = VStr (statusName s).
Proof.
  destruct v as [| | b | x | t | items | fields]; try discriminate.
  unfold Routes.statusOfValue.
  destruct (str_eqb t (lit "pending")) eqn:E1;
    [apply str_eqb_eq in E1; intros [= <-]; subst; reflexivity |].
  destruct (str_eqb t (lit "won")) eqn:E2;
    [apply str_eqb_eq in E2; intros [= <-]; subst; reflexivity |].
  destruct (str_eqb t (lit "lost")) eqn:E3;
    [apply str_eqb_eq in E3; intros [= <-]; subst; reflexivity |].
  destruct (str_eqb t (lit "returned")) eqn:E4;
    [apply str_eqb_eq in E4; intros [= <-]; subst; reflexivity |].
  discriminate.
Qed.

(** X15. The status route accepts exactly the four status names, as
    strings; for any other value of [status] it answers 400 and calls no
    method of the storage, whatever the storage is; for a status name the
    storage after the request is the one that [updateBetStatus] leaves. *)
Theorem putBetStatusRoute_checks_status
    {S : Type} `{Routes.IStorage S} (id : jsstring) (body : jsval) (storage : S) :
  (forall v s, Routes.statusOfValue v = Some s <-> v = VStr (statusName s)) /\
  (forall v,
      getProp body "status" = Normal v ->
      (forall s, v <> VStr (statusName s)) ->
      Routes.putBetStatusRoute id body storage
      = ({| Routes.statusCode := 400;
            Routes.payload := Routes.ErrorJson "Invalid status" |}, storage)) /\
  (forall s,
      getProp body "status" = Normal (VStr (statusName s)) ->
      snd (Routes.putBetStatusRoute id body storage)
      = snd (Routes.storage_updateBetStatus id s storage)).
Proof.
  split; [| split].
  - intros v s. split; [apply statusOfValue_some | intros ->; apply statusOfValue_name].
  - intros v Hv Hn. unfold Routes.putBetStatusRoute. rewrite Hv.
    destruct (Routes.statusOfValue v) as [s |] eqn:E; [| reflexivity].
    apply statusOfValue_some in E. destruct (Hn s E).
  - intros s Hv. unfold Routes.putBetStatusRoute.
    rewrite Hv, statusOfValue_name.
    destruct (Routes.storage_updateBetStatus id s storage) as [[[b |] |] st];
      reflexivity.
Qed.

Lemma putBetStatusRoute_witness :
  Routes.putBetStatusRoute (lit "1") (VObj [(lit "status", str "void")])
    ({[ lit "1" := Samples.leg PosA pending "100" "250" ]} : gmap jsstring Bet)
  = ({| Routes.statusCode := 400;
        Routes.payload := Routes.ErrorJson "Invalid status" |},
     {[ lit "1" := Samples.leg PosA pending "100" "250" ]}).
Proof.
  apply (proj1 (proj2 (putBetStatusRoute_checks_status (lit "1")
                         (VObj [(lit "status", str "void")])
                         ({[ lit "1" := Samples.leg PosA pending "100" "250" ]}
                          : gmap jsstring Bet)))
           (str "void")).
  - reflexivity.
  - intros s; destruct s; discriminate.
Defined.

(** X16. The bet routes over the in-memory store: an unknown id gets 404
    from the three routes and the store stays as it was; a status update
    of a stored bet answers the bet with its new status, which the read
    route then answers too; after a delete the read route answers 404; and
    the status route answers 500 only for a request without a body. *)
Theorem bet_routes_over_MemStorage (id : jsstring) (bets : gmap jsstring Bet) :
  let notFound :=
    {| Routes.statusCode := 404; Routes.payload := Routes.ErrorJson "Bet not found" |} in
  let ok bet := {| Routes.statusCode := 200; Routes.payload := Routes.BetJson bet |} in
  (bets !! id = None ->
   Routes.getBetRoute id bets = (notFound, bets) /\
   Routes.deleteBetRoute id bets = (notFound, bets) /\
   forall body s,
     getProp body "status" = Normal (VStr (statusName s)) ->
     Routes.putBetStatusRoute id body bets = (notFound, bets)) /\
  (forall bet,
      bets !! id = Some bet ->
      Routes.getBetRoute id bets = (ok bet, bets) /\
      (forall body s,
          getProp body "status" = Normal (VStr (statusName s)) ->
          fst (Routes.putBetStatusRoute id body bets) = ok (withStatus bet s) /\
          fst (Routes.getBetRoute id (snd (Routes.putBetStatusRoute id body bets)))
          = ok (withStatus bet s)) /\
      fst (Routes.deleteBetRoute id bets)
      = {| Routes.statusCode := 204; Routes.payload := Routes.NoContent |} /\
      fst (Routes.getBetRoute id (snd (Routes.deleteBetRoute id bets))) = notFound) /\
  (forall body,
      Routes.statusCode (fst (Routes.putBetStatusRoute id body bets)) = 500
      <-> nullish body = true).
Proof.
  cbn zeta. split; [| split].
  - intros Hn.
    unfold Routes.getBetRoute, Routes.deleteBetRoute, Routes.putBetStatusRoute.
    cbn [Routes.storage_getBetById Routes.storage_deleteBet
         Routes.storage_updateBetStatus Routes.MemStorage].
    unfold getBetById, deleteBet, updateBetStatus. rewrite Hn. cbn [fst snd].
    split; [reflexivity |]. split; [reflexivity |].
    intros body s Hb. rewrite Hb, statusOfValue_name. reflexivity.
  - intros bet Hb.
    unfold Routes.getBetRoute, Routes.deleteBetRoute, Routes.putBetStatusRoute.
    cbn [Routes.storage_getBetById Routes.storage_deleteBet
         Routes.storage_updateBetStatus Routes.MemStorage].
    unfold getBetById, deleteBet, updateBetStatus. rewrite Hb. cbn [fst snd].
    split; [reflexivity |]. split; [| split; [reflexivity |]].
    + intros body s Hs. rewrite Hs, statusOfValue_name. cbn [fst snd].
      rewrite lookup_insert_eq. split; reflexivity.
    + rewrite lookup_delete_eq. reflexivity.
  - intros body. unfold Routes.putBetStatusRoute.
    cbn [Routes.storage_updateBetStatus Routes.MemStorage].
    unfold updateBetStatus.
    destruct body as [| | b | x | t | items | fields]; cbn [getProp nullish];
      try (split; [discriminate | discriminate]);
      try (split; reflexivity).
    destruct (Routes.statusOfValue (lookupField (lit "status") fields));
      [destruct (bets !! id) |]; cbn; split; discriminate.
Qed.

Lemma bet_routes_witness :
  Routes.getBetRoute (lit "2")
    ({[ lit "1" := Samples.leg PosA pending "100" "250" ]} : gmap jsstring Bet)
  = ({| Routes.statusCode := 404; Routes.payload := Routes.ErrorJson "Bet not found" |},
     {[ lit "1" := Samples.leg PosA pending "100" "250" ]}).
Proof.
  apply (proj1 (bet_routes_over_MemStorage (lit "2")
                  {[ lit "1" := Samples.leg PosA pending "100" "250" ]})).
  apply lookup_singleton_ne. discriminate.
Defined.

(** ** The text of the raw OCR route *)

Lemma jsval_induction (P : jsval -> Prop) :
  P VUndefined -> P VNull -> (forall b, P (VBool b)) -> (forall x, P (VNum x)) ->
  (forall s, P (VStr s)) ->
  (forall items, List.Forall P items -> P (VArr items)) ->
  (forall fields, P (VObj fields)) ->
  forall v, P v.
Proof.
  intros HU HN HB HX HS HA HO. fix IH 1.
  intros [| | b | x | s | items | fields];
    [exact HU | exact HN | apply HB | apply HX | apply HS | | apply HO].
  apply HA. induction items as [| item items IHitems]; constructor;
    [apply IH | exact IHitems].
Qed.

Lemma nullish_printable (v : jsval) : nullish v = true -> printable v = true.
Proof. destruct v; try discriminate; reflexivity. Qed.

(** The conversion throws exactly on the values that are not printable. *)
Lemma toText_cases (numberToString : number -> jsstring) (v : jsval) :
  if printable v then exists text, Routes.toText numberToString v = Normal text
  else Routes.toText numberToString v = Throw TypeError.
Proof.
  induction v as [| | b | x | s | items IH | fields] using jsval_induction;
    try (cbn; eexists; reflexivity).
  - cbn [printable Routes.toText].
    induction IH as [| item items Hitem Hitems IHitems]; [eexists; reflexivity |].
    destruct (nullish item) eqn:N.
    + rewrite (nullish_printable item N). cbn [andb].
      destruct items as [| next items]; [eexists; reflexivity |].
      destruct (printable (VArr (next :: items))) eqn:E;
        cbn [printable] in E; rewrite E in IHitems |- *.
      * destruct IHitems as [more ->]. eexists. reflexivity.
      * rewrite IHitems. reflexivity.
    + destruct (printable item).
      * destruct Hitem as [text ->]. cbn [andb].
        destruct items as [| next items]; [eexists; reflexivity |].
        destruct (printable (VArr (next :: items))) eqn:E;
          cbn [printable] in E; rewrite E in IHitems |- *.
        -- destruct IHitems as [more ->]. eexists. reflexivity.
        -- rewrite IHitems. reflexivity.
      * cbn [andb]. cbv beta iota in Hitem. rewrite Hitem. reflexivity.
  - cbn [printable Routes.toText].
    destruct (Routes.hasOwn (lit "toString") fields); cbn [negb];
      [reflexivity | eexists; reflexivity].
Qed.

Lemma labelled_cases (numberToString : number -> jsstring) (label : string)
    (v : jsval) :
  if unprintable v then Routes.labelled numberToString label v = Throw TypeError
  else exists line, Routes.labelled numberToString label v = Normal line.
Proof.
  unfold unprintable, Routes.labelled, orElse.
  destruct (truthy v); cbn [andb].
  - pose proof (toText_cases numberToString v) as T.
    destruct (printable v); cbn [negb].
    + destruct T as [text ->]. eexists. reflexivity.
    + rewrite T. reflexivity.
  - eexists. reflexivity.
Qed.

Lemma getProp_value (data : jsval) (field : string) :
  nullish data = false -> getProp data field = Normal (topValue data field).
Proof. destruct data; try discriminate; reflexivity. Qed.

Lemma optionalField_value (data : jsval) (leg field : string) :
  nullish data = false ->
  Routes.optionalField data leg field = Normal (legValue data leg field).
Proof.
  intros H. unfold legValue, Routes.optionalField.
  rewrite (getProp_value data leg H). cbn [mbind Completion_bind].
  destruct (nullish (topValue data leg)) eqn:N; [reflexivity |].
  rewrite (getProp_value _ field N). reflexivity.
Qed.

Ltac print_line :=
  match goal with
  | |- context [Routes.labelled ?n ?label ?v] =>
      generalize (labelled_cases n label v);
      destruct (unprintable v);
      [ intros ->; reflexivity
      | intros [? ->]; cbn [mbind Completion_bind orb] ]
  end.

Lemma formatToText_cases (numberToString : number -> jsstring) (data : jsval) :
  nullish data = false ->
  if List.existsb unprintable (printedValues data)
  then Routes.formatToText numberToString data = Throw TypeError
  else exists text, Routes.formatToText numberToString data = Normal text.
Proof.
  intros H.
  unfold Routes.formatToText, Routes.legLines, Routes.topLine, Routes.legLine.
  rewrite !(getProp_value data _ H), !(optionalField_value data _ _ H).
  unfold printedValues, legFields.
  cbn [List.map List.app List.existsb mbind Completion_bind].
  do 17 print_line.
  eexists. reflexivity.
Qed.

(** X17. [formatToText] of the route /api/ocr/raw throws a TypeError on
    [undefined] and [null]; on any other extraction result it throws
    exactly when one of the values it prints is truthy and cannot be
    converted to a string, which is so exactly for a value that holds an
    object with an own property [toString]; a missing leg prints empty
    fields and never makes it throw. On the object whose [teamA] is
    [{"toString": null}] it throws while [convertClaudeToOCRFormat]
    answers. *)
Theorem formatToText_throws_iff
    (numberToString : number -> jsstring) (data : jsval) :
  (nullish data = true ->
   Routes.formatToText numberToString data = Throw TypeError) /\
  (nullish data = false ->
   (Routes.formatToText numberToString data = Throw TypeError <->
    List.existsb unprintable (printedValues data) = true) /\
   ((exists text, Routes.formatToText numberToString data = Normal text) <->
    List.existsb unprintable (printedValues data) = false)) /\
  (forall v : jsval,
      Routes.toText numberToString v = Throw TypeError <-> printable v = false) /\
  (forall (leg field : string),
      nullish (topValue data leg) = true ->
      unprintable (legValue data leg field) = false) /\
  (Routes.formatToText numberToString
     (VObj [(lit "teamA", VObj [(lit "toString", VNull)]);
            (lit "betA", VObj []); (lit "betB", VObj [])])
   = Throw TypeError /\
   exists r,
     convertClaudeToOCRFormat
       (VObj [(lit "teamA", VObj [(lit "toString", VNull)]);
              (lit "betA", VObj []); (lit "betB", VObj [])])
     = Normal r).
Proof.
  split; [destruct data; try discriminate; reflexivity |].
  split; [| split; [| split]].
  - intros H. pose proof (formatToText_cases numberToString data H) as C.
    destruct (List.existsb unprintable (printedValues data)).
    + split; [tauto |]. rewrite C. split; [intros [text E] |]; discriminate.
    + destruct C as [text C]. rewrite C.
      split; [split; discriminate |]. split; [reflexivity | eauto].
  - intros v. pose proof (toText_cases numberToString v) as T.
    destruct (printable v).
    + destruct T as [text ->]. split; discriminate.
    + tauto.
  - intros leg field N. unfold legValue, Routes.optionalField, topValue in *.
    destruct (getProp data leg) as [l | e]; cbn [mbind Completion_bind valueOr] in *;
      [rewrite N |]; reflexivity.
  - split; [reflexivity | eexists; reflexivity].
Qed.

Lemma formatToText_witness :
  exists text,
    Routes.formatToText (fun _ => lit "0") (VObj [(lit "teamA", str "Flamengo")])
    = Normal text.
Proof.
  apply (proj2 (proj2 (proj1 (proj2 (formatToText_throws_iff (fun _ => lit "0")
                                       (VObj [(lit "teamA", str "Flamengo")])))
                         eq_refl))).
  reflexivity.
Defined.

(** ** The media type of an image *)

Lemma startsWith_units (p s : jsstring) :
  Routes.startsWith p s = true -> forall c, In c p -> In c s.
Proof.
  revert s. induction p as [| d p IH]; intros s H c I; [destruct I |].
  destruct s as [| e s]; [discriminate |]. cbn in H.
  apply andb_prop in H as [E H]. apply N.eqb_eq in E. subst e.
  destruct I as [<- | I]; [left; reflexivity | right; exact (IH s H c I)].
Qed.

Lemma includesText_units (needle s : jsstring) :
  Routes.includesText needle s = true -> forall c, In c needle -> In c s.
Proof.
  induction s as [| e s IH]; intros H c I.
  - cbn in H. rewrite orb_false_r in H. exact (startsWith_units _ _ H c I).
  - cbn [Routes.includesText] in H. apply orb_prop in H as [H | H].
    + exact (startsWith_units _ _ H c I).
    + right. exact (IH H c I).
Qed.

Lemma includesText_without (c : codeunit) (needle s : jsstring) :
  In c needle -> ~ In c s -> Routes.includesText needle s = false.
Proof.
  intros I Hn. apply not_true_is_false. intros H.
  exact (Hn (includesText_units needle s H c I)).
Qed.

Lemma afterFirst_includes (sep s : jsstring) :
  Routes.includesText sep s = false -> Routes.afterFirst sep s = None.
Proof.
  induction s as [| e s IH]; cbn [Routes.includesText Routes.afterFirst]; intros H;
    apply orb_false_elim in H as [H1 H2]; rewrite H1; [reflexivity | exact (IH H2)].
Qed.

Lemma includesText_cons (needle : jsstring) (c : codeunit) (s : jsstring) :
  Routes.includesText needle (c :: s)
  = Routes.startsWith needle (c :: s) || Routes.includesText needle s.
Proof. reflexivity. Qed.

Lemma base64_without (c : codeunit) (payload : jsstring) :
  Routes.isBase64Unit c = false ->
  List.forallb Routes.isBase64Unit payload = true -> ~ In c payload.
Proof.
  intros Hc Hp I. rewrite List.forallb_forall in Hp.
  rewrite (Hp c I) in Hc. discriminate.
Qed.

(** The test on the magic characters, alone. *)
Lemma detect_plain (payload : jsstring) :
  List.forallb Routes.isBase64Unit payload = true ->
  Routes.detectImageMediaType payload = mediaTypeOfMagic payload.
Proof.
  intros Hp. unfold Routes.detectImageMediaType, Routes.cleanBase64, mediaTypeOfMagic.
  assert (Colon : ~ In 58 payload) by (apply base64_without; [reflexivity | exact Hp]).
  assert (Comma : ~ In 44 payload) by (apply base64_without; [reflexivity | exact Hp]).
  rewrite (includesText_without 58 (lit "data:image/png") payload),
    (includesText_without 58 (lit "data:image/webp") payload),
    (includesText_without 58 (lit "data:image/gif") payload),
    (includesText_without 58 (lit "data:image/jpeg") payload),
    (includesText_without 58 (lit "data:image/jpg") payload);
    try exact Colon; try (cbn; tauto).
  cbn [orb].
  rewrite (afterFirst_includes (lit "base64,") payload);
    [| apply (includesText_without 44); [cbn; tauto | exact Comma]].
  destruct (Routes.startsWith (lit "iVBOR") payload); [reflexivity |].
  destruct (Routes.startsWith (lit "R0lGOD") payload); [reflexivity |].
  destruct (Routes.startsWith (lit "UklGR") payload); [reflexivity |].
  destruct (Routes.startsWith (lit "/9j/") payload || Routes.startsWith (lit "FFD8") payload);
    reflexivity.
Qed.

Lemma beforeFirst_without (sep s : jsstring) :
  Routes.includesText sep s = false -> Routes.beforeFirst sep s = s.
Proof.
  induction s as [| e s IH]; cbn [Routes.includesText Routes.beforeFirst]; intros H;
    apply orb_false_elim in H as [H1 H2]; rewrite H1; [reflexivity |].
  f_equal. exact (IH H2).
Qed.

(** A marker of another type does not occur in the head of a data URL. *)
Ltac skip_head marker mediaType payload :=
  change (Routes.includesText (lit marker) (dataUrl (lit mediaType) payload))
    with (Routes.includesText (lit marker) payload).

(** X18. On base64 text the media type is read off the first characters
    alone, JPEG when they are none of the known ones; in a data URL the
    declared type wins, whatever the payload starts with, and a type that
    is none of the four is passed over for the first characters of the
    payload. *)
Theorem detectImageMediaType_of_base64 (payload : jsstring) :
  List.forallb Routes.isBase64Unit payload = true ->
  Routes.detectImageMediaType payload = mediaTypeOfMagic payload /\
  Routes.detectImageMediaType (dataUrl (lit "image/png") payload) = Routes.ImagePng /\
  Routes.detectImageMediaType (dataUrl (lit "image/webp") payload) = Routes.ImageWebp /\
  Routes.detectImageMediaType (dataUrl (lit "image/gif") payload) = Routes.ImageGif /\
  Routes.detectImageMediaType (dataUrl (lit "image/jpeg") payload) = Routes.ImageJpeg /\
  Routes.detectImageMediaType (dataUrl (lit "image/bmp") payload)
  = mediaTypeOfMagic payload.
Proof.
  intros Hp. split; [exact (detect_plain payload Hp) |].
  assert (Colon : ~ In 58 payload) by (apply base64_without; [reflexivity | exact Hp]).
  assert (Comma : ~ In 44 payload) by (apply base64_without; [reflexivity | exact Hp]).
  assert (M : forall marker, In 58 (lit marker) ->
                             Routes.includesText (lit marker) payload = false).
  { intros marker I. exact (includesText_without 58 _ payload I Colon). }
  split; [reflexivity |].
  split; [| split; [| split]]; unfold Routes.detectImageMediaType.
  - skip_head "data:image/png"%string "image/webp"%string payload.
    rewrite (M "data:image/png"%string) by (cbn; tauto). reflexivity.
  - skip_head "data:image/png"%string "image/gif"%string payload.
    skip_head "data:image/webp"%string "image/gif"%string payload.
    rewrite (M "data:image/png"%string), (M "data:image/webp"%string) by (cbn; tauto).
    reflexivity.
  - skip_head "data:image/png"%string "image/jpeg"%string payload.
    skip_head "data:image/webp"%string "image/jpeg"%string payload.
    skip_head "data:image/gif"%string "image/jpeg"%string payload.
    rewrite (M "data:image/png"%string), (M "data:image/webp"%string),
      (M "data:image/gif"%string) by (cbn; tauto).
    reflexivity.
  - skip_head "data:image/png"%string "image/bmp"%string payload.
    skip_head "data:image/webp"%string "image/bmp"%string payload.
    skip_head "data:image/gif"%string "image/bmp"%string payload.
    skip_head "data:image/jpeg"%string "image/bmp"%string payload.
    skip_head "data:image/jpg"%string "image/bmp"%string payload.
    rewrite (M "data:image/png"%string), (M "data:image/webp"%string),
      (M "data:image/gif"%string), (M "data:image/jpeg"%string),
      (M "data:image/jpg"%string) by (cbn; tauto).
    cbn [orb].
    assert (C : Routes.cleanBase64 (dataUrl (lit "image/bmp") payload) = payload).
    { unfold Routes.cleanBase64.
      change (Routes.afterFirst (lit "base64,") (dataUrl (lit "image/bmp") payload))
        with (Some payload).
      apply beforeFirst_without, (includesText_without 44); [cbn; tauto | exact Comma]. }
    rewrite C. unfold mediaTypeOfMagic.
    destruct (Routes.startsWith (lit "iVBOR") payload); [reflexivity |].
    destruct (Routes.startsWith (lit "R0lGOD") payload); [reflexivity |].
    destruct (Routes.startsWith (lit "UklGR") payload); [reflexivity |].
    destruct (Routes.startsWith (lit "/9j/") payload || Routes.startsWith (lit "FFD8") payload);
      reflexivity.
Qed.

Lemma detectImageMediaType_witness :
  Routes.detectImageMediaType (dataUrl (lit "image/webp") (lit "iVBORw0KGgo="))
  = Routes.ImageWebp.
Proof.
  apply (proj1 (proj2 (proj2 (detectImageMediaType_of_base64 (lit "iVBORw0KGgo=") eq_refl)))).
Defined.

(** ** The three views of a pair *)

(** X19. The dashboard, the reports and the bet management agree on a
    pair of an A leg and a B leg: it is pending in one exactly when it is
    pending in the others; the reports count it as won exactly when the
    dashboard shows it won, and as lost exactly when the dashboard shows it
    lost or returned; the status of the bet management does not depend on
    the order of the legs. *)
Theorem views_agree_on_a_pair
    (Number : jsstring -> number) (a b : Bet) (t : Reports.Totals) :
  isA a = true -> isB b = true ->
  exists v t',
    pairStat Number [a; b] = Some v /\
    Reports.addPair Number t [a; b] = Normal t' /\
    (ps_status v = pending <->
     BetManagement.calculatePairStatus a b = BetManagement.PairPending) /\
    (ps_status v = pending <->
     Reports.t_pendingPairs t' = Datatypes.S (Reports.t_pendingPairs t)) /\
    (ps_status v = won <->
     Reports.t_wonPairs t' = Datatypes.S (Reports.t_wonPairs t)) /\
    (ps_status v = lost \/ ps_status v = returned <->
     Reports.t_lostPairs t' = Datatypes.S (Reports.t_lostPairs t)) /\
    BetManagement.calculatePairStatus a b = BetManagement.calculatePairStatus b a.
Proof.
  intros PA PB.
  assert (QB : isB a = false)
    by (revert PA; unfold isA, isB; destruct (betPosition a); cbn; congruence).
  assert (QA : isA b = false)
    by (revert PB; unfold isA, isB; destruct (betPosition b); cbn; congruence).
  unfold pairStat, sortByPosition, Reports.addPair, BetManagement.calculatePairStatus.
  cbn [List.filter List.app List.find]. rewrite PA, PB, QA, QB.
  cbn [List.filter List.app List.find]. rewrite PA, PB, QB.
  destruct (status a), (status b); cbn;
    eexists; eexists; (split; [reflexivity |]); (split; [reflexivity |]); cbn;
    repeat split; intros; try congruence; try lia; try tauto;
    try (exfalso; intuition (congruence || lia)).
Qed.

Lemma views_agree_witness :
  exists v t',
    pairStat NumberDecimal
      [Samples.leg PosA won "100" "250"; Samples.leg PosB lost "100" "0"] = Some v /\
    Reports.addPair NumberDecimal Reports.noTotals
      [Samples.leg PosA won "100" "250"; Samples.leg PosB lost "100" "0"] = Normal t' /\
    (ps_status v = won <-> Reports.t_wonPairs t' = 1%nat).
Proof.
  destruct (views_agree_on_a_pair NumberDecimal
              (Samples.leg PosA won "100" "250") (Samples.leg PosB lost "100" "0")
              Reports.noTotals eq_refl eq_refl)
    as (v & t' & Hv & Ht & _ & _ & W & _).
  exists v, t'. repeat split; try assumption; apply W.
Defined.

(** ** Pair validation *)

Lemma opt_eqb_str (x y : option jsstring) :
  PairValidation.opt_eqb str_eqb x y = true <-> x = y.
Proof.
  destruct x as [x |], y as [y |]; cbn; try (split; congruence).
  split; [intros H; apply str_eqb_eq in H; congruence |].
  intros [= ->]. apply str_eqb_refl.
Qed.

Lemma opt_eqb_position (x y : option BetPosition) :
  PairValidation.opt_eqb position_eqb x y = true <-> x = y.
Proof.
  destruct x as [[|] |], y as [[|] |]; cbn; split; congruence.
Qed.

Lemma opt_eqb_str_sym (x y : option jsstring) :
  PairValidation.opt_eqb str_eqb x y = PairValidation.opt_eqb str_eqb y x.
Proof.
  destruct (PairValidation.opt_eqb str_eqb x y) eqn:E1,
    (PairValidation.opt_eqb str_eqb y x) eqn:E2; try reflexivity.
  - apply opt_eqb_str in E1. subst y.
    rewrite (proj2 (opt_eqb_str x x) eq_refl) in E2. discriminate.
  - apply opt_eqb_str in E2. subst y.
    rewrite (proj2 (opt_eqb_str x x) eq_refl) in E1. discriminate.
Qed.

Lemma opt_eqb_position_sym (x y : option BetPosition) :
  PairValidation.opt_eqb position_eqb x y = PairValidation.opt_eqb position_eqb y x.
Proof. destruct x as [[|] |], y as [[|] |]; reflexivity. Qed.

Lemma validateBetPair_nil (betA betB : PairValidation.PartialBet) :
  PairValidation.validateBetPair betA betB = [] <->
  PairValidation.p_pairId betA = PairValidation.p_pairId betB /\
  PairValidation.p_teamA betA = PairValidation.p_teamA betB /\
  PairValidation.p_teamB betA = PairValidation.p_teamB betB /\
  PairValidation.p_betPosition betA <> PairValidation.p_betPosition betB.
Proof.
  unfold PairValidation.validateBetPair.
  rewrite <- !opt_eqb_str.
  rewrite <- (opt_eqb_position (PairValidation.p_betPosition betA)).
  destruct (PairValidation.opt_eqb str_eqb (PairValidation.p_pairId betA) _),
    (PairValidation.opt_eqb str_eqb (PairValidation.p_teamA betA) _),
    (PairValidation.opt_eqb str_eqb (PairValidation.p_teamB betA) _),
    (PairValidation.opt_eqb position_eqb _ _); cbn;
    split; try discriminate; try tauto; intuition congruence.
Qed.

(** X20. [validateBetPair] answers no error exactly when the two bets have
    the same pair id and the same two team names, as written, and
    different positions; it does not depend on the order of the two bets;
    a bet never forms a valid pair with itself; and the two messages on
    the positions come together or not at all. *)
Theorem validateBetPair_accepts (betA betB : PairValidation.PartialBet) :
  (PairValidation.validateBetPair betA betB = [] <->
   PairValidation.p_pairId betA = PairValidation.p_pairId betB /\
   PairValidation.p_teamA betA = PairValidation.p_teamA betB /\
   PairValidation.p_teamB betA = PairValidation.p_teamB betB /\
   PairValidation.p_betPosition betA <> PairValidation.p_betPosition betB) /\
  PairValidation.validateBetPair betA betB = PairValidation.validateBetPair betB betA /\
  PairValidation.validateBetPair betA betA
  = ["Apostas devem ser em lados opostos"%string;
     "Posições das apostas devem ser diferentes (A e B)"%string] /\
  (In "Apostas devem ser em lados opostos"%string
      (PairValidation.validateBetPair betA betB) <->
   In "Posições das apostas devem ser diferentes (A e B)"%string
      (PairValidation.validateBetPair betA betB)).
Proof.
  split; [| split; [| split]].
  - apply validateBetPair_nil.
  - unfold PairValidation.validateBetPair.
    rewrite (opt_eqb_str_sym (PairValidation.p_pairId betA)),
      (opt_eqb_str_sym (PairValidation.p_teamA betA)),
      (opt_eqb_str_sym (PairValidation.p_teamB betA)),
      (opt_eqb_position_sym (PairValidation.p_betPosition betA)).
    reflexivity.
  - unfold PairValidation.validateBetPair.
    rewrite !(proj2 (opt_eqb_str _ _) eq_refl), (proj2 (opt_eqb_position _ _) eq_refl).
    reflexivity.
  - unfold PairValidation.validateBetPair.
    destruct (PairValidation.opt_eqb str_eqb (PairValidation.p_pairId betA) _),
      (PairValidation.opt_eqb str_eqb (PairValidation.p_teamA betA) _),
      (PairValidation.opt_eqb str_eqb (PairValidation.p_teamB betA) _),
      (PairValidation.opt_eqb position_eqb _ _); cbn;
      split; intros I; repeat (destruct I as [I | I]; try discriminate I); tauto.
Qed.

(** ** Saving a verified pair *)

Lemma missing_orNull (s : option jsstring) :
  BetCard.missing (orNull s) = BetCard.missing s.
Proof. destruct s as [[| c s] |]; reflexivity. Qed.

(** X21. The two bets that [handleOCRConfirm] saves through the route and
    the in-memory store: both are stored under their ids, as the pending,
    verified A leg and B leg of the minted pair, with the same game date;
    the dashboard shows them as one complete pending pair with net result
    0; their selected side is never empty, and the card names team B as the
    selected team of either leg unless its bet type reads "A", and team A
    when it does; [validateBetPair] accepts them exactly when the team
    names of the two legs of the form are the same as written. *)
Theorem savePair_stores_a_pair
    (Number : jsstring -> number) (toFixed2 numberToString : number -> jsstring)
    (envA envB : Env) (minted : jsstring) (data : OCRData) (bets : gmap jsstring Bet) :
  randomUUID envA <> randomUUID envB ->
  let saved := Confirm.savePair Number toFixed2 numberToString envA envB minted data bets in
  let betA := fst (fst saved) in
  let betB := snd (fst saved) in
  getBetById (id betA) (snd saved) = Some betA /\
  getBetById (id betB) (snd saved) = Some betB /\
  pairId betA = minted /\ pairId betB = minted /\
  betPosition betA = PosA /\ betPosition betB = PosB /\
  status betA = pending /\ status betB = pending /\
  isVerified betA = true /\ isVerified betB = true /\
  gameDate betA = gameDate betB /\
  selectedSide betA <> [] /\ selectedSide betB <> [] /\
  (o_betType (o_betA data) <> lit "A" ->
   BetCard.getSelectedTeam betA = o_teamB (o_betA data)) /\
  (o_betType (o_betB data) <> lit "A" ->
   BetCard.getSelectedTeam betB = o_teamB (o_betB data)) /\
  (o_betType (o_betA data) = lit "A" ->
   BetCard.getSelectedTeam betA = o_teamA (o_betA data)) /\
  (o_betType (o_betB data) = lit "A" ->
   BetCard.getSelectedTeam betB = o_teamA (o_betB data)) /\
  pairStat Number [betA; betB]
  = Some {| ps_pairId := minted;
            ps_status := pending;
            ps_totalStake := Confirm.confirmTotalStake Number data;
            ps_netResult := 0%float;
            ps_gameDate := gameDate betA;
            ps_incomplete := false |} /\
  (PairValidation.validateBetPair (Confirm.asPartial betA) (Confirm.asPartial betB) = []
   <-> o_teamA (o_betA data) = o_teamA (o_betB data) /\
       o_teamB (o_betA data) = o_teamB (o_betB data)).
Proof.
  intros Hne. cbn zeta.
  unfold Confirm.savePair, Confirm.saveLegA, createBet, getBetById. cbn [fst snd id].
  split; [rewrite lookup_insert_ne by congruence; apply lookup_insert_eq |].
  split; [apply lookup_insert_eq |].
  cbn [pairId betPosition status isVerified gameDate selectedSide Routes.postBetData
         Confirm.betAData Confirm.betBData Confirm.legData
         i_pairId i_betPosition i_status i_isVerified i_gameDate i_selectedSide
         i_betType default].
  do 9 (split; [reflexivity |]).
  split; [destruct (o_betType (o_betA data)); discriminate |].
  split; [destruct (o_betType (o_betB data)); discriminate |].
  split; [| split; [| split; [| split; [| split]]]].
  - intros HA. unfold BetCard.getSelectedTeam.
    cbn [selectedSide teamA teamB Routes.postBetData Confirm.betAData Confirm.legData
           i_selectedSide i_betType i_teamA i_teamB].
    destruct (o_betType (o_betA data)) as [| c s] eqn:E; cbn [isEmpty negb].
    + reflexivity.
    + rewrite str_eqb_neq; [reflexivity | exact HA].
  - intros HB. unfold BetCard.getSelectedTeam.
    cbn [selectedSide teamA teamB Routes.postBetData Confirm.betBData Confirm.legData
           i_selectedSide i_betType i_teamA i_teamB].
    destruct (o_betType (o_betB data)) as [| c s] eqn:E; cbn [isEmpty negb].
    + reflexivity.
    + rewrite str_eqb_neq; [reflexivity | exact HB].
  - intros HA. unfold BetCard.getSelectedTeam.
    cbn [selectedSide teamA teamB Routes.postBetData Confirm.betAData Confirm.legData
           i_selectedSide i_betType i_teamA i_teamB].
    rewrite HA. reflexivity.
  - intros HB. unfold BetCard.getSelectedTeam.
    cbn [selectedSide teamA teamB Routes.postBetData Confirm.betBData Confirm.legData
           i_selectedSide i_betType i_teamA i_teamB].
    rewrite HB. reflexivity.
  - reflexivity.
  - rewrite validateBetPair_nil. cbn. intuition congruence.
Qed.

Lemma savePair_witness :
  pairId (fst (fst (Confirm.savePair NumberDecimal (fun _ => lit "250.00")
                      (fun _ => lit "200") Samples.env0
                      {| randomUUID := lit "c9f2";
                         now := now Samples.env0;
                         stamp := stamp Samples.env0 |}
                      (lit "k3x9") (Samples.form [] [] [] []) ∅)))
  = lit "k3x9".
Proof.
  apply (savePair_stores_a_pair NumberDecimal (fun _ => lit "250.00")
           (fun _ => lit "200") Samples.env0
           {| randomUUID := lit "c9f2";
              now := now Samples.env0;
              stamp := stamp Samples.env0 |}
           (lit "k3x9") (Samples.form [] [] [] []) ∅).
  discriminate.
Defined.

(** X22. The card of a bet shows the figures of its pair exactly when the
    bet was created with a total pair stake and a profit percentage that
    are both non-empty; the legs saved by [handleOCRConfirm] have them
    whenever numbers print as non-empty text, and the total stake on their
    cards is the printed total read back. *)
Theorem getPairProfitInfo_of_created
    (Number : jsstring -> number) (env : Env) (insertBet : InsertBet)
    (bets : gmap jsstring Bet) :
  (BetCard.getPairProfitInfo Number (fst (createBet env insertBet bets)) = None <->
   BetCard.missing (i_totalPairStake insertBet) = true \/
   BetCard.missing (i_profitPercentage insertBet) = true) /\
  (forall (toFixed2 numberToString : number -> jsstring) (minted : jsstring)
          (data : OCRData),
      (forall x, numberToString x <> []) ->
      insertBet
      = Routes.postBetData (Confirm.betAData Number toFixed2 numberToString minted data) ->
      exists info,
        BetCard.getPairProfitInfo Number (fst (createBet env insertBet bets)) = Some info /\
        BetCard.info_totalStake info
        = Number (numberToString (Confirm.confirmTotalStake Number data)) /\
        BetCard.info_netProfit info
        = (Number (toFixed2 (Confirm.confirmPayout Number (o_betA data)))
           - Number (numberToString (Confirm.confirmTotalStake Number data)))%float).
Proof.
  split.
  - unfold BetCard.getPairProfitInfo, createBet.
    cbn [fst totalPairStake profitPercentage]. rewrite !missing_orNull.
    destruct (BetCard.missing (i_totalPairStake insertBet)),
      (BetCard.missing (i_profitPercentage insertBet)); cbn;
      split; try discriminate; try tauto; intros [H | H]; discriminate H.
  - intros toFixed2 numberToString minted data Hp ->.
    unfold BetCard.getPairProfitInfo, createBet.
    cbn [fst totalPairStake profitPercentage payout Routes.postBetData
           Confirm.betAData Confirm.legData i_totalPairStake i_profitPercentage
           i_payout orNull].
    pose proof (Hp (Confirm.confirmTotalStake Number data)) as H1.
    pose proof (Hp (Confirm.confirmPercentage Number data (o_betA data))) as H2.
    destruct (numberToString (Confirm.confirmTotalStake Number data)) as [| c1 s1];
      [contradiction |].
    destruct (numberToString (Confirm.confirmPercentage Number data (o_betA data)))
      as [| c2 s2]; [contradiction |].
    cbn. eexists. split; [reflexivity |]. split; reflexivity.
Qed.

Lemma getPairProfitInfo_witness :
  exists info,
    BetCard.getPairProfitInfo NumberDecimal
      (fst (createBet Samples.env0
              (Routes.postBetData
                 (Confirm.betAData NumberDecimal (fun _ => lit "250.00")
                    (fun _ => lit "200") (lit "k3x9") (Samples.form [] [] [] [])))
              ∅))
    = Some info /\
    BetCard.info_totalStake info = 200%float.
Proof.
  destruct (proj2 (getPairProfitInfo_of_created NumberDecimal Samples.env0
                     (Routes.postBetData
                        (Confirm.betAData NumberDecimal (fun _ => lit "250.00")
                           (fun _ => lit "200") (lit "k3x9") (Samples.form [] [] [] [])))
                     ∅)
              (fun _ => lit "250.00") (fun _ => lit "200") (lit "k3x9")
              (Samples.form [] [] [] [])
              ltac:(discriminate) eq_refl)
    as (info & Hi & Ht & _).
  exists info. split; [exact Hi |]. rewrite Ht. reflexivity.
Defined.

(** ** The accepted form *)

(** A number that is not NaN and not [<= 0] is [> 0]. *)
Lemma gt_zero_of_not_le (x : number) :
  isNaN x = false -> le x 0%float = false -> gt x 0%float = true.
Proof.
  unfold isNaN, le, gt, PrimFloat.is_nan.
  rewrite FloatAxioms.eqb_spec, FloatAxioms.leb_spec, FloatAxioms.ltb_spec.
  change (Prim2SF 0%float) with (S754_zero false).
  destruct (Prim2SF x) as [s | s | | s m e]; cbn; try destruct s; cbn; congruence.
Qed.

Lemma gt_zero_not_le (x : number) :
  gt x 0%float = true -> isNaN x = false /\ le x 0%float = false.
Proof.
  unfold isNaN, le, gt, PrimFloat.is_nan.
  rewrite FloatAxioms.eqb_spec, FloatAxioms.leb_spec, FloatAxioms.ltb_spec.
  change (Prim2SF 0%float) with (S754_zero false).
  destruct (Prim2SF x) as [s | s | | s m e]; cbn; try destruct s; cbn;
    try discriminate; intros _; split; try reflexivity.
  rewrite Z.compare_refl, Pos.compare_refl. reflexivity.
Qed.

Lemma when_app_nil (cond : bool) (key msg : string) (l : Errors) :
  when cond key msg ++ l = [] <-> cond = false /\ l = [].
Proof.
  destruct cond; cbn; split; try discriminate; try tauto.
  intros [H _]. discriminate H.
Qed.

Lemma when_nil (cond : bool) (key msg : string) :
  when cond key msg = [] <-> cond = false.
Proof. destruct cond; cbn; split; congruence. Qed.

Lemma isEmpty_false (s : jsstring) : isEmpty s = false <-> s <> [].
Proof. destruct s; cbn; split; congruence. Qed.

(** The fields of a leg that the form accepts. *)
Lemma validateBetFields_nil (Number : jsstring -> number) (prefix : string)
    (bet : SingleBetOCR) :
  validateBetFields Number prefix bet = [] <-> legAccepted Number bet.
Proof.
  unfold validateBetFields, legAccepted.
  rewrite !when_app_nil, when_nil, !orb_false_iff, !isEmpty_false.
  split.
  - intros (H1 & H2 & H3 & H4 & ((H5 & H5n) & H5l) & ((H6 & H6n) & H6l) & H7 & H7n).
    repeat split; try assumption; apply gt_zero_of_not_le; assumption.
  - intros (H1 & H2 & H3 & H4 & H5 & H5g & H6 & H6g & H7 & H7n).
    apply gt_zero_not_le in H5g as [? ?]. apply gt_zero_not_le in H6g as [? ?].
    repeat split; assumption.
Qed.

(** X23. The form is accepted, and handed to [onConfirm], exactly when
    each leg has a non-blank house, team names and bet type, odds and a
    stake that read as numbers above 0 and a profit that reads as a number,
    the game date, the sport, the league and the total percentage are
    filled in, and on each side the trimmed team names of the two legs
    have one lower-case form, whatever [toLowerCase] is. *)
Theorem validateForm_accepts_iff
    (Number : jsstring -> number) (toLowerCase : jsstring -> jsstring)
    (formData : OCRData) :
  (snd (validateForm Number toLowerCase formData) = true <->
   legAccepted Number (o_betA formData) /\
   legAccepted Number (o_betB formData) /\
   o_gameDate formData <> IsString [] /\
   trim (o_sport formData) <> [] /\
   trim (o_league formData) <> [] /\
   o_totalProfitPercentage formData <> [] /\
   isNaN (Number (o_totalProfitPercentage formData)) = false /\
   toLowerCase (trim (o_teamA (o_betA formData)))
   = toLowerCase (trim (o_teamA (o_betB formData))) /\
   toLowerCase (trim (o_teamB (o_betA formData)))
   = toLowerCase (trim (o_teamB (o_betB formData)))) /\
  (snd (validateForm Number toLowerCase formData) = true <->
   fst (validateForm Number toLowerCase formData) = []) /\
  (handleSubmit Number toLowerCase formData = Some formData <->
   snd (validateForm Number toLowerCase formData) = true).
Proof.
  assert (F : snd (validateForm Number toLowerCase formData) = true <->
              fst (validateForm Number toLowerCase formData) = []).
  { unfold validateForm. cbn [fst snd].
    match goal with |- context [match ?l with [] => true | _ :: _ => false end] =>
      destruct l; split; congruence end. }
  split; [| split; [exact F |]].
  - rewrite F. unfold validateForm. cbn [fst].
    rewrite (app_nil (validateBetFields Number "betA" _)).
    rewrite (app_nil (validateBetFields Number "betB" _)).
    rewrite !validateBetFields_nil, !when_app_nil, when_nil, teamsDiffer_false.
    rewrite !orb_false_iff, !isEmpty_false.
    assert (D : match o_gameDate formData with
                | IsDate _ => false
                | IsString s => isEmpty s
                end = false <-> o_gameDate formData <> IsString []).
    { destruct (o_gameDate formData) as [d | [| c s]]; cbn; split; congruence. }
    rewrite D. clear D F.
    assert (S1 : trim (o_sport formData) <> [] -> o_sport formData <> [])
      by (intros H E; rewrite E in H; apply H; reflexivity).
    assert (S2 : trim (o_league formData) <> [] -> o_league formData <> [])
      by (intros H E; rewrite E in H; apply H; reflexivity).
    tauto.
  - unfold handleSubmit. destruct (snd (validateForm Number toLowerCase formData));
      split; congruence.
Qed.

(** ** Editing the form *)

Lemma utcDayMonthYear_format (value : JSDate) :
  FormState.utcDayMonthYear value = formatGameDate (IsDate value).
Proof. reflexivity. Qed.

Lemma utcDayMonthYear_not_empty (value : JSDate) :
  exists c s, FormState.utcDayMonthYear value = c :: s.
Proof.
  unfold FormState.utcDayMonthYear. cbn zeta.
  destruct (padStart 2 zeroDigit (natToString (getUTCDate value))) as [| c s];
    cbn; eauto.
Qed.

Lemma lookup_clearError_other (key k : string) (errs : Errors) :
  k <> key ->
  List.find (fun e => String.eqb (fst e) k) (FormState.clearError key errs)
  = List.find (fun e => String.eqb (fst e) k) errs.
Proof.
  intros Hk. induction errs as [| [k0 msg] errs IH]; [reflexivity |].
  cbn [FormState.clearError]. destruct (String.eqb k0 key) eqn:E.
  - apply String.eqb_eq in E. subst k0. cbn [List.find fst].
    destruct (String.eqb key k) eqn:E'; [| reflexivity].
    apply String.eqb_eq in E'. congruence.
  - cbn [List.find fst]. destruct (String.eqb k0 k); [reflexivity | exact IH].
Qed.

Lemma keys_clearError (key : string) (errs : Errors) :
  List.map fst (FormState.clearError key errs) = List.map fst errs.
Proof.
  induction errs as [| [k0 msg] errs IH]; [reflexivity |].
  cbn [FormState.clearError]. destruct (String.eqb k0 key); cbn; [reflexivity |].
  f_equal. exact IH.
Qed.

Lemma lookup_clearError_same (key : string) (errs : Errors) :
  match List.find (fun e => String.eqb (fst e) key) (FormState.clearError key errs) with
  | Some e => snd e = EmptyString
  | None => hasKey key errs = false
  end.
Proof.
  induction errs as [| [k0 msg] errs IH]; [reflexivity |].
  cbn [FormState.clearError]. unfold hasKey. cbn [List.existsb fst].
  destruct (String.eqb k0 key) eqn:E.
  - cbn [List.find fst]. rewrite E. cbn. destruct msg; reflexivity.
  - cbn [List.find fst]. rewrite E. cbn [orb]. exact IH.
Qed.

(** X24. Picking a date in the calendar: the form then shows the date as
    day-month-year of its UTC fields, which is the text that
    [handleOCRConfirm] will send for it, and the check of the game date
    passes; the message recorded for the field is emptied, the other
    messages and the keys stay; entering a non-empty time before or after
    the date leaves the same form data. *)
Theorem updateGameField_date
    (formatFallback : DateOrString -> option jsstring)
    (Number : jsstring -> number) (toLowerCase : jsstring -> jsstring)
    (value : JSDate) (st : FormState.State) :
  let st' := FormState.updateGameField (FormState.SetGameDate value) st in
  getDisplayDate formatFallback (FormState.formData st')
  = Some (formatGameDate (o_gameDate (FormState.formData st'))) /\
  hasKey "gameDate"
    (fst (validateForm Number toLowerCase (FormState.formData st'))) = false /\
  List.map fst (FormState.errors st') = List.map fst (FormState.errors st) /\
  (forall k, k <> "gameDate"%string ->
      List.find (fun e => String.eqb (fst e) k) (FormState.errors st')
      = List.find (fun e => String.eqb (fst e) k) (FormState.errors st)) /\
  (forall e, List.find (fun e => String.eqb (fst e) "gameDate") (FormState.errors st')
             = Some e -> snd e = EmptyString) /\
  (forall time,
      time <> [] ->
      FormState.formData
        (FormState.updateGameField (FormState.SetGameTime time) st')
      = FormState.formData
          (FormState.updateGameField (FormState.SetGameDate value)
             (FormState.updateGameField (FormState.SetGameTime time) st))).
Proof.
  cbn zeta. unfold FormState.updateGameField.
  cbn [FormState.formData FormState.errors FormState.gameFieldKey].
  split; [| split; [| split; [| split; [| split]]]].
  - unfold getDisplayDate, FormState.updatedGameData.
    cbn [o_gameDateFormatted o_gameDate].
    rewrite utcDayMonthYear_format.
    destruct (utcDayMonthYear_not_empty value) as (c & s & E).
    rewrite utcDayMonthYear_format in E. rewrite E. reflexivity.
  - unfold validateForm, validateBetFields. cbn [fst].
    unfold FormState.updatedGameData. cbn [o_gameDate].
    rewrite !hasKey_app, !hasKey_when. cbn [String.eqb Ascii.eqb Bool.eqb andb orb].
    rewrite !andb_false_r. reflexivity.
  - apply keys_clearError.
  - intros k Hk. apply lookup_clearError_other. exact Hk.
  - intros e He.
    pose proof (lookup_clearError_same "gameDate" (FormState.errors st)) as L.
    rewrite He in L. exact L.
  - intros time Ht. unfold FormState.updatedGameData.
    cbn [o_betA o_betB o_gameDate o_gameTime o_gameDateFormatted o_gameDateTime
           o_sport o_league o_totalProfitPercentage].
    destruct (utcDayMonthYear_not_empty value) as (c & s & E). rewrite E.
    destruct time as [| t0 time]; [contradiction |]. reflexivity.
Qed.

Lemma updateGameField_date_witness :
  FormState.formData
    (FormState.updateGameField (FormState.SetGameTime (lit "18:30"))
       (FormState.updateGameField
          (FormState.SetGameDate
             {| getUTCFullYear := 2025; getUTCMonth := 8; getUTCDate := 6 |})
          {| FormState.formData := Samples.form [] [] [] [];
             FormState.errors := [] |}))
  = FormState.formData
      (FormState.updateGameField
         (FormState.SetGameDate
            {| getUTCFullYear := 2025; getUTCMonth := 8; getUTCDate := 6 |})
         (FormState.updateGameField (FormState.SetGameTime (lit "18:30"))
            {| FormState.formData := Samples.form [] [] [] [];
               FormState.errors := [] |})).
Proof.
  apply (updateGameField_date (fun _ => None) NumberDecimal toLowerCaseLatin1
           {| getUTCFullYear := 2025; getUTCMonth := 8; getUTCDate := 6 |}
           {| FormState.formData := Samples.form [] [] [] [];
              FormState.errors := [] |}).
  discriminate.
Defined.

(** ** The conversion of the structured response, case by case *)

Lemma convertBet_with_leg (fields : list (jsstring * jsval)) (bet : string) :
  nullish (lookupField (lit bet) fields) = false ->
  exists r,
    convertBet (VObj fields) bet = Normal r /\
    truthy (f_odds r) = true /\ truthy (f_stake r) = true /\
    truthy (f_profit r) = true.
Proof.
  intros H. unfold convertBet, betField, topField.
  cbn [getProp mbind Completion_bind].
  assert (G : forall k, exists v, getProp (lookupField (lit bet) fields) k = Normal v).
  { intros k. destruct (lookupField (lit bet) fields); try discriminate H;
      cbn; eauto. }
  repeat match goal with
         | |- context [getProp (lookupField (lit bet) fields) ?k] =>
             destruct (G k) as [? ->]; cbn [mbind Completion_bind]
         end.
  eexists. split; [reflexivity |]. cbn [f_odds f_stake f_profit]. unfold orElse.
  repeat split;
    match goal with
    | |- truthy (if truthy ?v then _ else _) = true =>
        destruct (truthy v) eqn:E; [exact E | reflexivity]
    end.
Qed.

Ltac by_value v :=
  destruct v as [| | [|] | ? | [| ? ?] | ? | ?];
  unfold falsyOrText, orElse; cbn [truthy negb orb callReplace str];
  try match goal with
      | |- context [strictEq ?x 0%float || isNaN ?x] =>
          destruct (strictEq x 0%float || isNaN x); cbn [negb orb]
      end.

Lemma percentage_text (v : jsval) :
  falsyOrText v = true ->
  exists s, callReplace (removeFirst percent) (orElse v (str "0")) = Normal (VStr s).
Proof. by_value v; intros H; try discriminate H; eexists; reflexivity. Qed.

Lemma percentage_throws (v : jsval) :
  falsyOrText v = false ->
  callReplace (removeFirst percent) (orElse v (str "0")) = Throw TypeError.
Proof. by_value v; intros H; try discriminate H; reflexivity. Qed.

Lemma gameDate_text (v : jsval) :
  falsyOrText v = true ->
  exists s,
    (if truthy v then callReplace (replaceAll slash dash) v else Normal (str ""))
    = Normal (VStr s) /\ includes slash s = false.
Proof.
  by_value v; intros H; try discriminate H; eexists;
    (split; [reflexivity |]); try reflexivity.
  apply replaceAll_removes. reflexivity.
Qed.

Lemma gameDate_throws (v : jsval) :
  falsyOrText v = false ->
  (if truthy v then callReplace (replaceAll slash dash) v else Normal (str ""))
  = Throw TypeError.
Proof. by_value v; intros H; try discriminate H; reflexivity. Qed.

(** The conversion on an object, by the four tests that decide it. *)
Lemma convert_object (fields : list (jsstring * jsval)) :
  if falsyOrText (lookupField (lit "totalProfitPercentage") fields)
     && falsyOrText (lookupField (lit "gameDate") fields)
     && negb (nullish (lookupField (lit "betA") fields))
     && negb (nullish (lookupField (lit "betB") fields))
  then
    exists r,
      convertClaudeToOCRFormat (VObj fields) = Normal r /\
      isText (f_totalProfitPercentage r) = true /\
      (exists s, f_gameDate r = VStr s /\ includes slash s = false) /\
      truthy (f_odds (f_betA r)) = true /\ truthy (f_stake (f_betA r)) = true /\
      truthy (f_profit (f_betA r)) = true /\
      truthy (f_odds (f_betB r)) = true /\ truthy (f_stake (f_betB r)) = true /\
      truthy (f_profit (f_betB r)) = true /\
      truthy (f_gameTime r) = true
  else convertClaudeToOCRFormat (VObj fields) = Throw TypeError.
Proof.
  unfold convertClaudeToOCRFormat. cbn [getProp mbind Completion_bind].
  destruct (falsyOrText (lookupField (lit "totalProfitPercentage") fields)) eqn:Fp;
    cbn [andb];
    [destruct (percentage_text _ Fp) as [cp ->]
    | rewrite (percentage_throws _ Fp); reflexivity].
  cbn [mbind Completion_bind].
  destruct (falsyOrText (lookupField (lit "gameDate") fields)) eqn:Fd; cbn [andb];
    [destruct (gameDate_text _ Fd) as (gd & -> & Hgd)
    | rewrite (gameDate_throws _ Fd); reflexivity].
  cbn [mbind Completion_bind].
  destruct (nullish (lookupField (lit "betA") fields)) eqn:NA; cbn [andb negb];
    [rewrite (convertBet_without_leg fields "betA" NA); reflexivity |].
  destruct (convertBet_with_leg fields "betA" NA) as (ra & -> & A1 & A2 & A3).
  cbn [mbind Completion_bind].
  destruct (nullish (lookupField (lit "betB") fields)) eqn:NB; cbn [andb negb];
    [rewrite (convertBet_without_leg fields "betB" NB); reflexivity |].
  destruct (convertBet_with_leg fields "betB" NB) as (rb & -> & B1 & B2 & B3).
  unfold topField. cbn [getProp mbind Completion_bind].
  eexists. split; [reflexivity |].
  cbn [f_totalProfitPercentage f_gameDate f_betA f_betB f_gameTime isText].
  split; [reflexivity |]. split; [exists gd; split; [reflexivity | exact Hgd] |].
  repeat (split; [assumption |]).
  unfold orElse. destruct (truthy (lookupField (lit "gameTime") fields)) eqn:E;
    [exact E | reflexivity].
Qed.

(** X25. [convertClaudeToOCRFormat] answers exactly on an object whose two
    legs are present and whose percentage and game date are strings or
    falsy; on anything else it throws a TypeError. In the record it
    answers, the percentage and the game date are strings, the game date
    holds no slash, and the odds, the stake and the profit of each leg and
    the game time are never empty. *)
Theorem convertClaudeToOCRFormat_answers_iff (claudeData : jsval) :
  ((exists r, convertClaudeToOCRFormat claudeData = Normal r) <->
   exists fields,
     claudeData = VObj fields /\
     falsyOrText (lookupField (lit "totalProfitPercentage") fields) = true /\
     falsyOrText (lookupField (lit "gameDate") fields) = true /\
     nullish (lookupField (lit "betA") fields) = false /\
     nullish (lookupField (lit "betB") fields) = false) /\
  ((exists r, convertClaudeToOCRFormat claudeData = Normal r) \/
   convertClaudeToOCRFormat claudeData = Throw TypeError) /\
  (forall r,
      convertClaudeToOCRFormat claudeData = Normal r ->
      isText (f_totalProfitPercentage r) = true /\
      (exists s, f_gameDate r = VStr s /\ includes slash s = false) /\
      truthy (f_odds (f_betA r)) = true /\ truthy (f_stake (f_betA r)) = true /\
      truthy (f_profit (f_betA r)) = true /\
      truthy (f_odds (f_betB r)) = true /\ truthy (f_stake (f_betB r)) = true /\
      truthy (f_profit (f_betB r)) = true /\
      truthy (f_gameTime r) = true).
Proof.
  destruct claudeData as [| | b | x | t | items | fields];
    try (split; [split; [intros [r Hr]; discriminate Hr
                        | intros (fields & E & _); discriminate E]
                | split; [right; reflexivity | intros r Hr; discriminate Hr]]).
  pose proof (convert_object fields) as C.
  destruct (falsyOrText (lookupField (lit "totalProfitPercentage") fields)) eqn:Fp,
    (falsyOrText (lookupField (lit "gameDate") fields)) eqn:Fd,
    (nullish (lookupField (lit "betA") fields)) eqn:NA,
    (nullish (lookupField (lit "betB") fields)) eqn:NB; cbn [andb negb] in C;
    try (split; [split; [intros [r Hr]; congruence
                        | intros (fields' & [= <-] & H1 & H2 & H3 & H4); congruence]
                | split; [right; exact C | intros r Hr; congruence]]).
  destruct C as (r & Hr & Q).
  split; [split; [intros _; exists fields; repeat split; assumption
                 | intros _; exists r; exact Hr] |].
  split; [left; exists r; exact Hr |].
  intros r' Hr'. assert (r' = r) by congruence. subst r'. exact Q.
Qed.

Lemma convertClaudeToOCRFormat_witness :
  exists r,
    convertClaudeToOCRFormat
      (VObj [(lit "gameDate", str "26/09/2025");
             (lit "betA", VObj []); (lit "betB", VObj [])])
    = Normal r.
Proof.
  apply (proj2 (proj1 (convertClaudeToOCRFormat_answers_iff
                         (VObj [(lit "gameDate", str "26/09/2025");
                                (lit "betA", VObj []); (lit "betB", VObj [])])))).
  eexists. repeat split.
Defined.

(** ** The pair metrics, in both places *)

Lemma SFadd_comm (x y : SpecFloat.spec_float) :
  SpecFloat.SFadd prec emax x y = SpecFloat.SFadd prec emax y x.
Proof.
  destruct x as [sx | sx | | sx mx ex], y as [sy | sy | | sy my ey];
    try reflexivity;
    try (destruct sx, sy; reflexivity).
  unfold SpecFloat.SFadd. rewrite (Z.min_comm ey ex), Z.add_comm. reflexivity.
Qed.

Lemma float_add_comm (x y : number) : (x + y = y + x)%float.
Proof.
  apply Prim2SF_inj. rewrite !FloatAxioms.add_spec. apply SFadd_comm.
Qed.

(** X26. The pair metrics that [handleOCRConfirm] computes in line are
    those of [calculatePairMetrics] on the stakes and the payouts of the
    two legs; and [calculatePairMetrics] treats the legs alike: with the
    legs exchanged the total stake is the same and the two percentages
    change places. *)
Theorem pair_metrics_agree
    (Number : jsstring -> number) (data : OCRData)
    (stakeA stakeB payoutA payoutB : number) :
  let m :=
    calculatePairMetrics
      (Number (o_stake (o_betA data))) (Number (o_stake (o_betB data)))
      (Confirm.confirmPayout Number (o_betA data))
      (Confirm.confirmPayout Number (o_betB data)) in
  Confirm.confirmTotalStake Number data = totalStake m /\
  Confirm.confirmPercentage Number data (o_betA data) = profitPercentageA m /\
  Confirm.confirmPercentage Number data (o_betB data) = profitPercentageB m /\
  totalStake (calculatePairMetrics stakeB stakeA payoutB payoutA)
  = totalStake (calculatePairMetrics stakeA stakeB payoutA payoutB) /\
  profitPercentageA (calculatePairMetrics stakeB stakeA payoutB payoutA)
  = profitPercentageB (calculatePairMetrics stakeA stakeB payoutA payoutB) /\
  profitPercentageB (calculatePairMetrics stakeB stakeA payoutB payoutA)
  = profitPercentageA (calculatePairMetrics stakeA stakeB payoutA payoutB).
Proof.
  cbn zeta. do 3 (split; [reflexivity |]).
  unfold calculatePairMetrics. cbn [totalStake profitPercentageA profitPercentageB].
  rewrite (float_add_comm stakeB stakeA). repeat split; reflexivity.
Qed.

(** ** A date picked in the calendar *)

Lemma in_below (k n : N) : n < k -> In n (below k).
Proof.
  intros H. unfold below. apply List.in_map_iff.
  exists (N.to_nat n). split; [apply N2Nat.id |].
  apply List.in_seq. lia.
Qed.

Lemma padded_below_100 (n : N) :
  n < 100 -> twoDigits (padStart 2 zeroDigit (natToString n)) = true.
Proof.
  intros H.
  assert (A : List.forallb (fun n => twoDigits (padStart 2 zeroDigit (natToString n)))
                (below 100) = true) by (vm_compute; reflexivity).
  rewrite List.forallb_forall in A. apply A, (in_below 100). exact H.
Qed.

Lemma year_of_four_digits (n : N) :
  1000 <= n -> n < 10000 -> fourDigits (natToString n) = true.
Proof.
  intros H1 H2.
  assert (A : List.forallb
                (fun n => (n <? 1000) || fourDigits (natToString n))
                (below 10000) = true) by (vm_compute; reflexivity).
  rewrite List.forallb_forall in A.
  specialize (A n (in_below 10000 n H2)).
  apply orb_prop in A as [A | A]; [apply N.ltb_lt in A; lia | exact A].
Qed.

(** X27. A date picked in the calendar, sent by [handleOCRConfirm] as
    day-month-year of its UTC fields, is stored year first, exactly as the
    store prints a date of its own; so is its text typed with slashes. *)
Theorem calendar_date_stored_year_first (today : JSDate) (value : JSDate) :
  getUTCDate value <= 31 -> getUTCMonth value <= 11 ->
  1000 <= getUTCFullYear value -> getUTCFullYear value <= 9999 ->
  formattedGameDate today (DateString (formatGameDate (IsDate value)))
  = formattedGameDate value NotAString /\
  formattedGameDate today
    (DateString (replaceAll dash slash (formatGameDate (IsDate value))))
  = formattedGameDate value NotAString.
Proof.
  intros Hd Hm Hy1 Hy2.
  assert (Hd' : getUTCDate value < 100) by lia.
  assert (Hm' : getUTCMonth value + 1 < 100) by lia.
  assert (Hy' : getUTCFullYear value < 10000) by lia.
  pose proof (padded_below_100 (getUTCDate value) Hd') as D.
  pose proof (padded_below_100 (getUTCMonth value + 1) Hm') as M.
  pose proof (year_of_four_digits (getUTCFullYear value) Hy1 Hy') as Y.
  unfold formatGameDate, formattedGameDate at 2 4. cbn zeta.
  destruct (padStart 2 zeroDigit (natToString (getUTCDate value)))
    as [| d1 [| d2 [| ? ?]]]; try discriminate D.
  destruct (padStart 2 zeroDigit (natToString (getUTCMonth value + 1)))
    as [| m1 [| m2 [| ? ?]]]; try discriminate M.
  destruct (natToString (getUTCFullYear value))
    as [| y1 [| y2 [| y3 [| y4 [| ? ?]]]]]; try discriminate Y.
  unfold twoDigits in D, M. unfold fourDigits in Y.
  apply andb_prop in D as [D1 D2]. apply andb_prop in M as [M1 M2].
  apply andb_prop in Y as [Y Y4]. apply andb_prop in Y as [Y Y3].
  apply andb_prop in Y as [Y1 Y2].
  assert (F : List.forallb isDigit [d1; d2; m1; m2; y1; y2; y3; y4] = true).
  { cbn. rewrite D1, D2, M1, M2, Y1, Y2, Y3, Y4. reflexivity. }
  cbn [List.app]. split.
  - apply (formattedGameDate_reorders today dash); [right; reflexivity | exact F].
  - unfold replaceAll. cbn [List.map].
    rewrite (digit_not_dash d1 D1), (digit_not_dash d2 D2),
      (digit_not_dash m1 M1), (digit_not_dash m2 M2),
      (digit_not_dash y1 Y1), (digit_not_dash y2 Y2),
      (digit_not_dash y3 Y3), (digit_not_dash y4 Y4).
    change (unit_eqb dash dash) with true. cbn iota.
    apply (formattedGameDate_reorders today slash); [left; reflexivity | exact F].
Qed.

Lemma calendar_date_witness :
  formattedGameDate (now Samples.env0)
    (DateString
       (formatGameDate
          (IsDate {| getUTCFullYear := 2025; getUTCMonth := 8; getUTCDate := 6 |})))
  = formattedGameDate
      {| getUTCFullYear := 2025; getUTCMonth := 8; getUTCDate := 6 |} NotAString.
Proof.
  apply (calendar_date_stored_year_first (now Samples.env0)
           {| getUTCFullYear := 2025; getUTCMonth := 8; getUTCDate := 6 |});
    cbn; lia.
Defined.

(** ** Number sanitising, unit by unit *)

Lemma sanitizeNumber_app (x y : jsstring) :
  sanitizeNumber (x ++ y) = sanitizeNumber x ++ sanitizeNumber y.
Proof.
  unfold sanitizeNumber, replaceAll, removeAll.
  rewrite List.filter_app, List.map_app. reflexivity.
Qed.

Lemma sanitizeNumber_length (x : jsstring) :
  (List.length (sanitizeNumber x) <= List.length x)%nat.
Proof.
  unfold sanitizeNumber, replaceAll, removeAll. rewrite List.length_map.
  induction x as [| c x IH]; cbn; [lia |].
  destruct (isSanitizedSpace c); cbn; lia.
Qed.

(** X28. [sanitizeNumber] works unit by unit: it distributes over
    concatenation and never lengthens a string; the strings it leaves as
    they are are exactly the canonical ones; and replacing the commas
    before removing the spaces gives the same result. *)
Theorem sanitizeNumber_unit_by_unit (x y : jsstring) :
  sanitizeNumber (x ++ y) = sanitizeNumber x ++ sanitizeNumber y /\
  (List.length (sanitizeNumber x) <= List.length x)%nat /\
  (sanitizeNumber x = x <-> isCanonical x = true) /\
  removeAll isSanitizedSpace (replaceAll comma dot x) = sanitizeNumber x.
Proof.
  split; [apply sanitizeNumber_app |].
  split; [apply sanitizeNumber_length |].
  split.
  - split; [| apply sanitizeNumber_fixes_canonical].
    intros E. rewrite <- E. apply sanitizeNumber_canonical.
  - unfold sanitizeNumber, replaceAll, removeAll.
    induction x as [| c x IH]; cbn [List.map List.filter]; [reflexivity |].
    destruct (unit_eqb c comma) eqn:Ec.
    + apply N.eqb_eq in Ec. subst c.
      change (isSanitizedSpace dot) with false.
      change (isSanitizedSpace comma) with false.
      cbn [negb List.map]. change (unit_eqb comma comma) with true. cbn iota.
      f_equal. exact IH.
    + destruct (isSanitizedSpace c); cbn [negb List.map]; [exact IH |].
      rewrite Ec. f_equal. exact IH.
Qed.

(** ** The totals of the dashboard *)

Lemma abs_not_below_zero (x : number) : PrimFloat.ltb (PrimFloat.abs x) 0%float = false.
Proof.
  rewrite FloatAxioms.ltb_spec, FloatAxioms.abs_spec.
  change (Prim2SF 0%float) with (S754_zero false).
  destruct (Prim2SF x) as [s | s | | s m e]; reflexivity.
Qed.

Lemma countIf_zero (f : PairStat -> bool) (l : list PairStat) :
  countIf f l = 0%nat -> List.filter f l = [].
Proof. unfold countIf. destruct (List.filter f l); [reflexivity | discriminate]. Qed.

(** X29. The totals of the dashboard: the total loss never reads below 0;
    with no lost pair it is 0, and with no won pair the total profit
    is 0; with no pair at all the total staked is 0. *)
Theorem stats_totals (Number : jsstring -> number) (groups : list (list Bet)) :
  let st := stats Number groups in
  PrimFloat.ltb (totalLoss st) 0%float = false /\
  (lostPairs st = 0%nat -> totalLoss st = 0%float) /\
  (wonPairs st = 0%nat -> totalProfit st = 0%float) /\
  (totalPairs st = 0%nat -> totalStaked st = 0%float).
Proof.
  cbn zeta. unfold stats.
  cbn [totalLoss lostPairs wonPairs totalProfit totalPairs totalStaked].
  split; [apply abs_not_below_zero |].
  split; [| split].
  - intros H. rewrite (countIf_zero _ _ H). reflexivity.
  - intros H. rewrite (countIf_zero _ _ H). reflexivity.
  - intros H. destruct (pairStats Number groups); [reflexivity | discriminate H].
Qed.
